(** * Receipt normalisation and deal matching: a shallow embedding

  The development follows [services/receipt_parser.py] ([_post_process])
  and [services/analyzer.py] ([_filter_deals], [find_potential_matches]).

  Python values are embedded as follows.
  - [str] is [string]; every character is read as an ASCII code point.
    A byte above 127 stands for some character that is neither white
    space, nor a digit, nor a letter.
  - [int] is [Z].
  - [float] is IEEE 754 binary64, as specified by [SpecFloat] with
    precision 53 and maximal exponent 1024.
  - an exception that escapes a function is the [Raise] outcome of
    [result]; a [ValueError] that the source catches is the [None] of the
    parsing function that would have raised it. *)

From Stdlib Require Import ZArith List Bool Ascii String Lia Permutation.
From Stdlib Require Import SpecFloat DecimalString Sorted.
Import ListNotations.

Local Open Scope string_scope.
Local Open Scope Z_scope.

(** ** Outcomes *)

Inductive exn : Type :=
| OverflowError
| KeyError.

Inductive result (A : Type) : Type :=
| Ok (a : A)
| Raise (e : exn).

Arguments Ok {A} a.
Arguments Raise {A} e.

Definition bind {A B : Type} (r : result A) (k : A -> result B) : result B :=
match r with
| Ok a => k a
| Raise e => Raise e
end.

Notation "x <- r ;; k" := (bind r (fun x => k))
(at level 61, r at next level, right associativity).

(** ** Python strings *)

Module Str.

Definition code (c : ascii) : Z := Z.of_N (N_of_ascii c).

Definition between (lo hi : Z) (c : ascii) : bool :=
  (lo <=? code c) && (code c <=? hi).

Definition is_digit : ascii -> bool := between 48 57.
Definition is_upper : ascii -> bool := between 65 90.
Definition is_lower : ascii -> bool := between 97 122.
Definition is_alpha (c : ascii) : bool := is_upper c || is_lower c.

(** [str.isspace] on ASCII: TAB, LF, VT, FF, CR, FS, GS, RS, US, space. *)
Definition is_space (c : ascii) : bool :=
  between 9 13 c || between 28 32 c.

Definition to_upper (c : ascii) : ascii :=
  if is_lower c then ascii_of_N (N_of_ascii c - 32) else c.

Definition to_lower (c : ascii) : ascii :=
  if is_upper c then ascii_of_N (N_of_ascii c + 32) else c.

Fixpoint map (f : ascii -> ascii) (s : string) : string :=
  match s with
  | EmptyString => EmptyString
  | String c s' => String (f c) (map f s')
  end.

Definition upper : string -> string := map to_upper.
Definition lower : string -> string := map to_lower.

Definition is_empty (s : string) : bool :=
  match s with
  | EmptyString => true
  | String _ _ => false
  end.

(** Truth value of a string: non-empty. *)
Definition truthy (s : string) : bool := negb (is_empty s).

Fixpoint lstrip_by (p : ascii -> bool) (s : string) : string :=
  match s with
  | EmptyString => EmptyString
  | String c s' => if p c then lstrip_by p s' else s
  end.

Fixpoint rstrip_by (p : ascii -> bool) (s : string) : string :=
  match s with
  | EmptyString => EmptyString
  | String c s' =>
      let r := rstrip_by p s' in
      if is_empty r && p c then EmptyString else String c r
  end.

(** [s.strip()] *)
Definition strip (s : string) : string :=
  rstrip_by is_space (lstrip_by is_space s).

Fixpoint all (p : ascii -> bool) (s : string) : bool :=
  match s with
  | EmptyString => true
  | String c s' => p c && all p s'
  end.

(** [s.startswith(p)] *)
Definition startswith (s p : string) : bool := String.prefix p s.

(** [p in s] *)
Fixpoint contains (p s : string) : bool :=
  String.prefix p s ||
  match s with
  | EmptyString => false
  | String _ s' => contains p s'
  end.

(** [s.endswith("-")], for a one-character suffix. *)
Fixpoint ends_with_char (x : ascii) (s : string) : bool :=
  match s with
  | EmptyString => false
  | String c EmptyString => Ascii.eqb c x
  | String _ s' => ends_with_char x s'
  end.

(** [s.replace(x, "")], for a one-character pattern. *)
Fixpoint remove_char (x : ascii) (s : string) : string :=
  match s with
  | EmptyString => EmptyString
  | String c s' =>
      if Ascii.eqb c x then remove_char x s' else String c (remove_char x s')
  end.

(** [s.replace(x, y)], for one-character pattern and replacement. *)
Definition replace_char (x y : ascii) : string -> string :=
  map (fun c => if Ascii.eqb c x then y else c).

(** [s[n:]] and [s[:n]] *)
Fixpoint drop (n : nat) (s : string) : string :=
  match n, s with
  | O, _ => s
  | S _, EmptyString => EmptyString
  | S n', String _ s' => drop n' s'
  end.

Fixpoint take (n : nat) (s : string) : string :=
  match n, s with
  | O, _ => EmptyString
  | S _, EmptyString => EmptyString
  | S n', String c s' => String c (take n' s')
  end.

(** The longest prefix of characters satisfying [p], and what follows. *)
Fixpoint span (p : ascii -> bool) (s : string) : string * string :=
  match s with
  | EmptyString => (EmptyString, EmptyString)
  | String c s' =>
      if p c then let '(a, b) := span p s' in (String c a, b)
      else (EmptyString, s)
  end.

(** [s.split()]: fields separated by runs of white space; [cur] is the
    field being read. *)
Fixpoint split_from (cur : string) (s : string) : list string :=
  match s with
  | EmptyString => if is_empty cur then [] else [cur]
  | String c s' =>
      if is_space c
      then (if is_empty cur then split_from EmptyString s'
            else cur :: split_from EmptyString s')
      else split_from (cur ++ String c EmptyString) s'
  end.

Definition split : string -> list string := split_from EmptyString.

(** Membership of a string in a tuple or set of strings. *)
Definition mem (s : string) (l : list string) : bool :=
  existsb (String.eqb s) l.

(** Case-insensitive prefix test on ASCII letters ([re.IGNORECASE]):
    [p] is given in upper case; returns the rest of [s] after [p]. *)
Fixpoint eat_ci (p s : string) : option string :=
  match p, s with
  | EmptyString, _ => Some s
  | String _ _, EmptyString => None
  | String a p', String c s' =>
      if Ascii.eqb (to_upper c) a then eat_ci p' s' else None
  end.

End Str.

(** ** Python numbers *)

Module Num.

Definition float : Type := spec_float.

Definition prec : Z := 53.
Definition emax : Z := 1024.

Definition nan : float := S754_nan.

(** *** Integers from text: [int(s)] *)

Definition digit_val (c : ascii) : Z := Str.code c - 48.

Fixpoint digits_value (acc : Z) (s : string) : Z :=
  match s with
  | EmptyString => acc
  | String c s' => digits_value (10 * acc + digit_val c) s'
  end.

(** Digits with single underscores in between; the digits are returned.
    [prev] tells whether the previous character was a digit. *)
Fixpoint grouped_digits (prev : bool) (s : string) : option string :=
  match s with
  | EmptyString => if prev then Some EmptyString else None
  | String c s' =>
      if Str.is_digit c
      then option_map (String c) (grouped_digits true s')
      else if Ascii.eqb c "_" && prev then grouped_digits false s'
      else None
  end.

Definition split_sign (s : string) : bool * string :=
  match s with
  | String "-" s' => (true, s')
  | String "+" s' => (false, s')
  | _ => (false, s)
  end.

(** CPython refuses to convert more than this many digits
    ([sys.int_info.default_max_str_digits]); the error is a [ValueError]. *)
Definition int_max_str_digits : nat := 4300.

(** The white space that [int] and [float] skip around a numeral:
    TAB, LF, VT, FF, CR and space.  The separators FS, GS, RS and US,
    which [str.strip] removes, are a [ValueError] here. *)
Definition numeral_space (c : ascii) : bool :=
  Str.between 9 13 c || Ascii.eqb c " ".

Definition trim (s : string) : string :=
  Str.rstrip_by numeral_space (Str.lstrip_by numeral_space s).

(** [int(s)]; [None] stands for [ValueError]. *)
Definition int_of_str (s : string) : option Z :=
  let '(neg, body) := split_sign (trim s) in
  match grouped_digits false body with
  | None => None
  | Some ds =>
      if Nat.leb (String.length ds) int_max_str_digits
      then Some (if neg then - digits_value 0 ds else digits_value 0 ds)
      else None
  end.

(** *** Decimal to binary64, correctly rounded *)

(** The float nearest to [(-1)^neg * m * 10^e10], ties to even. *)
Definition dec_to_float (neg : bool) (m : Z) (e10 : Z) : float :=
  match m with
  | Z0 => S754_zero neg
  | Zneg _ => nan
  | Zpos _ =>
      if 0 <=? e10
      then binary_normalize prec emax
             (SpecFloat.cond_Zopp neg (m * 10 ^ e10)) 0 neg
      else
        let '(q, e, l) :=
          SFdiv_core_binary prec emax m 0 (10 ^ (- e10)) 0 in
        binary_round_aux prec emax neg q e l
  end.

(** [float(n)] for an integer operand of [/]: the conversion raises
    [OverflowError] when the nearest float would be infinite. *)
Definition float_of_int (n : Z) : result float :=
  match binary_normalize prec emax n 0 false with
  | S754_infinity _ => Raise OverflowError
  | f => Ok f
  end.

(** *** Floats from text: [float(s)] *)

(** Underscores may only stand between two digits; they are removed.
    [prev] is the previous character (NUL at the start). *)
Fixpoint strip_underscores (prev : ascii) (s : string) : option string :=
  match s with
  | EmptyString => if Ascii.eqb prev "_" then None else Some EmptyString
  | String c s' =>
      if Ascii.eqb c "_"
      then (if Str.is_digit prev then strip_underscores c s' else None)
      else if Ascii.eqb prev "_" && negb (Str.is_digit c) then None
      else option_map (String c) (strip_underscores c s')
  end.

(** The exponent part: empty, or [e] or [E], an optional sign, digits. *)
Definition exponent (s : string) : option Z :=
  match s with
  | EmptyString => Some 0
  | String c s' =>
      if Ascii.eqb (Str.to_lower c) "e"
      then
        let '(neg, ds) := split_sign s' in
        if Str.truthy ds && Str.all Str.is_digit ds
        then Some (if neg then - digits_value 0 ds else digits_value 0 ds)
        else None
      else None
  end.

Definition decimal_literal (neg : bool) (s : string) : option float :=
  let '(ip, r1) := Str.span Str.is_digit s in
  let '(fp, r2) :=
    match r1 with
    | String "." r => Str.span Str.is_digit r
    | _ => (EmptyString, r1)
    end in
  if Str.is_empty ip && Str.is_empty fp then None
  else
    match exponent r2 with
    | None => None
    | Some ex =>
        Some (dec_to_float neg (digits_value 0 (ip ++ fp))
                (ex - Z.of_nat (String.length fp)))
    end.

(** [float(s)]; [None] stands for [ValueError]. *)
Definition float_of_str (s : string) : option float :=
  match strip_underscores Ascii.zero (trim s) with
  | None => None
  | Some t =>
      let '(neg, body) := split_sign t in
      let low := Str.lower body in
      if String.eqb low "inf" || String.eqb low "infinity"
      then Some (S754_infinity neg)
      else if String.eqb low "nan" then Some nan
      else decimal_literal neg body
  end.

(** *** Arithmetic and comparisons *)

Definition sub : float -> float -> float := SFsub prec emax.
Definition div : float -> float -> float := SFdiv prec emax.
Definition abs : float -> float := SFabs.

Definition lt (x y : float) : bool :=
  match SFcompare x y with Some Lt => true | _ => false end.
Definition gt (x y : float) : bool :=
  match SFcompare x y with Some Gt => true | _ => false end.
Definition ge (x y : float) : bool :=
  match SFcompare x y with Some Gt | Some Eq => true | _ => false end.
Definition eq (x y : float) : bool :=
  match SFcompare x y with Some Eq => true | _ => false end.

Definition is_nan (x : float) : bool :=
  match x with S754_nan => true | _ => false end.

(** *** Rounding to two decimals *)

(** The integer nearest to [m * 2^e * 100], ties to even. *)
Definition hundredths (m : positive) (e : Z) : Z :=
  if 0 <=? e then Zpos m * 2 ^ e * 100
  else
    let d := 2 ^ (- e) in
    let n := Zpos m * 100 in
    let q := n / d in
    match (2 * (n mod d)) ?= d with
    | Lt => q
    | Gt => q + 1
    | Eq => if Z.even q then q else q + 1
    end.

(** [round(x, 2)] *)
Definition round2 (x : float) : float :=
  match x with
  | S754_finite s m e => dec_to_float s (hundredths m e) (-2)
  | _ => x
  end.

Definition digit_char (d : Z) : ascii := ascii_of_N (Z.to_N (48 + d)).

Definition Z_to_str (n : Z) : string :=
  NilZero.string_of_uint (N.to_uint (Z.to_N n)).

Definition fixed2 (neg : bool) (h : Z) : string :=
  (if neg then "-" else "") ++ Z_to_str (h / 100) ++ "." ++
  String (digit_char (h mod 100 / 10))
    (String (digit_char (h mod 10)) EmptyString).

(** [f"{x:.2f}"] *)
Definition format_2f (x : float) : string :=
  match x with
  | S754_nan => "nan"
  | S754_infinity s => if s then "-inf" else "inf"
  | S754_zero s => fixed2 s 0
  | S754_finite s m e => fixed2 s (hundredths m e)
  end.

(** The literal [0.001]. *)
Definition tolerance : float := dec_to_float false 1 (-3).

End Num.

(** * The line normaliser: [services/receipt_parser.py] *)

Module ReceiptParser.

(** A line is a Python dict; the record keeps the six keys that
    [_post_process] reads or writes, [None] for a key that is absent.
    The extraction step puts only the first four keys in a line.  The
    dicts of one input list are distinct objects (they come from
    [json.loads] or are built one by one in [_parse_premier]), so a write
    to one line never shows through another. *)
Record Item : Type := mkItem {
  name : option string;
  price : option string;
  qty : option string;
  item_number : option string;
  tpd : option bool;
  original_price : option string
}.

Definition set_name (v : string) (i : Item) : Item :=
  mkItem (Some v) (price i) (qty i) (item_number i) (tpd i)
    (original_price i).
Definition set_price (v : string) (i : Item) : Item :=
  mkItem (name i) (Some v) (qty i) (item_number i) (tpd i)
    (original_price i).
Definition set_qty (v : string) (i : Item) : Item :=
  mkItem (name i) (price i) (Some v) (item_number i) (tpd i)
    (original_price i).
Definition set_item_number (v : string) (i : Item) : Item :=
  mkItem (name i) (price i) (qty i) (Some v) (tpd i) (original_price i).
Definition set_tpd (v : bool) (i : Item) : Item :=
  mkItem (name i) (price i) (qty i) (item_number i) (Some v)
    (original_price i).
Definition set_original_price (v : string) (i : Item) : Item :=
  mkItem (name i) (price i) (qty i) (item_number i) (tpd i) (Some v).

(** [d.get(k, default)] *)
Definition get {A : Type} (field : option A) (default : A) : A :=
  match field with
  | Some v => v
  | None => default
  end.

(** [d.setdefault(k, v)], seen on the key's slot. *)
Definition setdefault {A : Type} (field : option A) (v : A) : option A :=
  match field with
  | Some _ => field
  | None => Some v
  end.

(** ** Patterns *)

(** [^(\d+)\s*@\s*[\d.]+] : the digits of group 1 when [s] matches.
    The digit run and both white-space runs can only be matched whole,
    since what must follow each of them is outside its class. *)
Definition qty_marker (s : string) : option string :=
  let '(ds, r1) := Str.span Str.is_digit s in
  if Str.is_empty ds then None
  else
    match Str.lstrip_by Str.is_space r1 with
    | String "@" r2 =>
        match Str.lstrip_by Str.is_space r2 with
        | String c _ =>
            if Str.is_digit c || Ascii.eqb c "." then Some ds else None
        | EmptyString => None
        end
    | _ => None
    end.

(** [AGE\s*VERIFIED] at the start, letters in either case. *)
Definition age_verified (s : string) : bool :=
  match Str.eat_ci "AGE" s with
  | Some r =>
      match Str.eat_ci "VERIFIED" (Str.lstrip_by Str.is_space r) with
      | Some _ => true
      | None => false
      end
  | None => false
  end.

(** [L\d+\s*MEMBER] or [N\d+\s*MEMBER] at the start, for [tag] ["L"] or
    ["N"], letters in either case. *)
Definition member_line (tag : string) (s : string) : bool :=
  match Str.eat_ci tag s with
  | Some r =>
      let '(ds, r1) := Str.span Str.is_digit r in
      if Str.is_empty ds then false
      else
        match Str.eat_ci "MEMBER" (Str.lstrip_by Str.is_space r1) with
        | Some _ => true
        | None => false
        end
  | None => false
  end.

(** [_NOISE_PATTERNS.match(s)] *)
Definition _NOISE_PATTERNS (s : string) : bool :=
  age_verified s
  || (match Str.eat_ci "DEPOSIT" s with Some _ => true | None => false end)
  || member_line "L" s
  || member_line "N" s
  || (match qty_marker s with Some _ => true | None => false end).

(** ["TPD/" in name.upper()] *)
Definition has_tpd_marker (s : string) : bool :=
  Str.contains "TPD/" (Str.upper s).

(** The characters that [rstrip] removes from the end of a price:
    letters, space, [@], [#] and [*]. *)
Definition price_junk (c : ascii) : bool :=
  Str.is_alpha c || Ascii.eqb c " " || Ascii.eqb c "@"
  || Ascii.eqb c "#" || Ascii.eqb c "*".

(** [[\dOoBbIlSsGg]] *)
Definition confusable (c : ascii) : bool :=
  Str.is_digit c
  || Str.mem (String c EmptyString)
       ["O"; "o"; "B"; "b"; "I"; "l"; "S"; "s"; "G"; "g"].

(** [str.maketrans("OoBbIlSsGg", "0088115599")] *)
Definition fix_char (c : ascii) : ascii :=
  if Ascii.eqb c "O" || Ascii.eqb c "o" then "0"%char
  else if Ascii.eqb c "B" || Ascii.eqb c "b" then "8"%char
  else if Ascii.eqb c "I" || Ascii.eqb c "l" then "1"%char
  else if Ascii.eqb c "S" || Ascii.eqb c "s" then "5"%char
  else if Ascii.eqb c "G" || Ascii.eqb c "g" then "9"%char
  else c.

(** [^([\dOoBbIlSsGg]{4,8})\s+] : group 1 when [s] matches.  A match
    exists exactly when the leading run of class characters has 4 to 8
    characters and white space follows it: a shorter group would be
    followed by a class character, which is not white space. *)
Definition leading_token (s : string) : option string :=
  let '(tok, rest) := Str.span confusable s in
  if Nat.leb 4 (String.length tok) && Nat.leb (String.length tok) 8
  then
    match rest with
    | String c _ => if Str.is_space c then Some tok else None
    | EmptyString => None
    end
  else None.

(** [s.isdigit()] *)
Definition isdigit (s : string) : bool :=
  Str.truthy s && Str.all Str.is_digit s.

(** ** First pass: noise and quantity markers (lines 134-154) *)

Definition zero_price (price_str : string) : bool :=
  Str.is_empty price_str || Str.mem price_str ["0"; "0.00"; ""].

Fixpoint clean_loop (pending_qty : option string) (items : list Item)
  : list Item :=
  match items with
  | [] => []
  | item :: rest =>
      let name := Str.strip (get (name item) "") in
      let price_str := Str.strip (get (price item) "0") in
      match qty_marker name with
      | Some q => clean_loop (Some q) rest
      | None =>
          if _NOISE_PATTERNS name then clean_loop pending_qty rest
          else if negb (has_tpd_marker name) && zero_price price_str
          then clean_loop pending_qty rest
          else
            match pending_qty with
            | Some q =>
                if Str.truthy q && negb (has_tpd_marker name)
                then set_qty q item :: clean_loop None rest
                else item :: clean_loop pending_qty rest
            | None => item :: clean_loop None rest
            end
      end
  end.

(** ** Second pass: folding and repair (lines 156-207) *)

(** [d[k]] *)
Definition getitem {A : Type} (field : option A) : result A :=
  match field with
  | Some v => Ok v
  | None => Raise KeyError
  end.

Definition clean_price_of (item : Item) : string :=
  Str.rstrip_by price_junk (Str.strip (get (price item) "0")).

Definition is_discount_line (item : Item) : bool :=
  has_tpd_marker (get (name item) "")
  || Str.ends_with_char "-" (clean_price_of item).

(** Lines 166-174: the discount of [clean_price] applied to [prev]. *)
Definition fold_discount (prev : Item) (clean_price : string)
  : result Item :=
  match Num.float_of_str (Str.remove_char "-" clean_price) with
  | None => Ok prev
  | Some discount =>
      p <- getitem (price prev) ;;
      match Num.float_of_str p with
      | None => Ok prev
      | Some orig =>
          if Num.lt discount orig
          then Ok (set_tpd true
                     (set_price (Num.format_2f (Num.sub orig discount))
                        (set_original_price p prev)))
          else Ok prev
      end
  end.

(** Lines 177-179. *)
Definition init_item (item : Item) : Item :=
  mkItem (name item)
    (Some (Str.remove_char "-" (clean_price_of item)))
    (qty item) (item_number item)
    (setdefault (tpd item) false)
    (setdefault (original_price item) "").

(** Lines 181-187.  The handler catches [ValueError] (and
    [ZeroDivisionError], which cannot occur since [q > 1] is tested
    first).  The division converts [q] to a float before dividing, and
    the [OverflowError] of that conversion is not caught. *)
Definition qty_check (item : Item) : result Item :=
  match Num.int_of_str (get (qty item) "1") with
  | None => Ok item
  | Some q =>
      price_str <- getitem (price item) ;;
      match Num.float_of_str price_str with
      | None => Ok item
      | Some p =>
          if 1 <? q
          then
            qf <- Num.float_of_int q ;;
            let r := Num.div p qf in
            if Num.gt (Num.abs (Num.sub r (Num.round2 r))) Num.tolerance
            then Ok (set_qty "1" item)
            else Ok item
          else Ok item
      end
  end.

(** Lines 189-205. *)
Definition recover_item_number (item : Item) : Item :=
  let n := get (name item) "" in
  let num := get (item_number item) "" in
  let '(item, n, num) :=
    if Str.truthy num then (item, n, num)
    else
      match leading_token n with
      | Some raw_tok =>
          let fixed := Str.map fix_char raw_tok in
          if isdigit fixed
          then
            let n' := Str.strip (Str.drop (String.length raw_tok) n) in
            (set_name n' (set_item_number fixed item), n', fixed)
          else (item, n, num)
      | None => (item, n, num)
      end in
  let '(item, num) :=
    if Str.truthy num && Nat.ltb 8 (String.length num)
    then (set_item_number "" item, "")
    else (item, num) in
  if Str.truthy num && Str.startswith n num
  then set_name (Str.strip (Str.drop (String.length num) n)) item
  else item.

Definition finalize (item : Item) : result Item :=
  item' <- qty_check (init_item item) ;;
  Ok (recover_item_number item').

(** [merged[:-1]] and [merged[-1]] of a non-empty list. *)
Fixpoint unsnoc {A : Type} (l : list A) : option (list A * A) :=
  match l with
  | [] => None
  | x :: l' =>
      match unsnoc l' with
      | None => Some ([], x)
      | Some (init, y) => Some (x :: init, y)
      end
  end.

(** One iteration of the loop of lines 157-206. *)
Definition merge_step (merged : list Item) (item : Item)
  : result (list Item) :=
  match (if is_discount_line item then unsnoc merged else None) with
  | Some (init, prev) =>
      prev' <- fold_discount prev (clean_price_of item) ;;
      Ok (init ++ [prev'])%list
  | None =>
      item' <- finalize item ;;
      Ok (merged ++ [item'])%list
  end.

Fixpoint merge_loop (merged : list Item) (cleaned : list Item)
  : result (list Item) :=
  match cleaned with
  | [] => Ok merged
  | item :: rest =>
      merged' <- merge_step merged item ;;
      merge_loop merged' rest
  end.

Definition _post_process (items : list Item) : result (list Item) :=
  merge_loop [] (clean_loop None items).

End ReceiptParser.

(** * The deal matcher: [services/analyzer.py] *)

Module Analyzer.

(** ** Deal filter *)

(** A stored deal.  [db.put_price_drop] writes every key; the matcher
    subscripts [item_name] and [sale_price] and reads the other keys
    with [get], so those may be absent here. *)
Record Deal : Type := mkDeal {
  d_item_name : string;
  d_item_number : option string;
  d_sale_price : string;
  d_source : option string;
  d_link : option string;
  d_promo_end : option string;
  d_scanned_date : option string
}.

(** The module-level variables that [_filter_deals] reads, passed as a
    value. *)
Record Filters : Type := mkFilters {
  _date_from : option string;
  _date_to : option string;
  _sources : option (list string)
}.

Definition get {A : Type} : option A -> A -> A := ReceiptParser.get.

(** [x or y] on strings, [x] possibly missing. *)
Definition or_else (x : option string) (y : string) : string :=
  match x with
  | Some v => if Str.truthy v then v else y
  | None => y
  end.

(** The key compared with [_date_from] (line 29). *)
Definition from_key (d : Deal) : string :=
  or_else (d_promo_end d) (Str.take 10 (get (d_scanned_date d) "")).

(** The key compared with [_date_to] (line 31). *)
Definition to_key (d : Deal) : string :=
  or_else (Some (Str.take 10 (get (d_scanned_date d) "")))
    (get (d_promo_end d) "9999").

Definition _filter_deals (f : Filters) (drops : list Deal) : list Deal :=
  let filtered := drops in
  let filtered :=
    match _sources f with
    | Some (s :: ss) =>
        filter (fun d => Str.mem (get (d_source d) "") (s :: ss)) filtered
    | _ => filtered
    end in
  let filtered :=
    match _date_from f with
    | Some (String c df) =>
        filter (fun d => String.leb (String c df) (from_key d)) filtered
    | _ => filtered
    end in
  let filtered :=
    match _date_to f with
    | Some (String c dt) =>
        filter (fun d => String.leb (to_key d) (String c dt)) filtered
    | _ => filtered
    end in
  filtered.

(** ** Matching *)

(** The entries built at lines 89-96. *)
Record ReceiptItem : Type := mkReceiptItem {
  ri_name : string;
  ri_price : string;
  ri_original_price : string;
  ri_item_number : string;
  ri_receipt_date : string;
  ri_tpd : bool
}.

Inductive MatchKind : Type :=
| exact_item_number
| partial_item_number
| name_keyword.

Record MatchCandidate : Type := mkMatchCandidate {
  receipt_item : string;
  receipt_price : string;
  original_price : string;
  receipt_item_number : string;
  receipt_date : string;
  tpd_at_purchase : bool;
  deal_name : string;
  deal_price : string;
  deal_item_number : string;
  deal_source : string;
  deal_link : string;
  deal_expiry : string;
  matched_by : MatchKind;
  savings : Num.float
}.

Definition skip_words : list string :=
  ["the"; "and"; "for"; "with"; "pack"; "size"; "sizes"; "plus"; "mens";
   "womens"].

(** Lines 102-103. *)
Definition keywords (item_name : string) : list string :=
  filter
    (fun w => Nat.leb 4 (String.length w) && negb (Str.mem w skip_words))
    (Str.split (Str.replace_char "/" " " (Str.lower item_name))).

Definition count_in (ws : list string) (d_name : string) : nat :=
  List.length (filter (fun w => Str.contains w d_name) ws).

(** Lines 107-118. *)
Definition classify (ri_num : string) (ri_words : list string) (d : Deal)
  : option MatchKind :=
  let d_num := get (d_item_number d) "" in
  let d_name := Str.lower (d_item_name d) in
  if Str.truthy ri_num && Str.truthy d_num && String.eqb ri_num d_num
  then Some exact_item_number
  else if Str.truthy ri_num && Str.truthy d_num
          && Nat.leb 5 (String.length ri_num)
          && Nat.leb 5 (String.length d_num)
          && String.eqb (Str.take 5 ri_num) (Str.take 5 d_num)
  then Some partial_item_number
  else if Nat.leb 2 (List.length ri_words)
          && Nat.leb 2 (count_in ri_words d_name)
  then Some name_keyword
  else
    match ri_words with
    | [w] =>
        if Nat.leb 5 (String.length w) && Str.contains w d_name
        then Some name_keyword
        else None
    | _ => None
    end.

(** [match_rank] *)
Definition match_rank (k : MatchKind) : Z :=
  match k with
  | exact_item_number => 3
  | partial_item_number => 2
  | name_keyword => 1
  end.

(** Lines 107-150 for one deal: the entry appended to [ri_matches], with
    its [_rank], or nothing. *)
Definition match_entry (ri : ReceiptItem) (ri_words : list string)
  (d : Deal) : option (MatchCandidate * Z) :=
  match classify (ri_item_number ri) ri_words d with
  | None => None
  | Some by_ =>
      match Num.float_of_str (ri_price ri) with
      | None => None
      | Some paid =>
          match Num.float_of_str (d_sale_price d) with
          | None => None
          | Some deal =>
              if Num.ge deal paid then None
              else
                Some (mkMatchCandidate
                        (ri_name ri) (ri_price ri) (ri_original_price ri)
                        (ri_item_number ri) (ri_receipt_date ri) (ri_tpd ri)
                        (d_item_name d) (d_sale_price d)
                        (get (d_item_number d) "")
                        (get (d_source d) "") (get (d_link d) "")
                        (get (d_promo_end d) "")
                        by_
                        (Num.round2 (Num.sub paid deal)),
                      match_rank by_)
          end
      end
  end.

Fixpoint filter_map {A B : Type} (f : A -> option B) (l : list A)
  : list B :=
  match l with
  | [] => []
  | x :: l' =>
      match f x with
      | Some y => y :: filter_map f l'
      | None => filter_map f l'
      end
  end.

Definition ri_matches (ri : ReceiptItem) (drops : list Deal)
  : list (MatchCandidate * Z) :=
  filter_map (match_entry ri (keywords (ri_name ri))) drops.

(** The key of line 154 and Python's [>] on such pairs: the first
    components decide unless they are [==]. *)
Definition key (m : MatchCandidate * Z) : Num.float * Z :=
  (savings (fst m), snd m).

Definition key_gt (k1 k2 : Num.float * Z) : bool :=
  if Num.eq (fst k1) (fst k2) then snd k2 <? snd k1
  else Num.gt (fst k1) (fst k2).

(** [max(l, key=...)] of a non-empty list [first :: rest]: the running
    maximum changes only for a strictly greater key. *)
Definition py_max {A K : Type} (gt : K -> K -> bool) (key : A -> K)
  (first : A) (rest : list A) : A :=
  fold_left (fun cur m => if gt (key m) (key cur) then m else cur)
    rest first.

(** Lines 152-156: the candidate kept for one receipt item. *)
Definition best_match (ri : ReceiptItem) (drops : list Deal)
  : option MatchCandidate :=
  match ri_matches ri drops with
  | [] => None
  | first :: rest => Some (fst (py_max key_gt key first rest))
  end.

(** [list.sort(key=...)] is stable; so is this insertion sort. *)
Fixpoint insert_by {A : Type} (k : A -> string) (x : A) (l : list A)
  : list A :=
  match l with
  | [] => [x]
  | y :: l' =>
      if String.leb (k x) (k y) then x :: y :: l'
      else y :: insert_by k x l'
  end.

Definition sort_by {A : Type} (k : A -> string) (l : list A) : list A :=
  fold_right (insert_by k) [] l.

(** The candidate list of [find_potential_matches], before it is
    serialised; [drops] is the filtered deal list.  The two messages the
    source returns in place of JSON (no receipts or no deals; no match)
    stand for the empty list. *)
Definition find_potential_matches (receipt_items : list ReceiptItem)
  (drops : list Deal) : list MatchCandidate :=
  sort_by receipt_date
    (flat_map
       (fun ri =>
          match best_match ri drops with
          | Some best => [best]
          | None => []
          end)
       receipt_items).

End Analyzer.

(** * Vocabulary of the properties *)

Module Props.
Import ReceiptParser.

(** A line as the extraction step produces it: without the keys that
    the normaliser adds. *)
Definition raw (i : Item) : Prop :=
  tpd i = None /\ original_price i = None.

(** Two items made from the same line: folding a discount changes
    neither the name, nor the quantity, nor the item number. *)
Definition same_line (a b : Item) : Prop :=
  name a = name b /\ qty a = qty b /\ item_number a = item_number b.

(** The test of line 184, negated: [p / q] is within [0.001] of its
    rounding to two decimals. *)
Definition evenly_divisible (p qf : Num.float) : bool :=
  let r := Num.div p qf in
  negb (Num.gt (Num.abs (Num.sub r (Num.round2 r))) Num.tolerance).

(** The quantity of the line is an integer too large for a float: the
    one case in which finalizing a line raises. *)
Definition qty_overflows (l : Item) : Prop :=
  exists q : Z,
    Num.int_of_str (get (qty l) "1") = Some q /\
    Num.float_of_int q = Raise OverflowError.

(** Every item of [merged] has a [price] key. *)
Definition priced (merged : list Item) : Prop :=
  Forall (fun i => price i <> None) merged.


(** *** Comparisons *)

Definition not_lt (c : comparison) : bool :=
  match c with Lt => false | _ => true end.

(** The outcome of comparing [x] with [z] from those of [x] with [y]
    and [y] with [z], when neither is [Lt]. *)
Definition both (c1 c2 : comparison) : comparison :=
  match c1, c2 with Eq, Eq => Eq | _, _ => Gt end.

(** *** Deal filter *)

Import Analyzer.

(** A bound or a source list counts as given when it is not empty. *)
Definition given_date (o : option string) : option string :=
  match o with
  | Some (String c s) => Some (String c s)
  | _ => None
  end.

Definition source_allowed (f : Filters) (d : Deal) : bool :=
  match _sources f with
  | Some (s :: ss) => Str.mem (Analyzer.get (d_source d) "") (s :: ss)
  | _ => true
  end.

(** The date of a deal as the specification has it: [promo_end] if
    present, else the scan date. *)
Definition effective_date (d : Deal) : string :=
  match d_promo_end d with
  | Some (String c s) => String c s
  | _ => Str.take 10 (Analyzer.get (d_scanned_date d) "")
  end.

(** The filter as the specification words it: one effective date,
    tested against both bounds. *)
Definition keeps_by_effective_date (f : Filters) (d : Deal) : bool :=
  source_allowed f d
  && match given_date (_date_from f) with
     | Some df => String.leb df (effective_date d)
     | None => true
     end
  && match given_date (_date_to f) with
     | Some dt => String.leb (effective_date d) dt
     | None => true
     end.

(** The filter of the source in one predicate: each bound has its own
    key. *)
Definition keeps (f : Filters) (d : Deal) : bool :=
  source_allowed f d
  && match given_date (_date_from f) with
     | Some df => String.leb df (from_key d)
     | None => true
     end
  && match given_date (_date_to f) with
     | Some dt => String.leb (to_key d) dt
     | None => true
     end.

(** *** Matching *)

(** [w] occurs in [s] as a substring. *)
Definition occurs (w s : string) : Prop :=
  exists a b : string, s = a ++ w ++ b.

Definition exact_rule (ri_num : string) (d : Deal) : Prop :=
  let d_num := Analyzer.get (d_item_number d) "" in
  ri_num <> "" /\ d_num <> "" /\ ri_num = d_num.

Definition partial_rule (ri_num : string) (d : Deal) : Prop :=
  let d_num := Analyzer.get (d_item_number d) "" in
  ri_num <> "" /\ d_num <> "" /\
  (5 <= String.length ri_num)%nat /\ (5 <= String.length d_num)%nat /\
  Str.take 5 ri_num = Str.take 5 d_num.

(** Two of the keywords (two positions of the keyword list) occur in
    the lowercased deal name, or the only keyword has five characters
    or more and occurs in it. *)
Definition keyword_rule (ri_words : list string) (d : Deal) : Prop :=
  let d_name := Str.lower (d_item_name d) in
  (exists (i j : nat) (w1 w2 : string),
      (i < j)%nat /\
      nth_error ri_words i = Some w1 /\ nth_error ri_words j = Some w2 /\
      occurs w1 d_name /\ occurs w2 d_name)
  \/
  (exists w : string,
      ri_words = [w] /\ (5 <= String.length w)%nat /\ occurs w d_name).

(** The first rule that holds, in the order exact, partial, keyword. *)
Inductive classified (ri_num : string) (ri_words : list string) (d : Deal)
  : option MatchKind -> Prop :=
| by_exact :
    exact_rule ri_num d ->
    classified ri_num ri_words d (Some exact_item_number)
| by_partial :
    ~ exact_rule ri_num d -> partial_rule ri_num d ->
    classified ri_num ri_words d (Some partial_item_number)
| by_keyword :
    ~ exact_rule ri_num d -> ~ partial_rule ri_num d ->
    keyword_rule ri_words d ->
    classified ri_num ri_words d (Some name_keyword)
| unmatched :
    ~ exact_rule ri_num d -> ~ partial_rule ri_num d ->
    ~ keyword_rule ri_words d ->
    classified ri_num ri_words d None.

(** [s] read as fields: white space, then a field without white
    space, and so on. *)
Inductive fields : string -> list string -> Prop :=
| fields_end (sp : string) :
    Str.all Str.is_space sp = true -> fields sp []
| fields_next (sp w s : string) (ws : list string) :
    Str.all Str.is_space sp = true ->
    w <> "" ->
    Str.all (fun c => negb (Str.is_space c)) w = true ->
    Str.is_empty s = true \/
      (exists (c : ascii) (s' : string),
          s = String c s' /\ Str.is_space c = true) ->
    fields s ws ->
    fields (sp ++ w ++ s) (w :: ws).

(** The candidates the claim about prices speaks of: sale price
    strictly below the paid price, savings their rounded difference and
    strictly positive. *)
Definition strictly_cheaper_with_positive_savings (c : MatchCandidate)
  : Prop :=
  exists paid deal : Num.float,
    Num.float_of_str (receipt_price c) = Some paid /\
    Num.float_of_str (deal_price c) = Some deal /\
    Num.lt deal paid = true /\
    savings c = Num.round2 (Num.sub paid deal) /\
    Num.gt (savings c) (S754_zero false) = true.

(** The price check of lines 124-131 fails for the pair. *)
Definition price_check_fails (ri : ReceiptItem) (d : Deal) : Prop :=
  Num.float_of_str (ri_price ri) = None \/
  Num.float_of_str (d_sale_price d) = None \/
  (exists paid deal : Num.float,
      Num.float_of_str (ri_price ri) = Some paid /\
      Num.float_of_str (d_sale_price d) = Some deal /\
      Num.ge deal paid = true).

(** The candidates of one receipt item, without their ranks. *)
Definition candidates_of (ri : ReceiptItem) (drops : list Deal)
  : list MatchCandidate :=
  List.map fst (ri_matches ri drops).

(** What the matcher emits for one receipt item: nothing or one
    candidate. *)
Definition emitted (ri : ReceiptItem) (drops : list Deal)
  : list MatchCandidate :=
  match best_match ri drops with
  | Some best => [best]
  | None => []
  end.

End Props.

(** * Sample data *)

Module Samples.
Import ReceiptParser.

(** An extracted line with its four keys. *)
Definition raw_line (n p q i : string) : Item :=
  mkItem (Some n) (Some p) (Some q) (Some i) None None.

Fixpoint zeros (n : nat) : string :=
  match n with
  | O => EmptyString
  | S n' => String "0" (zeros n')
  end.


(** The decimal numeral of [10^309], which exceeds every finite float. *)
Definition huge_qty : string := String "1" (zeros 309).

Import Analyzer.

(** A deal whose promotion ends after the upper bound of the filter,
    scanned before it. *)
Definition long_promo : Deal :=
  mkDeal "WIDGET DEAL" (Some "1234567") "5.00" (Some "cocowest.ca")
    (Some "") (Some "2024-12-31") (Some "2024-01-15T10:00:00").

Definition until_june : Filters :=
  mkFilters None (Some "2024-06-30") None.

Definition deal (item_name num sale : string) : Deal :=
  mkDeal item_name (Some num) sale (Some "cocowest.ca") (Some "")
    (Some "") (Some "2024-01-15T10:00:00").

Definition bought (item_name paid num : string) : ReceiptItem :=
  mkReceiptItem item_name paid "" num "2024-02-02" false.

(** The candidate for [bought n paid num] and [deal dn dnum sale]. *)
Definition candidate (n paid num dn dnum sale : string) (by_ : MatchKind)
  (saved : Num.float) : MatchCandidate :=
  mkMatchCandidate n paid "" num "2024-02-02" false dn sale dnum
    "cocowest.ca" "" "" by_ saved.

(** Best-of-tie: a partial item-number match saving 5.00 and a keyword
    match saving 6.00. *)
Definition shoe : ReceiptItem := bought "ALDO SHOE" "20.00" "1234567".
Definition shoe_deals : list Deal :=
  [deal "SNEAKER" "1234599" "15.00"; deal "Aldo Court Shoe" "" "14.00"].
Definition shoe_best : MatchCandidate :=
  candidate "ALDO SHOE" "20.00" "1234567" "Aldo Court Shoe" "" "14.00"
    name_keyword (Num.dec_to_float false 6 0).

(** A deal less than half a cent below the paid price. *)
Definition half_cent : ReceiptItem := bought "WIDGET" "10.004" "1234567".
Definition half_cent_deals : list Deal := [deal "WIDGET DEAL" "1234567" "10.00"].
Definition half_cent_match : MatchCandidate :=
  candidate "WIDGET" "10.004" "1234567" "WIDGET DEAL" "1234567" "10.00"
    exact_item_number (S754_zero false).

(** The end-to-end example of the specification. *)
Definition widget : ReceiptItem := bought "WIDGET" "7.00" "1234567".
Definition widget_deals : list Deal :=
  [deal "WIDGET DEAL" "1234567" "5.00"].
Definition widget_match : MatchCandidate :=
  candidate "WIDGET" "7.00" "1234567" "WIDGET DEAL" "1234567" "5.00"
    exact_item_number (Num.dec_to_float false 2 0).

End Samples.

(** * Around the normaliser and the matcher *)

(** ** More of Python's [str] *)

Module Text.

(** [s.split(sep)] for a one-character separator: never an empty
    list. *)
Fixpoint split_on (sep : ascii) (s : string) : list string :=
  match s with
  | EmptyString => [EmptyString]
  | String c s' =>
      if Ascii.eqb c sep then EmptyString :: split_on sep s'
      else
        match split_on sep s' with
        | w :: ws => String c w :: ws
        | [] => [String c EmptyString]
        end
  end.

(** [sep.join(l)] *)
Fixpoint join (sep : string) (l : list string) : string :=
  match l with
  | [] => EmptyString
  | [x] => x
  | x :: l' => x ++ sep ++ join sep l'
  end.

(** [s.strip(chars)], the characters given by a predicate. *)
Definition strip_by (p : ascii -> bool) (s : string) : string :=
  Str.rstrip_by p (Str.lstrip_by p s).

(** [l[i] = v] for an index within the list. *)
Fixpoint set_nth {A : Type} (i : nat) (v : A) (l : list A) : list A :=
  match i, l with
  | _, [] => []
  | O, _ :: l' => v :: l'
  | S i', x :: l' => x :: set_nth i' v l'
  end.

Definition newline : ascii := ascii_of_N 10.

End Text.

(** ** The two-call extraction: [_parse_premier], lines 81-111 *)

Module Premier.
Import ReceiptParser.

Definition is_pipe (c : ascii) : bool := Ascii.eqb c "|".

(** The lines that the item loop skips (line 85), tested on the
    trimmed line. *)
Definition skipped (line : string) : bool :=
  negb (Str.truthy line)
  || Str.startswith line "ITEM" || Str.startswith line "---".

(** The pattern of line 91 on a line without line feed: an optional
    group of four to eight digits, white space, and a group for the rest
    of the line.  The result is group 1 (the empty string when it takes
    no part in the match) and group 2.  The pattern always matches: the
    optional group takes up to eight leading digits when there are at
    least four, the white space is skipped, and what is left of the line
    is group 2. *)
Definition number_then_name (line : string) : string * string :=
  let '(ds, _) := Str.span Str.is_digit line in
  if Nat.leb 4 (String.length ds)
  then
    let n := Nat.min 8 (String.length ds) in
    (Str.take n line, Str.lstrip_by Str.is_space (Str.drop n line))
  else (EmptyString, Str.lstrip_by Str.is_space line).

(** Lines 84-93 for one line: the item number and the name, or
    nothing for a skipped line. *)
Definition parse_item_line (line : string) : option (string * string) :=
  let line := Str.strip (Text.strip_by is_pipe (Str.strip line)) in
  if skipped line then None
  else
    match Text.split_on "|" line with
    | p0 :: p1 :: _ => Some (Str.strip p0, Str.strip p1)
    | _ =>
        let '(num, rest) := number_then_name line in
        Some (num, Str.strip rest)
    end.

Definition parse_items (items_raw : string) : list (string * string) :=
  Analyzer.filter_map parse_item_line
    (Text.split_on Text.newline (Str.strip items_raw)).

Definition digit_or_dot (c : ascii) : bool :=
  Str.is_digit c || Ascii.eqb c ".".

(** [^[\d.]+[-]?] on the trimmed line: group 0. *)
Definition price_of_line (line : string) : option string :=
  let '(ds, rest) := Str.span digit_or_dot (Str.strip line) in
  if Str.is_empty ds then None
  else
    match rest with
    | String "-" _ => Some (ds ++ "-")
    | _ => Some ds
    end.

Definition parse_prices (prices_raw : string) : list string :=
  Analyzer.filter_map price_of_line
    (Text.split_on Text.newline (Str.strip prices_raw)).

(** Lines 102-111: the items with the prices of the same positions. *)
Definition zip_items (items : list (string * string))
  (prices : list string) : list Item :=
  List.map
    (fun '(i, (num, name)) =>
       mkItem (Some name) (Some (nth i prices "0")) (Some "1") (Some num)
         None None)
    (combine (seq 0 (List.length items)) items).

(** The [items] of the dict that [_parse_premier] returns, from the
    two answers of the model. *)
Definition premier_items (items_raw prices_raw : string) : list Item :=
  zip_items (parse_items items_raw) (parse_prices prices_raw).

(** [parse_receipt_pdf] with [model = "premier"], line 232: the items
    of the result. *)
Definition parse_receipt_items (items_raw prices_raw : string)
  : result (list Item) :=
  _post_process (premier_items items_raw prices_raw).

End Premier.

(** ** The tools of the analyst: [services/analyzer.py] *)

Module Tools.
Import Analyzer.

(** A stored receipt, with the keys that the analyzer reads. *)
Record Receipt : Type := mkReceipt {
  r_receipt_id : option string;
  r_items : option (list ReceiptParser.Item);
  r_receipt_date : option string
}.

(** Lines 89-96: the entry made for one item of a receipt. *)
Definition receipt_entry (date : string) (item : ReceiptParser.Item)
  : result ReceiptItem :=
  n <- ReceiptParser.getitem (ReceiptParser.name item) ;;
  p <- ReceiptParser.getitem (ReceiptParser.price item) ;;
  Ok (mkReceiptItem n p
        (get (ReceiptParser.original_price item) "")
        (get (ReceiptParser.item_number item) "")
        date
        (get (ReceiptParser.tpd item) false)).

Fixpoint receipt_entries (date : string) (items : list ReceiptParser.Item)
  : result (list ReceiptItem) :=
  match items with
  | [] => Ok []
  | item :: rest =>
      e <- receipt_entry date item ;;
      es <- receipt_entries date rest ;;
      Ok (e :: es)
  end.

(** Lines 86-96. *)
Fixpoint receipt_items (receipts : list Receipt)
  : result (list ReceiptItem) :=
  match receipts with
  | [] => Ok []
  | r :: rest =>
      es <- receipt_entries (get (r_receipt_date r) "") (get (r_items r) []) ;;
      more <- receipt_items rest ;;
      Ok (es ++ more)%list
  end.



End Tools.

(** ** Links to the receipts: [services/analyzer.py], lines 206-244 *)

Module Links.
Import Tools.

(** A dict from strings to strings, the latest write first; only
    [get] reads it. *)
Definition dict : Type := list (string * string).

Fixpoint dict_get (k : string) (d : dict) : option string :=
  match d with
  | [] => None
  | (k', v) :: d' => if String.eqb k k' then Some v else dict_get k d'
  end.

Definition dict_set (k v : string) (d : dict) : dict := (k, v) :: d.

(** Lines 211-215 for the items of one receipt. *)
Fixpoint add_items (rid : string) (items : list ReceiptParser.Item)
  (lookup : dict) : result dict :=
  match items with
  | [] => Ok lookup
  | item :: rest =>
      let num := Analyzer.get (ReceiptParser.item_number item) "" in
      let lookup := if Str.truthy num then dict_set num rid lookup
                    else lookup in
      n <- ReceiptParser.getitem (ReceiptParser.name item) ;;
      add_items rid rest (dict_set (Str.upper (Str.strip n)) rid lookup)
  end.

Fixpoint build_from (receipts : list Receipt) (lookup : dict)
  : result dict :=
  match receipts with
  | [] => Ok lookup
  | r :: rest =>
      rid <- ReceiptParser.getitem (r_receipt_id r) ;;
      lookup' <- add_items rid (Analyzer.get (r_items r) []) lookup ;;
      build_from rest lookup'
  end.

(** [_build_receipt_lookup], on the receipts read from the table. *)
Definition _build_receipt_lookup (receipts : list Receipt) : result dict :=
  build_from receipts [].

(** The text put in place of the first cell (line 241). *)
Definition link (name rid : string) : string :=
  " [" ++ name ++ "](/api/receipt/" ++ rid ++ "/pdf) ".

(** [lookup.get(num) or lookup.get(name.upper())] *)
Definition find_rid (lookup : dict) (num name : string) : option string :=
  match dict_get num lookup with
  | Some v => if Str.truthy v then Some v else dict_get (Str.upper name) lookup
  | None => dict_get (Str.upper name) lookup
  end.

(** [c in "|- :"] *)
Definition rule_char (c : ascii) : bool :=
  Ascii.eqb c "|" || Ascii.eqb c "-" || Ascii.eqb c " " || Ascii.eqb c ":".

(** The test of line 234: a table row that is neither the header nor
    the rule under it. *)
Definition is_table_row (line : string) : bool :=
  Str.startswith (Str.strip line) "|"
  && negb (Str.startswith (Str.strip line) "| Item")
  && negb (Str.all rule_char (Str.strip (Str.remove_char "|" line))).

(** Lines 235-242. *)
Definition inject_line (lookup : dict) (line : string) : string :=
  if is_table_row line
  then
    let parts := Text.split_on "|" line in
    let parts :=
      if Nat.leb 3 (List.length parts)
      then
        let name := Str.strip (nth 1 parts "") in
        let num := Str.strip (nth 2 parts "") in
        match find_rid lookup num name with
        | Some rid =>
            if Str.truthy rid && Str.truthy name
            then Text.set_nth 1 (link name rid) parts
            else parts
        | None => parts
        end
      else parts in
    Text.join "|" parts
  else line.

Definition _inject_receipt_links (text : string) (lookup : dict) : string :=
  Text.join (String Text.newline "")
    (List.map (inject_line lookup) (Text.split_on Text.newline text)).

(** *** Blank lines: [run_analysis], lines 262-263 *)

Definition is_newline (c : ascii) : bool := Ascii.eqb c Text.newline.

(** Three line feeds. *)
Definition blank_lines : string :=
  String Text.newline (String Text.newline (String Text.newline "")).

(** [text.replace(blank_lines, two line feeds)]: the occurrences are
    taken from the left, without overlap. *)
Fixpoint replace_blank_lines (s : string) : string :=
  match s with
  | EmptyString => EmptyString
  | String c1 t =>
      match t with
      | String c2 (String c3 s') =>
          if is_newline c1 && is_newline c2 && is_newline c3
          then String Text.newline
                 (String Text.newline (replace_blank_lines s'))
          else String c1 (replace_blank_lines t)
      | _ => String c1 (replace_blank_lines t)
      end
  end.

(** The loop of lines 262-263, with a bound on the number of tests of
    its condition. *)
Fixpoint squeeze (fuel : nat) (text : string) : option string :=
  match fuel with
  | O => None
  | S fuel' =>
      if Str.contains blank_lines text
      then squeeze fuel' (replace_blank_lines text)
      else Some text
  end.

End Links.

(** ** The request of an analysis: [app.py], lines 105-127 *)

Module App.
Import Analyzer.

(** Line 113. *)
Definition src_list (sources : option string) : option (list string) :=
  match sources with
  | Some s =>
      if Str.truthy s
      then Some (List.map Str.strip (Text.split_on "," s))
      else None
  | None => None
  end.

(** The filters that [run_analysis_stream] installs for the request
    (lines 275-279 of the analyzer). *)
Definition request_filters (date_from date_to sources : option string)
  : Filters :=
  mkFilters date_from date_to (src_list sources).

End App.

(** * Vocabulary of the further properties *)

Module MoreProps.
Import ReceiptParser.

(** The three tests of the first loop (lines 140-148), on one line:
    the line is appended to [cleaned]. *)
Definition kept (l : Item) : bool :=
  let n := Str.strip (get (name l) "") in
  match qty_marker n with
  | Some _ => false
  | None =>
      negb (_NOISE_PATTERNS n)
      && negb (negb (has_tpd_marker n)
               && zero_price (Str.strip (get (price l) "0")))
  end.

(** The name of the line, stripped, carries the TPD marker. *)
Definition tpd_named (l : Item) : bool :=
  has_tpd_marker (Str.strip (get (name l) "")).

(** The name of the line is a quantity marker with digits [q]. *)
Definition marks_qty (l : Item) (q : string) : Prop :=
  qty_marker (Str.strip (get (name l) "")) = Some q.

(** [b] is [a], possibly with another quantity. *)
Definition same_but_qty (a b : Item) : Prop :=
  name a = name b /\ price a = price b /\ item_number a = item_number b /\
  tpd a = tpd b /\ original_price a = original_price b.

(** The keys that every normalised item carries. *)
Definition complete (i : Item) : Prop :=
  price i <> None /\ tpd i <> None /\ original_price i <> None.

(** The lines of the second loop that become items: the first one, and
    every later one that is not a discount line. *)
Definition finalized_lines (cleaned : list Item) : list Item :=
  match cleaned with
  | [] => []
  | first :: rest =>
      first :: filter (fun l => negb (is_discount_line l)) rest
  end.

(** Finalizing the line raises: the quantity is an integer above 1
    that is too large for a float, and the cleaned price is a number. *)
Definition raises_on (l : Item) : Prop :=
  exists (q : Z) (p : Num.float),
    Num.int_of_str (get (qty l) "1") = Some q /\
    Num.float_of_str (Str.remove_char "-" (clean_price_of l)) = Some p /\
    1 < q /\
    Num.float_of_int q = Raise OverflowError.

(** [x'] is [x], or [x] after discounts were folded into it. *)
Definition folded (x x' : Item) : Prop :=
  Props.same_line x x' /\ (x' = x \/ tpd x' = Some true).

(** [it] is the item made from the line [l]: the line finalized, then
    possibly with discounts folded into it. *)
Definition made_from (l it : Item) : Prop :=
  exists it0 : Item, finalize l = Ok it0 /\ folded it0 it.

(** The deal [d] with its name in upper case. *)
Definition shouted (d : Analyzer.Deal) : Analyzer.Deal :=
  Analyzer.mkDeal (Str.upper (Analyzer.d_item_name d))
    (Analyzer.d_item_number d) (Analyzer.d_sale_price d)
    (Analyzer.d_source d) (Analyzer.d_link d) (Analyzer.d_promo_end d)
    (Analyzer.d_scanned_date d).

(** Every character of [s] is an ASCII character. *)
Definition ascii_only (s : string) : Prop :=
  Str.all (fun c => Str.code c <? 128) s = true.

End MoreProps.

(** * More sample data *)

Module MoreSamples.
Import Analyzer Samples.

(** Two deals for the same item at the same price. *)
Definition twin_deals : list Deal :=
  [deal "WIDGET A" "1234567" "5.00"; deal "WIDGET B" "1234567" "5.00"].
Definition twin_first : MatchCandidate * Z :=
  (candidate "WIDGET" "7.00" "1234567" "WIDGET A" "1234567" "5.00"
     exact_item_number (Num.dec_to_float false 2 0), 3).
Definition twin_second : MatchCandidate * Z :=
  (candidate "WIDGET" "7.00" "1234567" "WIDGET B" "1234567" "5.00"
     exact_item_number (Num.dec_to_float false 2 0), 3).

(** A receipt item without item number whose name has only short
    words. *)
Definition eggs : ReceiptItem := bought "KS EGG 24" "7.00" "".

(** A deal without promotion end and without scan date. *)
Definition undated (promo_end : option string) : Deal :=
  mkDeal "WIDGET DEAL" (Some "1234567") "5.00" (Some "cocowest.ca")
    (Some "") promo_end None.

Definition from_march : Filters :=
  mkFilters (Some "2024-03-01") None None.
Definition march_to_june : Filters :=
  mkFilters (Some "2024-03-01") (Some "2024-06-30") None.
Definition cocowest_only : Filters :=
  mkFilters None None (Some ["cocowest.ca"]).

End MoreSamples.

(** * Vocabulary of the properties of the tools *)

Module PipelineProps.
Import ReceiptParser Tools Links.



(** The keys under which an item is entered in the lookup: its item
    number when it has one, and its name, trimmed and in upper case. *)
Definition item_keys (item : Item) : list string :=
  ((if Str.truthy (Analyzer.get (item_number item) "")
    then [Analyzer.get (item_number item) ""] else [])
   ++ match name item with
      | Some n => [Str.upper (Str.strip n)]
      | None => []
      end)%list.

(** Some item of the receipt is entered under [k]. *)
Definition writes (r : Receipt) (k : string) : Prop :=
  exists item, In item (Analyzer.get (r_items r) []) /\ In k (item_keys item).

(** [writes], decided on the items of a receipt. *)
Definition entered (items : list Item) (k : string) : bool :=
  existsb (fun item => Str.mem k (item_keys item)) items.

(** A receipt on which the lookup cannot be built. *)
Definition unusable (r : Receipt) : Prop :=
  r_receipt_id r = None \/
  Exists (fun i => name i = None) (Analyzer.get (r_items r) []).

(** A price as the price pattern of the extraction matches it: digits
    and dots, then possibly a minus sign. *)
Definition price_shape (p : string) : Prop :=
  exists ds : string,
    ds <> "" /\ Str.all Premier.digit_or_dot ds = true /\
    (p = ds \/ p = ds ++ "-").

(** The character [sep] does not occur in [s]. *)
Definition free_of (sep : ascii) (s : string) : Prop :=
  Str.all (fun c => negb (Ascii.eqb c sep)) s = true.

(** The number of line feeds at the start of [s]. *)
Fixpoint leading_newlines (s : string) : nat :=
  match s with
  | EmptyString => O
  | String c s' => if is_newline c then S (leading_newlines s') else O
  end.

(** [s] with every run of line feeds cut down to two; [run] is the
    number of line feeds just before [s]. *)
Fixpoint cap_runs (run : nat) (s : string) : string :=
  match s with
  | EmptyString => EmptyString
  | String c s' =>
      if is_newline c
      then (if Nat.ltb run 2 then String c (cap_runs (S run) s')
            else cap_runs (S run) s')
      else String c (cap_runs O s')
  end.

(** A lookup with the number and the name of one bottle of water. *)
Definition water_lookup : dict :=
  [("WATER", "r1"); ("1234567", "r1")].

End PipelineProps.

(** * Properties of the line normaliser *)

Module ReceiptParserFacts.
Import ReceiptParser Props Samples.

Ltac break_match :=
  match goal with
  | |- context [match ?x with _ => _ end] =>
      lazymatch x with
      | context [match _ with _ => _ end] => fail
      | _ => destruct x eqn:?
      end
  end.

(** ** The list of finalized items *)

Lemma unsnoc_snoc {A : Type} (l : list A) (x : A) :
  unsnoc (l ++ [x])%list = Some (l, x).
Proof.
  induction l as [|y l IH]; simpl.
  - reflexivity.
  - rewrite IH. reflexivity.
Qed.

Lemma unsnoc_inv {A : Type} (l init : list A) (x : A) :
  unsnoc l = Some (init, x) -> l = (init ++ [x])%list.
Proof.
  revert init. induction l as [|y l IH]; intros init; simpl.
  - discriminate.
  - destruct (unsnoc l) as [[i z]|] eqn:E.
    + intros H. injection H as <- <-. rewrite (IH i eq_refl). reflexivity.
    + intros H. injection H as <- <-.
      destruct l; [reflexivity|].
      simpl in E. destruct (unsnoc l) as [[? ?]|]; discriminate.
Qed.

Lemma merge_loop_app (m : list Item) (a b : list Item) :
  merge_loop m (a ++ b)%list =
  (m' <- merge_loop m a ;; merge_loop m' b).
Proof.
  revert m. induction a as [|x a IH]; intros m; simpl.
  - reflexivity.
  - destruct (merge_step m x) as [m1|e]; simpl.
    + apply IH.
    + reflexivity.
Qed.

Lemma ge_not_lt (x y : Num.float) : Num.ge x y = true -> Num.lt x y = false.
Proof.
  unfold Num.ge, Num.lt.
  destruct (SFcompare x y) as [[]|]; intros H; try reflexivity; discriminate.
Qed.

(** What a discount line does to a non-empty [merged]. *)
Lemma merge_step_discount (init : list Item) (prev line : Item) :
  is_discount_line line = true ->
  merge_step (init ++ [prev])%list line =
  (prev' <- fold_discount prev (clean_price_of line) ;;
   Ok (init ++ [prev'])%list).
Proof.
  intros Hd. unfold merge_step. rewrite Hd, unsnoc_snoc. reflexivity.
Qed.

(** With nothing finalized yet, every line is finalized. *)
Lemma merge_step_nil (line : Item) :
  merge_step [] line = (it <- finalize line ;; Ok [it]).
Proof.
  unfold merge_step. simpl. destruct (is_discount_line line); reflexivity.
Qed.

(** ** The quantity check and the item-number repair *)

Lemma float_of_int_raise (q : Z) (e : exn) :
  Num.float_of_int q = Raise e -> e = OverflowError.
Proof.
  unfold Num.float_of_int.
  destruct (binary_normalize Num.prec Num.emax q 0 false);
    try discriminate.
  intros H. injection H as <-. reflexivity.
Qed.

(** The quantity check can only fail with the overflow of the
    int-to-float conversion, and otherwise touches [qty] alone. *)
Lemma qty_check_raise (i : Item) (e : exn) :
  price i <> None -> qty_check i = Raise e ->
  e = OverflowError /\ qty_overflows i.
Proof.
  intros Hp. unfold qty_check, qty_overflows.
  destruct (Num.int_of_str (get (qty i) "1")) as [q|]; [|discriminate].
  destruct (price i) as [ps|]; [simpl | congruence].
  destruct (Num.float_of_str ps) as [p|]; [|discriminate].
  destruct (1 <? q); [|discriminate].
  destruct (Num.float_of_int q) as [qf|e'] eqn:F; simpl.
  - break_match; discriminate.
  - intros H. injection H as <-.
    pose proof (float_of_int_raise _ _ F) as ->.
    split; [reflexivity|]. exists q. auto.
Qed.

Lemma qty_check_ok (i i' : Item) :
  qty_check i = Ok i' -> i' = i \/ i' = set_qty "1" i.
Proof.
  unfold qty_check.
  destruct (Num.int_of_str (get (qty i) "1")) as [q|];
    [|intros H; injection H as <-; auto].
  destruct (price i) as [ps|]; simpl; [|discriminate].
  destruct (Num.float_of_str ps) as [p|];
    [|intros H; injection H as <-; auto].
  destruct (1 <? q); [|intros H; injection H as <-; auto].
  destruct (Num.float_of_int q); simpl; [|discriminate].
  break_match; intros H; injection H as <-; auto.
Qed.

Lemma recover_keeps (i : Item) :
  price (recover_item_number i) = price i /\
  qty (recover_item_number i) = qty i /\
  tpd (recover_item_number i) = tpd i /\
  original_price (recover_item_number i) = original_price i.
Proof.
  unfold recover_item_number.
  repeat break_match; repeat split; reflexivity.
Qed.

Lemma finalize_raise (line : Item) (e : exn) :
  finalize line = Raise e -> e = OverflowError /\ qty_overflows line.
Proof.
  unfold finalize.
  destruct (qty_check (init_item line)) eqn:E; simpl.
  - discriminate.
  - intros H. injection H as <-.
    apply (qty_check_raise (init_item line)); [discriminate | exact E].
Qed.

Lemma finalize_ok (line it : Item) :
  finalize line = Ok it ->
  price it = Some (Str.remove_char "-" (clean_price_of line)) /\
  tpd it = setdefault (tpd line) false /\
  original_price it = setdefault (original_price line) "".
Proof.
  unfold finalize.
  destruct (qty_check (init_item line)) as [i'|] eqn:E; simpl;
    [|discriminate].
  intros H. injection H as <-.
  destruct (recover_keeps i') as (Hp & _ & Ht & Ho).
  rewrite Hp, Ht, Ho.
  destruct (qty_check_ok _ _ E) as [-> | ->]; repeat split; reflexivity.
Qed.

(** ** Folding *)

Lemma same_line_refl (a : Item) : same_line a a.
Proof. repeat split. Qed.

Lemma same_line_trans (a b c : Item) :
  same_line a b -> same_line b c -> same_line a c.
Proof.
  intros (H1 & H2 & H3) (K1 & K2 & K3).
  repeat split; congruence.
Qed.

Lemma fold_discount_ok (prev prev' : Item) (cp : string) :
  fold_discount prev cp = Ok prev' ->
  same_line prev prev' /\ (prev' = prev \/ tpd prev' = Some true).
Proof.
  unfold fold_discount, getitem.
  repeat break_match; simpl; try discriminate;
    try (intros H; injection H as <-; split;
         [apply same_line_refl | auto]).
  repeat break_match; intros H; injection H as <-;
    (split; [repeat split | auto]).
Qed.





(** ** Discount lines *)

(** C1. Fold correctness: in the fold pass, a discount line (TPD marker
    in the name, or a cleaned price ending in a minus sign) whose
    magnitude parses to [D], coming after a finalized item whose price
    [p] parses to [P] with [D < P], rewrites that item to price
    [P - D] printed with two decimals, original_price [p] and tpd true,
    and adds no item of its own. *)
Theorem fold_rewrites_previous_item
  (pre init : list Item) (prev line : Item) (p : string)
  (D P : Num.float) :
  merge_loop [] pre = Ok (init ++ [prev])%list ->
  is_discount_line line = true ->
  Num.float_of_str (Str.remove_char "-" (clean_price_of line)) = Some D ->
  price prev = Some p ->
  Num.float_of_str p = Some P ->
  Num.lt D P = true ->
  merge_loop [] (pre ++ [line])%list =
  Ok (init ++
      [mkItem (name prev) (Some (Num.format_2f (Num.sub P D)))
         (qty prev) (item_number prev) (Some true) (Some p)])%list.
Proof.
  intros Hpre Hd HD Hp HP Hlt.
  rewrite merge_loop_app, Hpre. simpl.
  rewrite (merge_step_discount _ _ _ Hd).
  unfold fold_discount. rewrite HD, Hp. simpl. rewrite HP, Hlt.
  reflexivity.
Qed.

Lemma fold_rewrites_previous_item_witness :
  merge_loop []
    ([raw_line "1234567 WIDGET" "10.00" "1" ""] ++
     [raw_line "TPD/1234567" "3.00-" "1" ""])
  = Ok ([] ++
        [mkItem (Some "WIDGET") (Some "7.00") (Some "1") (Some "1234567")
           (Some true) (Some "10.00")])%list.
Proof.
  apply (fold_rewrites_previous_item
           [raw_line "1234567 WIDGET" "10.00" "1" ""] []
           (mkItem (Some "WIDGET") (Some "10.00") (Some "1")
              (Some "1234567") (Some false) (Some ""))
           (raw_line "TPD/1234567" "3.00-" "1" "") "10.00"
           (Num.dec_to_float false 3 0) (Num.dec_to_float false 10 0));
    vm_compute; reflexivity.
Defined.

(** C7. Fold skip: a discount line whose magnitude [D] is greater than
    or equal to the price [P] of the last finalized item leaves that
    item, and the whole list built so far, unchanged, and adds no item. *)
Theorem fold_skipped_when_discount_not_smaller
  (pre init : list Item) (prev line : Item) (p : string)
  (D P : Num.float) :
  merge_loop [] pre = Ok (init ++ [prev])%list ->
  is_discount_line line = true ->
  Num.float_of_str (Str.remove_char "-" (clean_price_of line)) = Some D ->
  price prev = Some p ->
  Num.float_of_str p = Some P ->
  Num.ge D P = true ->
  merge_loop [] (pre ++ [line])%list = Ok (init ++ [prev])%list.
Proof.
  intros Hpre Hd HD Hp HP Hge.
  rewrite merge_loop_app, Hpre. simpl.
  rewrite (merge_step_discount _ _ _ Hd).
  unfold fold_discount. rewrite HD, Hp. simpl.
  rewrite HP, (ge_not_lt _ _ Hge). reflexivity.
Qed.

Lemma fold_skipped_when_discount_not_smaller_witness :
  merge_loop []
    ([raw_line "1234567 WIDGET" "10.00" "1" ""] ++
     [raw_line "TPD/1234567" "10.00-" "1" ""])
  = Ok ([] ++
        [mkItem (Some "WIDGET") (Some "10.00") (Some "1") (Some "1234567")
           (Some false) (Some "")])%list.
Proof.
  apply (fold_skipped_when_discount_not_smaller
           [raw_line "1234567 WIDGET" "10.00" "1" ""] []
           (mkItem (Some "WIDGET") (Some "10.00") (Some "1")
              (Some "1234567") (Some false) (Some ""))
           (raw_line "TPD/1234567" "10.00-" "1" "") "10.00"
           (Num.dec_to_float false 10 0) (Num.dec_to_float false 10 0));
    vm_compute; reflexivity.
Defined.




(** ** Quantities *)

(** C8. Quantity reset: when a line is finalized with a quantity that
    parses to an integer [q > 1] and a price that parses to [p], the
    quantity is kept only if [p / q] is within 0.001 of its rounding to
    two decimals, and is "1" otherwise.  The division first converts
    [q] to a float; if [q] is too large for that, finalizing the line
    raises [OverflowError]. *)
Theorem qty_kept_only_if_evenly_divisible
  (l : Item) (q : Z) (p : Num.float) :
  Num.int_of_str (get (qty l) "1") = Some q ->
  1 < q ->
  Num.float_of_str (Str.remove_char "-" (clean_price_of l)) = Some p ->
  match Num.float_of_int q with
  | Ok qf =>
      exists it : Item,
        finalize l = Ok it /\
        qty it = if evenly_divisible p qf then qty l else Some "1"
  | Raise e => finalize l = Raise e
  end.
Proof.
  intros Hq Hlt Hp.
  unfold finalize, qty_check.
  change (qty (init_item l)) with (qty l).
  rewrite Hq. simpl. rewrite Hp.
  apply Z.ltb_lt in Hlt. rewrite Hlt.
  destruct (Num.float_of_int q) as [qf|e]; simpl; [|reflexivity].
  unfold evenly_divisible.
  destruct (Num.gt _ Num.tolerance); simpl;
    eexists; (split; [reflexivity|]);
    rewrite (proj1 (proj2 (recover_keeps _))); reflexivity.
Qed.

Lemma qty_kept_only_if_evenly_divisible_witness :
  exists it : Item,
    finalize (raw_line "WIDGET" "10.00" "3" "") = Ok it /\
    qty it = Some "1".
Proof.
  apply (qty_kept_only_if_evenly_divisible
           (raw_line "WIDGET" "10.00" "3" "") 3 (Num.dec_to_float false 10 0)).
  - vm_compute; reflexivity.
  - lia.
  - vm_compute; reflexivity.
Defined.

(** ** Item numbers *)

Lemma span_stop (p : ascii -> bool) (tok : string) (c : ascii)
  (rest : string) :
  Str.all p tok = true -> p c = false ->
  Str.span p (tok ++ String c rest) = (tok, String c rest).
Proof.
  intros Ha Hc. induction tok as [|a tok IH]; simpl in *.
  - rewrite Hc. reflexivity.
  - apply andb_prop in Ha. destruct Ha as [Ha1 Ha2].
    rewrite Ha1, (IH Ha2). reflexivity.
Qed.

Lemma drop_length_app (a b : string) :
  Str.drop (String.length a) (a ++ b) = b.
Proof. induction a as [|c a IH]; simpl; [reflexivity | exact IH]. Qed.

Lemma length_map (f : ascii -> ascii) (s : string) :
  String.length (Str.map f s) = String.length s.
Proof. induction s as [|c s IH]; simpl; congruence. Qed.

Ltac each_char c :=
  destruct c as [[] [] [] [] [] [] [] []]; vm_compute;
  try reflexivity; try discriminate.

Lemma space_not_confusable (c : ascii) :
  Str.is_space c = true -> confusable c = false.
Proof. each_char c. Qed.

Lemma fix_char_digit (c : ascii) :
  confusable c = true -> Str.is_digit (fix_char c) = true.
Proof. each_char c. Qed.

Lemma fixed_isdigit (tok : string) :
  Str.all confusable tok = true ->
  Str.all Str.is_digit (Str.map fix_char tok) = true.
Proof.
  induction tok as [|c tok IH]; simpl; [reflexivity|].
  intros H. apply andb_prop in H. destruct H as [H1 H2].
  rewrite (fix_char_digit _ H1), (IH H2). reflexivity.
Qed.

Lemma leading_token_found (tok : string) (c : ascii) (rest : string) :
  Str.all confusable tok = true ->
  (4 <= String.length tok <= 8)%nat ->
  Str.is_space c = true ->
  leading_token (tok ++ String c rest) = Some tok.
Proof.
  intros Ha [H4 H8] Hc. unfold leading_token.
  rewrite (span_stop _ _ _ _ Ha (space_not_confusable _ Hc)).
  apply Nat.leb_le in H4. apply Nat.leb_le in H8.
  rewrite H4, H8, Hc. reflexivity.
Qed.

Lemma truthy_empty_get (o : option string) :
  get o "" = "" -> Str.truthy (get o "") = false.
Proof. intros ->. reflexivity. Qed.

(** The repair step on an item: a token taken over as item number,
    an over-long number cleared, a leading item number stripped. *)
Lemma recover_item_number_spec (item : Item) :
  (forall (tok : string) (c : ascii) (rest : string),
      get (item_number item) "" = "" ->
      get (name item) "" = tok ++ String c rest ->
      Str.all confusable tok = true ->
      (4 <= String.length tok <= 8)%nat ->
      Str.is_space c = true ->
      let fixed := Str.map fix_char tok in
      let n' := Str.strip (String c rest) in
      isdigit fixed = true /\
      item_number (recover_item_number item) = Some fixed /\
      name (recover_item_number item) =
        Some (if Str.startswith n' fixed
              then Str.strip (Str.drop (String.length fixed) n')
              else n'))
  /\
  (forall num : string,
      item_number item = Some num ->
      (8 < String.length num)%nat ->
      item_number (recover_item_number item) = Some "" /\
      name (recover_item_number item) = name item)
  /\
  (forall num : string,
      item_number item = Some num ->
      num <> "" ->
      (String.length num <= 8)%nat ->
      item_number (recover_item_number item) = Some num /\
      name (recover_item_number item) =
        if Str.startswith (get (name item) "") num
        then Some (Str.strip (Str.drop (String.length num)
                                (get (name item) "")))
        else name item).
Proof.
  split; [|split].
  - intros tok c rest Hnum Hname Ha Hlen Hc fixed n'.
    assert (Hd : isdigit fixed = true).
    { unfold isdigit, fixed. rewrite (fixed_isdigit _ Ha).
      destruct tok; [simpl in Hlen; lia | reflexivity]. }
    split; [exact Hd|].
    unfold recover_item_number.
    rewrite (truthy_empty_get _ Hnum), Hname.
    rewrite (leading_token_found _ _ _ Ha Hlen Hc).
    fold fixed. rewrite Hd, drop_length_app. fold n'.
    assert (Hl : Nat.ltb 8 (String.length fixed) = false).
    { apply Nat.ltb_ge. unfold fixed. rewrite length_map. lia. }
    rewrite Hl, andb_false_r.
    assert (Ht : Str.truthy fixed = true).
    { unfold isdigit in Hd. apply andb_prop in Hd. tauto. }
    rewrite Ht. simpl.
    destruct (Str.startswith n' fixed); split; reflexivity.
  - intros num Hnum Hlen.
    unfold recover_item_number. rewrite Hnum. simpl.
    assert (Ht : Str.truthy num = true).
    { destruct num; [simpl in Hlen; lia | reflexivity]. }
    apply Nat.ltb_lt in Hlen.
    rewrite Ht. simpl. rewrite Ht, Hlen. simpl.
    split; reflexivity.
  - intros num Hnum Hne Hlen.
    unfold recover_item_number. rewrite Hnum. simpl.
    assert (Ht : Str.truthy num = true).
    { destruct num; [congruence | reflexivity]. }
    apply Nat.ltb_ge in Hlen.
    rewrite Ht. simpl. rewrite Ht, Hlen. simpl. rewrite Ht. simpl.
    destruct (Str.startswith (get (name item) "") num); simpl;
      (split; [exact Hnum | reflexivity]).
Qed.

(** A finalized line is the repair of an item with the name and the item
    number of the line. *)
Lemma finalize_repairs (l it : Item) :
  finalize l = Ok it ->
  exists i' : Item,
    it = recover_item_number i' /\
    name i' = name l /\ item_number i' = item_number l.
Proof.
  unfold finalize.
  destruct (qty_check (init_item l)) as [i'|] eqn:E; simpl; [|discriminate].
  intros H. injection H as <-. exists i'.
  split; [reflexivity|].
  destruct (qty_check_ok _ _ E) as [-> | ->]; split; reflexivity.
Qed.

(** C6. Item-number repair, on a line [l] finalized as [it].  (1) When
    [l] has no item number and its name starts with a token of 4 to 8
    characters among the digits and O o B b I l S s G g, followed by
    white space, the token with its letters mapped to digits (O,o to 0;
    B,b to 8; I,l to 1; S,s to 5; G,g to 9) is all digits and becomes the
    item number; the name loses the token and the white space around
    what remains, and then, if it still starts with the item number,
    that prefix as well.  (2) A supplied item number of more than 8
    characters is cleared.  (3) A supplied item number of at most 8
    characters is kept, and is stripped from the start of the name when
    the name begins with it.  A line is not finalized only when its
    quantity check raises [OverflowError]. *)
Theorem item_number_recovered (l : Item) :
  match finalize l with
  | Raise e => e = OverflowError /\ qty_overflows l
  | Ok it =>
      (forall (tok : string) (c : ascii) (rest : string),
          get (item_number l) "" = "" ->
          get (name l) "" = tok ++ String c rest ->
          Str.all confusable tok = true ->
          (4 <= String.length tok <= 8)%nat ->
          Str.is_space c = true ->
          let fixed := Str.map fix_char tok in
          let n' := Str.strip (String c rest) in
          isdigit fixed = true /\
          item_number it = Some fixed /\
          name it =
            Some (if Str.startswith n' fixed
                  then Str.strip (Str.drop (String.length fixed) n')
                  else n'))
      /\
      (forall num : string,
          item_number l = Some num ->
          (8 < String.length num)%nat ->
          item_number it = Some "" /\ name it = name l)
      /\
      (forall num : string,
          item_number l = Some num ->
          num <> "" ->
          (String.length num <= 8)%nat ->
          item_number it = Some num /\
          name it =
            if Str.startswith (get (name l) "") num
            then Some (Str.strip (Str.drop (String.length num)
                                    (get (name l) "")))
            else name l)
  end.
Proof.
  destruct (finalize l) as [it|e] eqn:F.
  - destruct (finalize_repairs _ _ F) as (i' & -> & Hn & Hi).
    destruct (recover_item_number_spec i') as (H1 & H2 & H3).
    rewrite Hn, Hi in *.
    split; [exact H1 | split; [exact H2 | exact H3]].
  - exact (finalize_raise _ _ F).
Qed.

Lemma item_number_recovered_witness :
  exists it : Item,
    finalize (raw_line "O123456 WIDGET" "10.00" "1" "") = Ok it /\
    item_number it = Some "0123456" /\
    name it = Some "WIDGET".
Proof.
  pose proof (item_number_recovered
                (raw_line "O123456 WIDGET" "10.00" "1" "")) as H.
  destruct (finalize (raw_line "O123456 WIDGET" "10.00" "1" ""))
    as [it|e] eqn:F; [|vm_compute in F; discriminate F].
  exists it. split; [reflexivity|].
  destruct H as (H & _).
  destruct (H "O123456" " "%char "WIDGET") as (_ & H1 & H2).
  - reflexivity.
  - reflexivity.
  - reflexivity.
  - simpl; lia.
  - reflexivity.
  - split; [exact H1 | exact H2].
Defined.

(** ** Exceptions *)

Lemma fold_discount_priced (prev : Item) (cp : string) :
  price prev <> None ->
  exists prev', fold_discount prev cp = Ok prev' /\ price prev' <> None.
Proof.
  intros Hp. unfold fold_discount.
  destruct (price prev) as [p|] eqn:E; [|congruence].
  repeat break_match; simpl;
    try (exists prev; split; [reflexivity | congruence]).
  repeat break_match; eexists; (split; [reflexivity|]); simpl; congruence.
Qed.

Lemma priced_snoc (m : list Item) (x : Item) :
  priced (m ++ [x])%list <-> priced m /\ price x <> None.
Proof.
  unfold priced. rewrite Forall_app. split.
  - intros [H1 H2]. inversion H2; subst. auto.
  - intros [H1 H2]. auto.
Qed.

Lemma merge_step_priced (m : list Item) (item : Item) :
  priced m ->
  (merge_step m item = Raise OverflowError /\ qty_overflows item) \/
  exists m', merge_step m item = Ok m' /\ priced m'.
Proof.
  intros Hm. unfold merge_step.
  destruct (if is_discount_line item then unsnoc m else None)
    as [[init prev]|] eqn:E.
  - destruct (is_discount_line item); [|discriminate].
    apply unsnoc_inv in E. subst m.
    apply priced_snoc in Hm. destruct Hm as [Hi Hp].
    destruct (fold_discount_priced prev (clean_price_of item) Hp)
      as (prev' & -> & Hp').
    right. eexists. split; [reflexivity|].
    apply priced_snoc. auto.
  - destruct (finalize item) as [it|e] eqn:F; simpl.
    + right. eexists. split; [reflexivity|].
      apply priced_snoc. split; [assumption|].
      destruct (finalize_ok _ _ F) as (-> & _). discriminate.
    + left. destruct (finalize_raise _ _ F) as [-> Hq]. auto.
Qed.

Lemma merge_loop_priced (l : list Item) :
  forall m : list Item,
    priced m ->
    (merge_loop m l = Raise OverflowError /\ Exists qty_overflows l) \/
    exists out, merge_loop m l = Ok out /\ priced out.
Proof.
  induction l as [|item l IH]; intros m Hm; simpl.
  - right. exists m. auto.
  - destruct (merge_step_priced m item Hm) as [[-> Hq] | (m' & -> & Hm')];
      simpl.
    + left. split; [reflexivity | apply Exists_cons_hd, Hq].
    + destruct (IH m' Hm') as [[-> Hq] | (out & -> & Ho)].
      * left. split; [reflexivity | apply Exists_cons_tl, Hq].
      * right. exists out. auto.
Qed.

(** The normaliser either returns, or raises [OverflowError] because a
    surviving line has a quantity too large for a float: the subscript
    [prev["price"]] never fails. *)
Lemma post_process_raises_only_overflow (items : list Item) (e : exn) :
  _post_process items = Raise e ->
  e = OverflowError /\ Exists qty_overflows (clean_loop None items).
Proof.
  unfold _post_process.
  destruct (merge_loop_priced (clean_loop None items) [])
    as [[-> Hq] | (out & -> & _)].
  - constructor.
  - intros H. injection H as <-. auto.
  - discriminate.
Qed.

(** Without such a quantity the normaliser returns. *)
Lemma post_process_returns (items : list Item) :
  Forall (fun l => ~ qty_overflows l) (clean_loop None items) ->
  exists out : list Item, _post_process items = Ok out.
Proof.
  intros H.
  destruct (_post_process items) as [out|e] eqn:E; [eauto|].
  destruct (post_process_raises_only_overflow _ _ E) as [_ Hq].
  apply Exists_exists in Hq. destruct Hq as (l & Hl & Hq).
  rewrite Forall_forall in H. destruct (H l Hl Hq).
Qed.

(** C9. The normaliser does raise on lines whose fields are strings:
    a quantity of [10^309] with a price that parses makes the
    quantity check divide a float by an integer too large to convert,
    and the [OverflowError] is not among the exceptions the source
    catches. *)
Theorem post_process_raises_on_huge_qty :
  _post_process [raw_line "WIDGET" "1.00" huge_qty ""] = Raise OverflowError.
Proof. vm_compute. reflexivity. Qed.

(** ** The examples of the specification *)

Example fold_example :
  _post_process
    [raw_line "1234567 WIDGET" "10.00" "1" "";
     raw_line "TPD/1234567" "3.00-" "1" ""]
  = Ok [mkItem (Some "WIDGET") (Some "7.00") (Some "1") (Some "1234567")
          (Some true) (Some "10.00")].
Proof. vm_compute. reflexivity. Qed.

Example fold_skip_example :
  _post_process
    [raw_line "1234567 WIDGET" "10.00" "1" "";
     raw_line "TPD/1234567" "12.00-" "1" ""]
  = Ok [mkItem (Some "WIDGET") (Some "10.00") (Some "1") (Some "1234567")
          (Some false) (Some "")].
Proof. vm_compute. reflexivity. Qed.

Example quantity_reset_example :
  _post_process [raw_line "WIDGET" "10.00" "3" ""]
  = Ok [mkItem (Some "WIDGET") (Some "10.00") (Some "1") (Some "")
          (Some false) (Some "")].
Proof. vm_compute. reflexivity. Qed.

Example quantity_kept_example :
  _post_process [raw_line "WIDGET" "10.00" "4" ""]
  = Ok [mkItem (Some "WIDGET") (Some "10.00") (Some "4") (Some "")
          (Some false) (Some "")].
Proof. vm_compute. reflexivity. Qed.

Example quantity_marker_example :
  _post_process
    [raw_line "2 @ 5.00" "" "1" ""; raw_line "AGE VERIFIED" "1.00" "1" "";
     raw_line "WATER" "10.00" "1" "123456789"]
  = Ok [mkItem (Some "WATER") (Some "10.00") (Some "2") (Some "")
          (Some false) (Some "")].
Proof. vm_compute. reflexivity. Qed.

(** A discount line that comes first is kept, and takes the discount
    lines that follow it. *)
Example leading_discount_example :
  _post_process
    [raw_line "TPD/SHOES" "3.00-" "1" ""; raw_line "TPD/SOCKS" "1.00-" "1" ""]
  = Ok [mkItem (Some "TPD/SHOES") (Some "2.00") (Some "1") (Some "")
          (Some true) (Some "3.00")].
Proof. vm_compute. reflexivity. Qed.

(** Normalising the output of the fold example again changes nothing. *)
Example idempotence_example :
  _post_process
    [mkItem (Some "WIDGET") (Some "7.00") (Some "1") (Some "1234567")
       (Some true) (Some "10.00")]
  = Ok [mkItem (Some "WIDGET") (Some "7.00") (Some "1") (Some "1234567")
          (Some true) (Some "10.00")].
Proof. vm_compute. reflexivity. Qed.

End ReceiptParserFacts.

(** * Properties of the deal matcher *)

Module AnalyzerFacts.
Import Analyzer Props Samples.

(** ** Deal filter *)

Lemma filter_filter {A : Type} (p q : A -> bool) (l : list A) :
  filter q (filter p l) = filter (fun x => p x && q x) l.
Proof.
  induction l as [|x l IH]; simpl; [reflexivity|].
  destruct (p x); simpl; [destruct (q x)|]; rewrite IH; reflexivity.
Qed.

Lemma filter_true {A : Type} (l : list A) :
  filter (fun _ => true) l = l.
Proof. induction l as [|x l IH]; simpl; congruence. Qed.

(** The claim that one effective date serves both bounds fails: a deal
    scanned in January whose promotion ends in December passes the
    upper bound of June in the source, not in the specification. *)
Lemma upper_bound_uses_scan_date :
  _filter_deals until_june [long_promo] = [long_promo] /\
  filter (keeps_by_effective_date until_june) [long_promo] = [] /\
  _filter_deals until_june [long_promo]
    <> filter (keeps_by_effective_date until_june) [long_promo].
Proof.
  split; [reflexivity|]. split; [reflexivity|].
  vm_compute. discriminate.
Qed.

(** C4, amended. The deal filter keeps, in order, exactly the deals
    whose source is in the allowed set (when a non-empty list of
    sources is given), whose lower-bound key -- [promo_end] if not
    empty, else the first ten characters of the scan date -- is at
    least [dateFrom] (when given), and whose upper-bound key -- the
    first ten characters of the scan date if not empty, else
    [promo_end], or "9999" without one -- is at most [dateTo] (when
    given). *)
Theorem filter_deals_keeps (f : Filters) (drops : list Deal) :
  _filter_deals f drops = filter (keeps f) drops /\
  forall d : Deal,
    In d (_filter_deals f drops) <->
    In d drops /\
    source_allowed f d = true /\
    (forall df, given_date (_date_from f) = Some df ->
                String.leb df (from_key d) = true) /\
    (forall dt, given_date (_date_to f) = Some dt ->
                String.leb (to_key d) dt = true).
Proof.
  assert (E : _filter_deals f drops = filter (keeps f) drops).
  { unfold _filter_deals, keeps, source_allowed, given_date.
    destruct f as [df dt ss]; simpl.
    destruct ss as [[|s ss]|], df as [[|c1 df]|], dt as [[|c2 dt]|];
      rewrite ?filter_filter;
      first
        [ apply filter_ext; intros d; simpl;
          rewrite ?andb_true_r, ?andb_assoc; reflexivity
        | symmetry; apply filter_true ]. }
  split; [exact E|].
  intros d. rewrite E, filter_In. unfold keeps.
  rewrite !andb_true_iff.
  split.
  - intros (Hin & (Hs & Hf) & Ht).
    repeat split; try assumption.
    + intros df Hdf. rewrite Hdf in Hf. exact Hf.
    + intros dt Hdt. rewrite Hdt in Ht. exact Ht.
  - intros (Hin & Hs & Hf & Ht).
    repeat split; try assumption.
    + destruct (given_date (_date_from f)) as [df|];
        [apply Hf; reflexivity | reflexivity].
    + destruct (given_date (_date_to f)) as [dt|];
        [apply Ht; reflexivity | reflexivity].
Qed.

Lemma filter_deals_keeps_witness :
  In long_promo (_filter_deals until_june [long_promo]).
Proof.
  apply (proj2 (filter_deals_keeps until_june [long_promo]) long_promo).
  split; [left; reflexivity|].
  split; [reflexivity|].
  split.
  - intros df H. vm_compute in H. discriminate H.
  - intros dt H. vm_compute in H. injection H as <-.
    vm_compute. reflexivity.
Defined.

(** ** Comparison of floats *)

Ltac cmp_cases :=
  repeat match goal with
  | |- context [Z.compare ?a ?b] =>
      destruct (Z.compare_spec a b)
  | |- context [Pos.compare_cont Eq ?a ?b] =>
      change (Pos.compare_cont Eq a b) with (Pos.compare a b);
      destruct (Pos.compare_spec a b)
  end.

Lemma SFcompare_trans (x y z : spec_float) (c1 c2 : comparison) :
  SFcompare x y = Some c1 -> SFcompare y z = Some c2 ->
  not_lt c1 = true -> not_lt c2 = true ->
  SFcompare x z = Some (both c1 c2).
Proof.
  destruct x as [sx|sx| |sx mx ex], y as [sy|sy| |sy my ey],
    z as [sz|sz| |sz mz ez]; simpl;
    try discriminate;
    try destruct sx; try destruct sy; try destruct sz;
    intros H1 H2; injection H1 as <-; injection H2 as <-; simpl;
    try discriminate; try reflexivity.
  all: cmp_cases; simpl; try discriminate; try reflexivity; try lia.
Qed.

Lemma SFcompare_refl (x : spec_float) : SFcompare x x <> Some Gt.
Proof.
  destruct x as [s|s| |s m e]; simpl; try destruct s; try discriminate.
  all: rewrite Z.compare_refl;
    change (Pos.compare_cont Eq m m) with (Pos.compare m m);
    rewrite Pos.compare_refl; discriminate.
Qed.

Lemma SFcompare_none (x y : spec_float) :
  SFcompare x y = None -> Num.is_nan x = true \/ Num.is_nan y = true.
Proof.
  destruct x as [sx|sx| |sx mx ex], y as [sy|sy| |sy my ey]; simpl;
    auto; discriminate.
Qed.

Lemma key_gt_irrefl (k : Num.float * Z) : key_gt k k = false.
Proof.
  destruct k as [s r]. unfold key_gt, Num.eq, Num.gt. simpl.
  pose proof (SFcompare_refl s) as H.
  destruct (SFcompare s s) as [[]|]; try reflexivity.
  - apply Z.ltb_irrefl.
  - congruence.
Qed.

Lemma key_gt_trans (a b c : Num.float * Z) :
  key_gt a b = true -> key_gt b c = true -> key_gt a c = true.
Proof.
  destruct a as [sa ra], b as [sb rb], c as [sc rc].
  unfold key_gt, Num.eq, Num.gt. simpl.
  destruct (SFcompare sa sb) as [c1|] eqn:E1; [|discriminate].
  destruct (SFcompare sb sc) as [c2|] eqn:E2;
    [|destruct c1; discriminate].
  intros H1 H2.
  assert (N1 : not_lt c1 = true) by (destruct c1; auto; discriminate).
  assert (N2 : not_lt c2 = true) by (destruct c2; auto; discriminate).
  rewrite (SFcompare_trans _ _ _ _ _ E1 E2 N1 N2).
  destruct c1, c2; simpl; try reflexivity; try discriminate.
  apply Z.ltb_lt in H1, H2. apply Z.ltb_lt. lia.
Qed.

(** ** The running maximum *)

Section PyMax.
Context {A K : Type} (gt : K -> K -> bool) (key : A -> K).
Hypothesis gt_irrefl : forall k, gt k k = false.
Hypothesis gt_trans :
  forall a b c, gt a b = true -> gt b c = true -> gt a c = true.

Lemma py_max_from (rest : list A) :
  forall cur : A,
    let b := py_max gt key cur rest in
    In b (cur :: rest) /\
    (forall k, gt k (key cur) = false -> gt k (key b) = false) /\
    (forall m, In m rest -> gt (key m) (key b) = false).
Proof.
  unfold py_max.
  induction rest as [|x rest IH]; intros cur; simpl.
  - split; [auto|]. split; [auto|]. intros m [].
  - set (cur' := if gt (key x) (key cur) then x else cur).
    destruct (IH cur') as (Hin & Hmono & Hrest).
    assert (Hstep : forall k, gt k (key cur) = false ->
                              gt k (key cur') = false).
    { intros k Hk. unfold cur'.
      destruct (gt (key x) (key cur)) eqn:G; [|exact Hk].
      destruct (gt k (key x)) eqn:G'; [|reflexivity].
      rewrite (gt_trans _ _ _ G' G) in Hk. discriminate. }
    split; [|split].
    + destruct Hin as [Hin | Hin]; [|auto].
      rewrite <- Hin. unfold cur'.
      destruct (gt (key x) (key cur)); auto.
    + intros k Hk. apply Hmono, Hstep, Hk.
    + intros m [<- | Hm]; [|apply Hrest, Hm].
      apply Hmono. unfold cur'.
      destruct (gt (key x) (key cur)) eqn:G; [apply gt_irrefl | exact G].
Qed.

Lemma py_max_maximal (first : A) (rest : list A) :
  let b := py_max gt key first rest in
  In b (first :: rest) /\
  forall m, In m (first :: rest) -> gt (key m) (key b) = false.
Proof.
  destruct (py_max_from rest first) as (Hin & Hmono & Hrest).
  split; [exact Hin|].
  intros m [<- | Hm]; [|apply Hrest, Hm].
  apply Hmono, gt_irrefl.
Qed.
End PyMax.

(** ** Entries and candidates *)

Lemma in_filter_map {A B : Type} (f : A -> option B) (l : list A) (y : B) :
  In y (filter_map f l) <-> exists x, In x l /\ f x = Some y.
Proof.
  induction l as [|a l IH]; simpl.
  - split; [intros [] | intros (x & [] & _)].
  - destruct (f a) as [b|] eqn:E; simpl; rewrite ?IH; split.
    + intros [<- | (x & Hx & Hf)]; eauto.
    + intros (x & [<- | Hx] & Hf); [left; congruence | right; eauto].
    + intros (x & Hx & Hf); eauto.
    + intros (x & [<- | Hx] & Hf); [congruence | eauto].
Qed.

(** What an entry of [ri_matches] records. *)
Lemma match_entry_some (ri : ReceiptItem) (ws : list string) (d : Deal)
  (c : MatchCandidate) (r : Z) :
  match_entry ri ws d = Some (c, r) ->
  exists paid deal : Num.float,
    classify (ri_item_number ri) ws d = Some (matched_by c) /\
    r = match_rank (matched_by c) /\
    receipt_price c = ri_price ri /\
    deal_price c = d_sale_price d /\
    Num.float_of_str (ri_price ri) = Some paid /\
    Num.float_of_str (d_sale_price d) = Some deal /\
    Num.ge deal paid = false /\
    savings c = Num.round2 (Num.sub paid deal).
Proof.
  unfold match_entry.
  destruct (classify (ri_item_number ri) ws d) as [k|]; [|discriminate].
  destruct (Num.float_of_str (ri_price ri)) as [paid|]; [|discriminate].
  destruct (Num.float_of_str (d_sale_price d)) as [deal|];
    [|discriminate].
  destruct (Num.ge deal paid) eqn:G; [discriminate|].
  intros H. injection H as <- <-.
  exists paid, deal. simpl. repeat split; reflexivity || assumption.
Qed.

Lemma in_ri_matches (ri : ReceiptItem) (drops : list Deal)
  (c : MatchCandidate) (r : Z) :
  In (c, r) (ri_matches ri drops) ->
  exists d, In d drops /\
            match_entry ri (keywords (ri_name ri)) d = Some (c, r).
Proof. unfold ri_matches. rewrite in_filter_map. auto. Qed.

Lemma in_candidates_of (ri : ReceiptItem) (drops : list Deal)
  (c : MatchCandidate) :
  In c (candidates_of ri drops) ->
  In (c, match_rank (matched_by c)) (ri_matches ri drops).
Proof.
  unfold candidates_of. rewrite in_map_iff.
  intros ([c' r] & Hc & Hin). simpl in Hc. subst c'.
  destruct (in_ri_matches _ _ _ _ Hin) as (d & _ & He).
  destruct (match_entry_some _ _ _ _ _ He) as (? & ? & _ & -> & _).
  exact Hin.
Qed.

(** ** Sorting *)

Lemma insert_by_perm {A : Type} (k : A -> string) (x : A) (l : list A) :
  Permutation (insert_by k x l) (x :: l).
Proof.
  induction l as [|y l IH]; simpl.
  - apply Permutation_refl.
  - destruct (String.leb (k x) (k y)).
    + apply Permutation_refl.
    + apply perm_trans with (y :: x :: l).
      * apply perm_skip, IH.
      * apply perm_swap.
Qed.

Lemma sort_by_perm {A : Type} (k : A -> string) (l : list A) :
  Permutation (sort_by k l) l.
Proof.
  induction l as [|x l IH]; simpl.
  - apply perm_nil.
  - apply perm_trans with (x :: sort_by k l).
    + apply insert_by_perm.
    + apply perm_skip, IH.
Qed.

Lemma emitted_at_most_one (ri : ReceiptItem) (drops : list Deal) :
  (List.length (emitted ri drops) <= 1)%nat.
Proof. unfold emitted. destruct (best_match ri drops); simpl; lia. Qed.

Lemma find_potential_matches_perm (items : list ReceiptItem)
  (drops : list Deal) :
  Permutation (find_potential_matches items drops)
    (flat_map (fun ri => emitted ri drops) items).
Proof. unfold find_potential_matches. apply sort_by_perm. Qed.

(** The candidate kept for an item is a lexicographic maximum of its
    entries. *)
Lemma best_match_maximal (ri : ReceiptItem) (drops : list Deal) :
  match best_match ri drops with
  | None => candidates_of ri drops = []
  | Some best =>
      In best (candidates_of ri drops) /\
      forall c : MatchCandidate,
        In c (candidates_of ri drops) ->
        Num.gt (savings c) (savings best) = false /\
        (Num.eq (savings c) (savings best) = true ->
         match_rank (matched_by c) <= match_rank (matched_by best))
  end.
Proof.
  unfold best_match, candidates_of.
  destruct (ri_matches ri drops) as [|first rest] eqn:E; [reflexivity|].
  destruct (py_max_maximal key_gt key key_gt_irrefl key_gt_trans
              first rest) as (Hin & Hmax).
  set (b := py_max key_gt key first rest) in *.
  split; [apply in_map, Hin|].
  intros c Hc.
  assert (Hc' : In c (candidates_of ri drops))
    by (unfold candidates_of; rewrite E; exact Hc).
  apply in_candidates_of in Hc'. rewrite E in Hc'.
  assert (Hb : In (fst b) (candidates_of ri drops))
    by (unfold candidates_of; rewrite E; apply in_map, Hin).
  apply in_candidates_of in Hb. rewrite E in Hb.
  pose proof (Hmax _ Hc') as G.
  assert (Kb : key b = (savings (fst b), match_rank (matched_by (fst b)))).
  { rewrite <- E in Hin, Hb.
    destruct b as [cb rb]. simpl in *.
    destruct (in_ri_matches _ _ _ _ Hin) as (d & _ & He).
    destruct (match_entry_some _ _ _ _ _ He) as (? & ? & _ & -> & _).
    reflexivity. }
  rewrite Kb in G. unfold key_gt, key in G. simpl in G.
  unfold Num.eq, Num.gt in *.
  destruct (SFcompare (savings c) (savings (fst b))) as [[]|];
    split; try reflexivity; try discriminate; intros _.
  apply Z.ltb_ge in G. exact G.
Qed.

(** Without NaN, "not greater" is "less than or equal". *)
Lemma not_gt_total (x y : Num.float) :
  Num.gt x y = false ->
  Num.is_nan x = false -> Num.is_nan y = false ->
  Num.lt x y = true \/ Num.eq x y = true.
Proof.
  unfold Num.gt, Num.lt, Num.eq. intros G Nx Ny.
  destruct (SFcompare x y) as [[]|] eqn:E; auto; try discriminate.
  destruct (SFcompare_none _ _ E); congruence.
Qed.

(** C2. Best match.  The candidates the matcher emits are, up to the
    final ordering by date, those emitted item by item, and an item has
    at most one.  The tier ranks are 3 for exact, 2 for partial and 1
    for keyword matches.  An item has no candidate when no deal matches
    it and passes the price check; otherwise the one emitted is among
    the matching deals, no matching deal has greater savings, and none
    with equal savings has a greater rank: it is a maximum of the pairs
    (savings, rank) in lexicographic order. *)
Theorem best_match_is_lexicographic_maximum
  (items : list ReceiptItem) (drops : list Deal) :
  Permutation (find_potential_matches items drops)
    (flat_map (fun ri => emitted ri drops) items) /\
  (match_rank exact_item_number = 3 /\
   match_rank partial_item_number = 2 /\
   match_rank name_keyword = 1) /\
  forall ri : ReceiptItem,
    (List.length (emitted ri drops) <= 1)%nat /\
    match best_match ri drops with
    | None => candidates_of ri drops = []
    | Some best =>
        In best (candidates_of ri drops) /\
        forall c : MatchCandidate,
          In c (candidates_of ri drops) ->
          Num.gt (savings c) (savings best) = false /\
          (Num.eq (savings c) (savings best) = true ->
           match_rank (matched_by c) <= match_rank (matched_by best)) /\
          (Num.is_nan (savings c) = false ->
           Num.is_nan (savings best) = false ->
           Num.lt (savings c) (savings best) = true \/
           (Num.eq (savings c) (savings best) = true /\
            match_rank (matched_by c) <= match_rank (matched_by best)))
    end.
Proof.
  split; [apply find_potential_matches_perm|].
  split; [repeat split|].
  intros ri. split; [apply emitted_at_most_one|].
  pose proof (best_match_maximal ri drops) as H.
  destruct (best_match ri drops) as [best|]; [|exact H].
  destruct H as [Hin Hmax]. split; [exact Hin|].
  intros c Hc. destruct (Hmax c Hc) as [G R].
  split; [exact G|]. split; [exact R|].
  intros Nc Nb.
  destruct (not_gt_total _ _ G Nc Nb) as [L | Q]; auto.
Qed.

Lemma best_match_is_lexicographic_maximum_witness :
  best_match shoe shoe_deals = Some shoe_best /\
  In shoe_best (candidates_of shoe shoe_deals) /\
  matched_by shoe_best = name_keyword /\
  Num.format_2f (savings shoe_best) = "6.00".
Proof.
  assert (E : best_match shoe shoe_deals = Some shoe_best)
    by (vm_compute; reflexivity).
  destruct (best_match_is_lexicographic_maximum [shoe] shoe_deals)
    as (_ & _ & H).
  specialize (H shoe). destruct H as [_ H]. rewrite E in H. destruct H as [Hin _].
  split; [exact E|]. split; [exact Hin|].
  split; vm_compute; reflexivity.
Defined.

(** ** Prices *)

Lemma in_find_potential_matches (items : list ReceiptItem)
  (drops : list Deal) (c : MatchCandidate) :
  In c (find_potential_matches items drops) <->
  exists ri, In ri items /\ best_match ri drops = Some c.
Proof.
  split.
  - intros H.
    apply (Permutation_in _ (find_potential_matches_perm items drops)) in H.
    apply in_flat_map in H. destruct H as (ri & Hri & Hc).
    exists ri. split; [exact Hri|].
    unfold emitted in Hc.
    destruct (best_match ri drops) as [b|]; [|destruct Hc].
    destruct Hc as [<- | []]. reflexivity.
  - intros (ri & Hri & Hb).
    apply (Permutation_in _
             (Permutation_sym (find_potential_matches_perm items drops))).
    apply in_flat_map. exists ri. split; [exact Hri|].
    unfold emitted. rewrite Hb. left. reflexivity.
Qed.

Lemma best_match_in (ri : ReceiptItem) (drops : list Deal)
  (c : MatchCandidate) :
  best_match ri drops = Some c -> In c (candidates_of ri drops).
Proof.
  intros H.
  pose proof (best_match_maximal ri drops) as K. rewrite H in K. exact (proj1 K).
Qed.

(** The claim that every candidate has strictly positive savings
    fails: with 10.004 paid and a deal at 10.00 the matcher emits a
    candidate whose savings round to 0.0. *)
Lemma savings_can_round_to_zero :
  In half_cent_match (find_potential_matches [half_cent] half_cent_deals) /\
  savings half_cent_match = S754_zero false /\
  ~ strictly_cheaper_with_positive_savings half_cent_match.
Proof.
  split; [vm_compute; left; reflexivity|].
  split; [reflexivity|].
  intros (paid & deal & _ & _ & _ & _ & H).
  vm_compute in H. discriminate H.
Qed.

(** C3, amended. Every candidate the matcher emits has both prices
    parsing as floats, a sale price that is not greater than or equal
    to the paid price -- strictly less when neither price is NaN --
    and savings equal to the paid price minus the sale price, rounded
    to two decimals (which can be 0.0).  A deal whose sale price is
    greater than or equal to the paid price, or for which either price
    does not parse, yields no entry for the item. *)
Theorem candidates_are_cheaper :
  (forall (items : list ReceiptItem) (drops : list Deal)
          (c : MatchCandidate),
      In c (find_potential_matches items drops) ->
      exists paid deal : Num.float,
        Num.float_of_str (receipt_price c) = Some paid /\
        Num.float_of_str (deal_price c) = Some deal /\
        Num.ge deal paid = false /\
        (Num.is_nan paid = false -> Num.is_nan deal = false ->
         Num.lt deal paid = true) /\
        savings c = Num.round2 (Num.sub paid deal))
  /\
  (forall (ri : ReceiptItem) (ws : list string) (d : Deal),
      price_check_fails ri d -> match_entry ri ws d = None).
Proof.
  split.
  - intros items drops c H.
    apply in_find_potential_matches in H. destruct H as (ri & _ & Hb).
    apply best_match_in, in_candidates_of, in_ri_matches in Hb.
    destruct Hb as (d & _ & He).
    destruct (match_entry_some _ _ _ _ _ He)
      as (paid & deal & _ & _ & -> & -> & Hp & Hd & Hge & Hs).
    exists paid, deal. repeat split; try assumption.
    intros Np Nd. unfold Num.ge in Hge. unfold Num.lt.
    destruct (SFcompare deal paid) as [[]|] eqn:E;
      try discriminate; try reflexivity.
    destruct (SFcompare_none _ _ E); congruence.
  - intros ri ws d H. unfold match_entry.
    destruct (classify (ri_item_number ri) ws d); [|reflexivity].
    destruct H as [-> | [H | (paid & deal & -> & -> & ->)]];
      try reflexivity.
    destruct (Num.float_of_str (ri_price ri)); [|reflexivity].
    rewrite H. reflexivity.
Qed.

Lemma candidates_are_cheaper_witness :
  (exists paid deal : Num.float,
      Num.float_of_str "7.00" = Some paid /\
      Num.float_of_str "5.00" = Some deal /\
      Num.ge deal paid = false /\
      (Num.is_nan paid = false -> Num.is_nan deal = false ->
       Num.lt deal paid = true) /\
      savings widget_match = Num.round2 (Num.sub paid deal)) /\
  match_entry (bought "WIDGET" "25.00" "1234567")
    (keywords "WIDGET") (deal "WIDGET DEAL" "1234567" "29.99") = None.
Proof.
  split.
  - apply (proj1 candidates_are_cheaper [widget] widget_deals widget_match).
    vm_compute. left. reflexivity.
  - apply (proj2 candidates_are_cheaper).
    right. right.
    exists (Num.dec_to_float false 25 0), (Num.dec_to_float false 2999 (-2)).
    repeat split; vm_compute; reflexivity.
Defined.

(** ** Classification *)

Lemma truthy_iff (s : string) : Str.truthy s = true <-> s <> "".
Proof.
  destruct s; simpl; split; intros H;
    try discriminate; try reflexivity.
  exfalso. apply H. reflexivity.
Qed.

Lemma prefix_iff (p s : string) :
  String.prefix p s = true <-> exists b, s = p ++ b.
Proof.
  revert s. induction p as [|a p IH]; intros s; simpl.
  - split; [intros _; exists s; reflexivity |].
    intros _. destruct s; reflexivity.
  - destruct s as [|c s]; simpl.
    + split; [discriminate | intros (b & H); discriminate].
    + destruct (ascii_dec a c) as [-> | Hne].
      * rewrite IH. split; intros (b & H); exists b; simpl in *; congruence.
      * split; [discriminate | intros (b & H); simpl in H; congruence].
Qed.

Lemma contains_nil (w : string) :
  Str.contains w "" = String.prefix w "" || false.
Proof. reflexivity. Qed.

Lemma contains_cons (w : string) (c : ascii) (s : string) :
  Str.contains w (String c s) =
  String.prefix w (String c s) || Str.contains w s.
Proof. reflexivity. Qed.

Lemma contains_iff (w s : string) :
  Str.contains w s = true <-> occurs w s.
Proof.
  unfold occurs.
  induction s as [|c s IH];
    [rewrite contains_nil | rewrite contains_cons];
    rewrite orb_true_iff, prefix_iff.
  - split.
    + intros [(b & H) | H]; [|discriminate].
      exists "", b. exact H.
    + intros (a & b & H). left.
      destruct a; [exists b; exact H | discriminate].
  - rewrite IH. split.
    + intros [(b & H) | (a & b & H)].
      * exists "", b. exact H.
      * exists (String c a), b. simpl. congruence.
    + intros (a & b & H). destruct a as [|c' a]; simpl in H.
      * left. exists b. exact H.
      * right. exists a, b. congruence.
Qed.

Lemma one_in_filter {A : Type} (p : A -> bool) (l : list A) :
  (1 <= List.length (filter p l))%nat <->
  exists (j : nat) (y : A), nth_error l j = Some y /\ p y = true.
Proof.
  induction l as [|x l IH]; simpl.
  - split; [lia | intros ([|j] & y & H & _); discriminate].
  - destruct (p x) eqn:E; simpl.
    + split; [intros _; exists O, x; auto | lia].
    + rewrite IH. split.
      * intros (j & y & H & Hy). exists (S j), y. auto.
      * intros ([|j] & y & H & Hy); simpl in H.
        -- congruence.
        -- exists j, y. auto.
Qed.

Lemma two_in_filter {A : Type} (p : A -> bool) (l : list A) :
  (2 <= List.length (filter p l))%nat <->
  exists (i j : nat) (x y : A),
    (i < j)%nat /\ nth_error l i = Some x /\ nth_error l j = Some y /\
    p x = true /\ p y = true.
Proof.
  induction l as [|a l IH]; simpl.
  - split; [lia | intros ([|i] & j & x & y & _ & H & _); discriminate].
  - destruct (p a) eqn:E; simpl.
    + split.
      * intros H. assert (H1 : (1 <= List.length (filter p l))%nat) by lia.
        apply one_in_filter in H1. destruct H1 as (j & y & Hj & Hy).
        exists O, (S j), a, y. repeat split; auto; lia.
      * intros (i & j & x & y & Hij & Hi & Hj & Hx & Hy).
        destruct j as [|j]; [lia|]. simpl in Hj.
        assert (H1 : (1 <= List.length (filter p l))%nat)
          by (apply one_in_filter; eauto).
        lia.
    + rewrite IH. split.
      * intros (i & j & x & y & Hij & Hi & Hj & Hx & Hy).
        exists (S i), (S j), x, y. repeat split; auto; lia.
      * intros (i & j & x & y & Hij & Hi & Hj & Hx & Hy).
        destruct j as [|j]; [lia|].
        destruct i as [|i]; simpl in Hi, Hj; [congruence|].
        exists i, j, x, y. repeat split; auto; lia.
Qed.

Lemma exact_rule_iff (ri_num : string) (d : Deal) :
  Str.truthy ri_num && Str.truthy (get (d_item_number d) "")
  && String.eqb ri_num (get (d_item_number d) "") = true
  <-> exact_rule ri_num d.
Proof.
  unfold exact_rule.
  rewrite !andb_true_iff, !truthy_iff, String.eqb_eq. tauto.
Qed.

Lemma partial_rule_iff (ri_num : string) (d : Deal) :
  Str.truthy ri_num && Str.truthy (get (d_item_number d) "")
  && Nat.leb 5 (String.length ri_num)
  && Nat.leb 5 (String.length (get (d_item_number d) ""))
  && String.eqb (Str.take 5 ri_num) (Str.take 5 (get (d_item_number d) ""))
  = true
  <-> partial_rule ri_num d.
Proof.
  unfold partial_rule.
  rewrite !andb_true_iff, !truthy_iff, !Nat.leb_le, String.eqb_eq. tauto.
Qed.

Lemma two_keywords_iff (ws : list string) (d_name : string) :
  Nat.leb 2 (List.length ws) && Nat.leb 2 (count_in ws d_name) = true
  <->
  exists (i j : nat) (w1 w2 : string),
    (i < j)%nat /\
    nth_error ws i = Some w1 /\ nth_error ws j = Some w2 /\
    occurs w1 d_name /\ occurs w2 d_name.
Proof.
  unfold count_in.
  rewrite andb_true_iff, !Nat.leb_le, two_in_filter. split.
  - intros (_ & i & j & x & y & Hij & Hi & Hj & Hx & Hy).
    exists i, j, x, y. rewrite <- !contains_iff. auto.
  - intros (i & j & x & y & Hij & Hi & Hj & Hx & Hy). split.
    + assert (j < List.length ws)%nat
        by (apply nth_error_Some; congruence).
      lia.
    + exists i, j, x, y. rewrite !contains_iff. auto.
Qed.

Lemma single_keyword_iff (ws : list string) (d_name : string) :
  match ws with
  | [w] => Nat.leb 5 (String.length w) && Str.contains w d_name
  | _ => false
  end = true
  <->
  exists w : string,
    ws = [w] /\ (5 <= String.length w)%nat /\ occurs w d_name.
Proof.
  destruct ws as [|w [|w' ws]].
  - split; [discriminate | intros (w & H & _); discriminate].
  - rewrite andb_true_iff, Nat.leb_le, contains_iff. split.
    + intros [H1 H2]. exists w. auto.
    + intros (w' & H & H1 & H2). injection H as <-. auto.
  - split; [discriminate | intros (w0 & H & _); discriminate].
Qed.

(** The cascade of [classify], on the truth values of its tests. *)
Lemma classify_cases (ri_num : string) (ws : list string) (d : Deal) :
  classify ri_num ws d =
  if Str.truthy ri_num && Str.truthy (get (d_item_number d) "")
     && String.eqb ri_num (get (d_item_number d) "")
  then Some exact_item_number
  else if Str.truthy ri_num && Str.truthy (get (d_item_number d) "")
          && Nat.leb 5 (String.length ri_num)
          && Nat.leb 5 (String.length (get (d_item_number d) ""))
          && String.eqb (Str.take 5 ri_num)
               (Str.take 5 (get (d_item_number d) ""))
  then Some partial_item_number
  else if Nat.leb 2 (List.length ws)
          && Nat.leb 2 (count_in ws (Str.lower (d_item_name d)))
          || match ws with
             | [w] => Nat.leb 5 (String.length w)
                      && Str.contains w (Str.lower (d_item_name d))
             | _ => false
             end
  then Some name_keyword
  else None.
Proof.
  unfold classify.
  repeat match goal with
         | |- (if ?b then _ else _) = (if ?b then _ else _) =>
             destruct b; [reflexivity|]
         end.
  destruct (Nat.leb 2 (List.length ws)
            && Nat.leb 2 (count_in ws (Str.lower (d_item_name d))));
    [reflexivity|].
  simpl. destruct ws as [|w [|w' ws]]; reflexivity.
Qed.

Lemma keyword_rule_iff (ws : list string) (d : Deal) :
  Nat.leb 2 (List.length ws)
  && Nat.leb 2 (count_in ws (Str.lower (d_item_name d)))
  || match ws with
     | [w] => Nat.leb 5 (String.length w)
              && Str.contains w (Str.lower (d_item_name d))
     | _ => false
     end = true
  <-> keyword_rule ws d.
Proof.
  unfold keyword_rule.
  rewrite orb_true_iff, two_keywords_iff, single_keyword_iff. tauto.
Qed.

Lemma classify_classified (ri_num : string) (ws : list string) (d : Deal)
  (r : option MatchKind) :
  classify ri_num ws d = r <-> classified ri_num ws d r.
Proof.
  rewrite classify_cases.
  pose proof (exact_rule_iff ri_num d) as HE.
  pose proof (partial_rule_iff ri_num d) as HP.
  pose proof (keyword_rule_iff ws d) as HK.
  destruct (Str.truthy ri_num && Str.truthy (get (d_item_number d) "")
            && String.eqb ri_num (get (d_item_number d) "")) eqn:E.
  { split.
    - intros <-. apply by_exact, HE. reflexivity.
    - intros H. inversion H; subst; try reflexivity;
        match goal with
        | N : ~ exact_rule _ _ |- _ => exfalso; apply N, HE; reflexivity
        end. }
  assert (NE : ~ exact_rule ri_num d)
    by (intros X; apply HE in X; discriminate).
  destruct (Str.truthy ri_num && Str.truthy (get (d_item_number d) "")
            && Nat.leb 5 (String.length ri_num)
            && Nat.leb 5 (String.length (get (d_item_number d) ""))
            && String.eqb (Str.take 5 ri_num)
                 (Str.take 5 (get (d_item_number d) ""))) eqn:P.
  { split.
    - intros <-. apply by_partial; [exact NE | apply HP; reflexivity].
    - intros H. inversion H; subst; try reflexivity; try contradiction;
        match goal with
        | N : ~ partial_rule _ _ |- _ => exfalso; apply N, HP; reflexivity
        end. }
  assert (NP : ~ partial_rule ri_num d)
    by (intros X; apply HP in X; discriminate).
  match goal with
  | |- (if ?b then _ else _) = _ <-> _ => destruct b eqn:K
  end.
  { split.
    - intros <-. apply by_keyword; [exact NE | exact NP |].
      apply HK. reflexivity.
    - intros H. inversion H; subst; try reflexivity; try contradiction.
      match goal with
      | N : ~ keyword_rule _ _ |- _ => exfalso; apply N, HK; reflexivity
      end. }
  assert (NK : ~ keyword_rule ws d)
    by (intros X; apply HK in X; discriminate).
  split.
  - intros <-. apply unmatched; assumption.
  - intros H. inversion H; subst; try reflexivity; contradiction.
Qed.

(** ** Keywords *)

Lemma append_assoc (a b c : string) : (a ++ b) ++ c = a ++ b ++ c.
Proof. induction a as [|x a IH]; simpl; congruence. Qed.

Lemma all_snoc (p : ascii -> bool) (s : string) (c : ascii) :
  Str.all p s = true -> p c = true ->
  Str.all p (s ++ String c "") = true.
Proof.
  intros Hs Hc. induction s as [|x s IH]; simpl in *.
  - rewrite Hc. reflexivity.
  - apply andb_prop in Hs. destruct Hs as [H1 H2].
    rewrite H1, (IH H2). reflexivity.
Qed.

Lemma fields_space (c : ascii) (s : string) (ws : list string) :
  Str.is_space c = true -> fields s ws -> fields (String c s) ws.
Proof.
  intros Hc H. destruct H as [sp Hsp | sp w s ws Hsp Hw Hns Hs Hf].
  - apply fields_end. simpl. rewrite Hc, Hsp. reflexivity.
  - apply (fields_next (String c sp) w s ws); try assumption.
    simpl. rewrite Hc, Hsp. reflexivity.
Qed.

Lemma split_from_fields (s : string) :
  forall cur : string,
    Str.all (fun c => negb (Str.is_space c)) cur = true ->
    fields (cur ++ s) (Str.split_from cur s).
Proof.
  induction s as [|c s IH]; intros cur Hcur; simpl.
  - destruct cur as [|x cur]; simpl.
    + apply fields_end. reflexivity.
    + apply (fields_next "" (String x cur) "" []);
        [reflexivity | discriminate | exact Hcur | left; reflexivity |].
      apply fields_end. reflexivity.
  - destruct (Str.is_space c) eqn:Hc.
    + pose proof (fields_space c _ _ Hc (IH "" eq_refl)) as Hrest.
      destruct cur as [|x cur]; simpl.
      * exact Hrest.
      * apply (fields_next "" (String x cur) (String c s));
          [reflexivity | discriminate | exact Hcur | | exact Hrest].
        right. exists c, s. auto.
    + assert (E : cur ++ String c s = (cur ++ String c "") ++ s)
        by (rewrite append_assoc; reflexivity).
      rewrite E. apply IH, all_snoc; [exact Hcur|]. rewrite Hc. reflexivity.
Qed.

(** C5. Classification.  The keywords of a receipt item are the fields
    of its lowercased name, with every "/" read as a space and white
    space as the separator, that have four characters or more and are
    not in the stop list.  A pair of item and deal is classified by
    the first rule that holds, in the order exact item number (both
    numbers present and equal), partial item number (both present,
    both of length 5 or more, same first five characters), keyword
    (two keywords occur in the lowercased deal name, or the only
    keyword has five characters or more and occurs in it); with none,
    there is no match. *)
Theorem classification_follows_rule_order
  (ri_name ri_num : string) (d : Deal) :
  let text := Str.replace_char "/" " " (Str.lower ri_name) in
  fields text (Str.split text) /\
  keywords ri_name =
    filter
      (fun w =>
         Nat.leb 4 (String.length w)
         && negb (Str.mem w ["the"; "and"; "for"; "with"; "pack"; "size";
                             "sizes"; "plus"; "mens"; "womens"]))
      (Str.split text) /\
  forall r : option MatchKind,
    classify ri_num (keywords ri_name) d = r <->
    classified ri_num (keywords ri_name) d r.
Proof.
  intros text. split; [|split].
  - apply (split_from_fields text ""). reflexivity.
  - reflexivity.
  - intros r. apply classify_classified.
Qed.

Lemma classification_follows_rule_order_witness :
  classified "1234567" (keywords "ALDO SHOE")
    (deal "SNEAKER" "1234599" "15.00") (Some partial_item_number).
Proof.
  apply (proj2 (proj2 (classification_follows_rule_order
                         "ALDO SHOE" "1234567"
                         (deal "SNEAKER" "1234599" "15.00")))).
  vm_compute. reflexivity.
Defined.

(** ** The examples of the specification *)

Example end_to_end_example :
  find_potential_matches [widget] widget_deals = [widget_match] /\
  Num.format_2f (savings widget_match) = "2.00".
Proof. split; vm_compute; reflexivity. Qed.

Example no_savings_example :
  best_match (bought "WIDGET" "25.00" "1234567")
    [deal "WIDGET DEAL" "1234567" "29.99"] = None.
Proof. vm_compute. reflexivity. Qed.

Example best_of_tie_example :
  List.map (fun c => (matched_by c, Num.format_2f (savings c)))
    (candidates_of shoe shoe_deals)
  = [(partial_item_number, "5.00"); (name_keyword, "6.00")] /\
  best_match shoe shoe_deals = Some shoe_best.
Proof. split; vm_compute; reflexivity. Qed.

End AnalyzerFacts.

(** * Further properties of the line normaliser *)

Module ReceiptParserMore.
Import ReceiptParser Props MoreProps Samples ReceiptParserFacts.

(** ** The first loop *)

Lemma qty_marker_truthy (s q : string) :
  qty_marker s = Some q -> Str.truthy q = true.
Proof.
  unfold qty_marker.
  destruct (Str.span Str.is_digit s) as [ds r1].
  destruct (Str.is_empty ds) eqn:E; [discriminate|].
  repeat break_match; try discriminate;
    intros H; injection H as <-; unfold Str.truthy; rewrite E; reflexivity.
Qed.

Lemma clean_loop_marker (p : option string) (m : Item) (q : string)
  (rest : list Item) :
  marks_qty m q -> clean_loop p (m :: rest) = clean_loop (Some q) rest.
Proof. unfold marks_qty. intros H. simpl. rewrite H. reflexivity. Qed.

Lemma kept_inv (l : Item) :
  kept l = true ->
  qty_marker (Str.strip (get (name l) "")) = None /\
  _NOISE_PATTERNS (Str.strip (get (name l) "")) = false /\
  negb (tpd_named l) && zero_price (Str.strip (get (price l) "0")) = false.
Proof.
  unfold kept, tpd_named.
  destruct (qty_marker (Str.strip (get (name l) ""))); [discriminate|].
  intros H. apply andb_prop in H. destruct H as [H1 H2].
  apply negb_true_iff in H1. apply negb_true_iff in H2. auto.
Qed.

Lemma clean_loop_dropped (p : option string) (l : Item) (rest : list Item) :
  kept l = false ->
  (forall q, ~ marks_qty l q) ->
  clean_loop p (l :: rest) = clean_loop p rest.
Proof.
  unfold kept, marks_qty. intros H N. simpl.
  destruct (qty_marker (Str.strip (get (name l) ""))) as [q|];
    [destruct (N q); reflexivity|].
  destruct (_NOISE_PATTERNS (Str.strip (get (name l) ""))); [reflexivity|].
  simpl in H. apply negb_false_iff in H. rewrite H. reflexivity.
Qed.

Lemma clean_loop_tpd (q : string) (l : Item) (rest : list Item) :
  kept l = true -> tpd_named l = true ->
  clean_loop (Some q) (l :: rest) = l :: clean_loop (Some q) rest.
Proof.
  intros K T. destruct (kept_inv _ K) as (H1 & H2 & H3).
  unfold tpd_named in *. simpl. rewrite H1, H2, H3, T. simpl.
  rewrite andb_false_r. reflexivity.
Qed.

Lemma clean_loop_product (q : string) (l : Item) (rest : list Item) :
  Str.truthy q = true ->
  kept l = true -> tpd_named l = false ->
  clean_loop (Some q) (l :: rest) = set_qty q l :: clean_loop None rest.
Proof.
  intros Q K T. destruct (kept_inv _ K) as (H1 & H2 & H3).
  unfold tpd_named in *. simpl. rewrite H1, H2, H3, T, Q. reflexivity.
Qed.

(** The quantity of a surviving line is its own, or the digits of a
    quantity marker of the input (or the quantity pending at the
    start). *)
Lemma clean_loop_qty (items : list Item) :
  forall p : option string,
    Forall
      (fun l => exists l0, In l0 items /\
         (l = l0 \/
          exists q, l = set_qty q l0 /\
            (p = Some q \/ exists m, In m items /\ marks_qty m q)))
      (clean_loop p items).
Proof.
  induction items as [|item rest IH]; intros p; [constructor|].
  assert (W : forall p',
             (forall q, p' = Some q ->
                p = Some q \/ marks_qty item q) ->
             Forall
               (fun l => exists l0, In l0 (item :: rest) /\
                  (l = l0 \/
                   exists q, l = set_qty q l0 /\
                     (p = Some q \/
                      exists m, In m (item :: rest) /\ marks_qty m q)))
               (clean_loop p' rest)).
  { intros p' Hp'. eapply Forall_impl; [|apply (IH p')].
    intros l (l0 & Hin & H). exists l0. split; [right; exact Hin|].
    destruct H as [-> | (q & -> & [-> | (m & Hm & Mq)])]; [auto| |].
    - right. exists q. split; [reflexivity|].
      destruct (Hp' q eq_refl) as [-> | Mq]; [auto|].
      right. exists item. split; [left; reflexivity | exact Mq].
    - right. exists q. split; [reflexivity|].
      right. exists m. split; [right; exact Hm | exact Mq]. }
  simpl.
  destruct (qty_marker (Str.strip (get (name item) ""))) as [q|] eqn:M.
  { apply W. intros q' H. injection H as <-. right. exact M. }
  destruct (_NOISE_PATTERNS (Str.strip (get (name item) "")));
    [apply W; auto|].
  destruct (negb (has_tpd_marker (Str.strip (get (name item) "")))
            && zero_price (Str.strip (get (price item) "0")));
    [apply W; auto|].
  destruct p as [q|];
    [destruct (Str.truthy q
               && negb (has_tpd_marker (Str.strip (get (name item) ""))))|];
    constructor; try (apply W; auto; intros ? H; discriminate H).
  - exists item. split; [left; reflexivity|]. right. eauto.
  - exists item. split; [left; reflexivity|]. auto.
  - exists item. split; [left; reflexivity|]. auto.
Qed.

(** X1. What survives the first loop.  Every line of [cleaned] is an
    input line, possibly with the quantity of a marker, and passes the
    three tests: it is no quantity marker, matches no noise pattern, and
    has a TPD marker or a price other than empty, "0" and "0.00". *)
Theorem cleaned_lines_are_kept_input_lines
  (p : option string) (items : list Item) :
  Forall
    (fun l => kept l = true /\
              exists l0, In l0 items /\ same_but_qty l0 l)
    (clean_loop p items).
Proof.
  revert p. induction items as [|item rest IH]; intros p.
  - constructor.
  - assert (W : forall p',
               Forall (fun l => kept l = true /\
                                exists l0, In l0 (item :: rest) /\
                                           same_but_qty l0 l)
                 (clean_loop p' rest)).
    { intros p'. eapply Forall_impl; [|apply (IH p')].
      intros l (K & l0 & Hin & S). split; [exact K|].
      exists l0. split; [right; exact Hin | exact S]. }
    simpl.
    destruct (qty_marker (Str.strip (get (name item) ""))) as [q|] eqn:M;
      [apply W|].
    destruct (_NOISE_PATTERNS (Str.strip (get (name item) ""))) eqn:N;
      [apply W|].
    destruct (negb (has_tpd_marker (Str.strip (get (name item) "")))
              && zero_price (Str.strip (get (price item) "0"))) eqn:Z;
      [apply W|].
    assert (K : forall v, kept (set_qty v item) = true /\ kept item = true).
    { intros v. unfold kept. simpl. rewrite M, N, Z. auto. }
    assert (S0 : forall l, same_but_qty item l ->
                 exists l0, In l0 (item :: rest) /\ same_but_qty l0 l).
    { intros l S. exists item. split; [left; reflexivity | exact S]. }
    destruct p as [q|];
      [destruct (Str.truthy q
                 && negb (has_tpd_marker (Str.strip (get (name item) ""))))|];
      constructor; try apply W; split;
      try apply (K ""); try apply S0; repeat split.
Qed.

(** X2. Quantity markers.  The digits of a line such as "2 @ 5.00" go
    to the next kept line that is no TPD line, whatever the pending
    quantity was before; the lines in between that are dropped or are TPD
    lines do not use them up, and the marker line itself is dropped. *)
Theorem marker_quantity_reaches_next_product
  (p : option string) (m : Item) (q : string)
  (between : list Item) (item : Item) (rest : list Item) :
  marks_qty m q ->
  Forall (fun l => (forall q', ~ marks_qty l q') /\
                   (kept l = true -> tpd_named l = true)) between ->
  kept item = true ->
  tpd_named item = false ->
  clean_loop p (m :: between ++ item :: rest)%list =
  (filter kept between ++ set_qty q item :: clean_loop None rest)%list.
Proof.
  intros M B K T.
  rewrite (clean_loop_marker p m q _ M).
  pose proof (qty_marker_truthy _ _ M) as Q.
  induction B as [|l between [Nm Kt] B IH]; simpl app.
  - simpl filter. apply clean_loop_product; assumption.
  - cbn [filter]. destruct (kept l) eqn:Kl.
    + rewrite (clean_loop_tpd q l _ Kl (Kt eq_refl)).
      simpl. f_equal. exact IH.
    + rewrite (clean_loop_dropped (Some q) l _ Kl Nm). exact IH.
Qed.

Lemma marker_quantity_reaches_next_product_witness :
  clean_loop None
    (raw_line "2 @ 5.00" "" "1" "" ::
     [raw_line "AGE VERIFIED" "1.00" "1" "";
      raw_line "TPD/SHOES" "3.00-" "1" ""] ++
     raw_line "WATER" "10.00" "1" "" :: [])%list
  = (filter kept [raw_line "AGE VERIFIED" "1.00" "1" "";
                  raw_line "TPD/SHOES" "3.00-" "1" ""] ++
     set_qty "2" (raw_line "WATER" "10.00" "1" "") :: clean_loop None [])%list.
Proof.
  apply marker_quantity_reaches_next_product.
  - vm_compute; reflexivity.
  - repeat constructor; try (intros q' H; vm_compute in H; discriminate H);
      vm_compute; intros H; congruence.
  - vm_compute; reflexivity.
  - vm_compute; reflexivity.
Defined.

(** ** The second loop *)

Lemma finalized_lines_in (cleaned : list Item) (x : Item) :
  In x (finalized_lines cleaned) -> In x cleaned.
Proof.
  destruct cleaned as [|first rest]; simpl; [auto|].
  intros [H | H]; [auto|]. apply filter_In in H. right. apply H.
Qed.

Lemma finalize_raises_iff (l : Item) :
  (exists e, finalize l = Raise e) <-> raises_on l.
Proof.
  unfold finalize, raises_on, qty_check. simpl.
  destruct (Num.int_of_str (get (qty l) "1")) as [q|].
  2:{ simpl. split; [intros [e H]; discriminate H|].
      intros (q & p & H & _). discriminate H. }
  destruct (Num.float_of_str (Str.remove_char "-" (clean_price_of l)))
    as [p|].
  2:{ simpl. split; [intros [e H]; discriminate H|].
      intros (q' & p & _ & H & _). discriminate H. }
  destruct (1 <? q) eqn:Q.
  2:{ simpl. split; [intros [e H]; discriminate H|].
      intros (q' & p' & H & _ & Hq & _). injection H as <-.
      apply Z.ltb_ge in Q. lia. }
  apply Z.ltb_lt in Q.
  destruct (Num.float_of_int q) as [qf|e] eqn:F; simpl.
  - split.
    + intros [e H]. revert H. break_match; discriminate.
    + intros (q' & p' & H & _ & _ & H'). injection H as <-. congruence.
  - pose proof (float_of_int_raise _ _ F) as ->.
    split; [|intros _; eexists; reflexivity].
    intros _. exists q, p. auto.
Qed.

Lemma folded_refl (x : Item) : folded x x.
Proof. split; [apply same_line_refl | auto]. Qed.

Lemma folded_trans (x y z : Item) : folded x y -> folded y z -> folded x z.
Proof.
  intros [S1 H1] [S2 H2]. split; [eapply same_line_trans; eassumption|].
  destruct H2 as [-> | H2]; auto.
Qed.

Lemma Forall2_folded_refl (m : list Item) : Forall2 folded m m.
Proof. induction m; constructor; auto using folded_refl. Qed.

Lemma Forall2_folded_trans (a b c : list Item) :
  Forall2 folded a b -> Forall2 folded b c -> Forall2 folded a c.
Proof.
  intros H. revert c. induction H; intros c Hc; inversion Hc; subst;
    constructor; eauto using folded_trans.
Qed.

(** One iteration on a non-empty list: a discount line is folded, any
    other line is finalized and appended. *)
Lemma merge_step_cases (m : list Item) (line : Item) :
  m <> [] -> priced m ->
  if is_discount_line line
  then exists m', merge_step m line = Ok m' /\ Forall2 folded m m' /\
                  priced m' /\ m' <> []
  else merge_step m line = (it <- finalize line ;; Ok (m ++ [it])%list).
Proof.
  intros Hm Hp. unfold merge_step.
  destruct (is_discount_line line); [|reflexivity].
  destruct (unsnoc m) as [[init prev]|] eqn:U.
  - apply unsnoc_inv in U. subst m.
    apply priced_snoc in Hp. destruct Hp as [Hi Hp].
    destruct (fold_discount_priced prev (clean_price_of line) Hp)
      as (prev' & F & Hp').
    rewrite F. simpl. eexists. split; [reflexivity|].
    repeat split.
    + apply Forall2_app; [apply Forall2_folded_refl|].
      constructor; [|constructor].
      destruct (fold_discount_ok _ _ _ F). split; assumption.
    + apply priced_snoc. auto.
    + intros E. apply app_eq_nil in E. destruct E as [_ E]. discriminate E.
  - destruct m; [congruence|]. simpl in U.
    destruct (unsnoc m) as [[? ?]|]; discriminate U.
Qed.

Lemma merge_loop_cases (l : list Item) :
  forall m : list Item,
    m <> [] -> priced m ->
    (merge_loop m l = Raise OverflowError /\
     Exists raises_on (filter (fun x => negb (is_discount_line x)) l))
    \/
    (exists m' new,
        merge_loop m l = Ok (m' ++ new)%list /\
        Forall2 folded m m' /\
        Forall2 made_from (filter (fun x => negb (is_discount_line x)) l)
          new /\
        ~ Exists raises_on (filter (fun x => negb (is_discount_line x)) l)).
Proof.
  induction l as [|line l IH]; intros m Hm Hp.
  - right. exists m, []. rewrite app_nil_r. simpl.
    repeat split; [apply Forall2_folded_refl | constructor |].
    intros H. inversion H.
  - pose proof (merge_step_cases m line Hm Hp) as S.
    cbn [merge_loop filter].
    destruct (is_discount_line line); cbn [negb].
    + destruct S as (m1 & -> & F1 & P1 & N1). simpl.
      destruct (IH m1 N1 P1) as [[E X] | (m' & new & E & F & M & N)].
      * left. auto.
      * right. exists m', new. repeat split; try assumption.
        eapply Forall2_folded_trans; eassumption.
    + rewrite S. destruct (finalize line) as [it|e] eqn:Fi; simpl.
      * assert (Hr : ~ raises_on line).
        { intros R. apply finalize_raises_iff in R. destruct R as [e R].
          congruence. }
        assert (P1 : priced (m ++ [it])%list).
        { apply priced_snoc. split; [assumption|].
          destruct (finalize_ok _ _ Fi) as (-> & _). discriminate. }
        assert (N1 : (m ++ [it])%list <> []).
        { intros E. apply app_eq_nil in E. destruct E as [_ E].
          discriminate E. }
        destruct (IH _ N1 P1) as [[E X] | (m' & new & E & F & M & N)].
        -- left. split; [exact E | apply Exists_cons_tl, X].
        -- right. apply Forall2_app_inv_l in F.
           destruct F as (m1 & l1 & F1 & F2 & ->).
           inversion F2 as [|? it' ? l1' Hit Hnil]; subst.
           inversion Hnil; subst.
           exists m1, (it' :: new). rewrite <- app_assoc in E.
           repeat split; try assumption.
           ++ constructor; [|assumption]. exists it. auto.
           ++ intros X. inversion X; subst; auto.
      * left. destruct (finalize_raise _ _ Fi) as [-> _].
        split; [reflexivity|]. apply Exists_cons_hd.
        apply finalize_raises_iff. eauto.
Qed.

Lemma post_process_cases (items : list Item) :
  (_post_process items = Raise OverflowError /\
   Exists raises_on (finalized_lines (clean_loop None items)))
  \/
  (exists out,
      _post_process items = Ok out /\
      Forall2 made_from (finalized_lines (clean_loop None items)) out /\
      ~ Exists raises_on (finalized_lines (clean_loop None items))).
Proof.
  unfold _post_process.
  destruct (clean_loop None items) as [|first rest].
  - right. exists []. simpl. repeat split; [constructor|].
    intros H. inversion H.
  - cbn [merge_loop finalized_lines]. rewrite merge_step_nil.
    destruct (finalize first) as [it|e] eqn:Fi; simpl.
    + assert (Hr : ~ raises_on first).
      { intros R. apply finalize_raises_iff in R. destruct R as [e R].
        congruence. }
      assert (P1 : priced [it]).
      { constructor; [|constructor].
        destruct (finalize_ok _ _ Fi) as (-> & _). discriminate. }
      destruct (merge_loop_cases rest [it]) as
        [[E X] | (m' & new & E & F & M & N)];
        [discriminate | exact P1 | |].
      * left. split; [exact E | apply Exists_cons_tl, X].
      * right. inversion F as [|? it' ? l1' Hit Hnil]; subst.
        inversion Hnil; subst.
        exists (it' :: new). repeat split; [exact E | |].
        -- constructor; [|assumption]. exists it. auto.
        -- intros X. inversion X; subst; auto.
    + left. destruct (finalize_raise _ _ Fi) as [-> _].
      split; [reflexivity|]. apply Exists_cons_hd.
      apply finalize_raises_iff. eauto.
Qed.

(** X3. When the normaliser raises.  [_post_process] raises exactly
    when one of the lines it finalizes (the first surviving line and
    every later one that is no discount line) has a quantity that is an
    integer above 1 too large for a float, and a cleaned price that is a
    number; the exception is then [OverflowError].  In every other case
    it returns a list. *)
Theorem post_process_raises_iff (items : list Item) :
  ((exists e, _post_process items = Raise e) <->
   Exists raises_on (finalized_lines (clean_loop None items))) /\
  (forall e, _post_process items = Raise e -> e = OverflowError) /\
  (~ Exists raises_on (finalized_lines (clean_loop None items)) ->
   exists out, _post_process items = Ok out).
Proof.
  destruct (post_process_cases items) as [[E X] | (out & E & _ & N)];
    rewrite E.
  - repeat split; try (intros; assumption).
    + intros _. eauto.
    + intros e H. congruence.
    + intros N. contradiction.
  - repeat split.
    + intros [e H]. discriminate H.
    + intros X. contradiction.
    + intros e H. discriminate H.
    + intros _. eauto.
Qed.

(** X4. One item per finalized line.  When [_post_process] returns,
    its output has, in order, one item for the first surviving line and
    one for every later surviving line that is no discount line; each is
    that line finalized, with the same name, quantity and item number,
    and it differs from the finalized line only when a discount was
    folded into it, and then [tpd] is [True]. *)
Theorem one_item_per_finalized_line (items out : list Item) :
  _post_process items = Ok out ->
  Forall2 made_from (finalized_lines (clean_loop None items)) out.
Proof.
  intros H.
  destruct (post_process_cases items) as [[E X] | (out' & E & F & _)];
    congruence.
Qed.

Lemma one_item_per_finalized_line_witness :
  Forall2 made_from
    (finalized_lines
       (clean_loop None
          [raw_line "WATER" "10.00" "1" "";
           raw_line "TPD/WATER" "2.00-" "1" "";
           raw_line "SOAP" "4.00" "1" ""]))
    [mkItem (Some "WATER") (Some "8.00") (Some "1") (Some "")
       (Some true) (Some "10.00");
     mkItem (Some "SOAP") (Some "4.00") (Some "1") (Some "")
       (Some false) (Some "")].
Proof.
  apply one_item_per_finalized_line. vm_compute. reflexivity.
Defined.

Lemma fold_discount_complete (prev prev' : Item) (cp : string) :
  complete prev -> fold_discount prev cp = Ok prev' -> complete prev'.
Proof.
  unfold fold_discount, getitem, complete.
  intros (H1 & H2 & H3).
  repeat break_match; simpl; try discriminate;
    try (intros H; injection H as <-; auto).
  repeat break_match; intros H; injection H as <-; simpl;
    repeat split; congruence.
Qed.

Lemma finalize_complete (l it : Item) : finalize l = Ok it -> complete it.
Proof.
  intros F. destruct (finalize_ok _ _ F) as (Hp & Ht & Ho).
  unfold complete. rewrite Hp, Ht, Ho.
  repeat split; try discriminate.
  - destruct (tpd l); discriminate.
  - destruct (original_price l); discriminate.
Qed.

Lemma merge_step_complete (m m' : list Item) (line : Item) :
  Forall complete m -> merge_step m line = Ok m' -> Forall complete m'.
Proof.
  intros Hm. unfold merge_step.
  destruct (if is_discount_line line then unsnoc m else None)
    as [[init prev]|] eqn:E.
  - destruct (is_discount_line line); [|discriminate].
    apply unsnoc_inv in E. subst m.
    apply Forall_app in Hm. destruct Hm as [Hi Hp].
    inversion Hp; subst.
    destruct (fold_discount prev (clean_price_of line)) as [prev'|] eqn:F;
      simpl; [|discriminate].
    intros H. injection H as <-. apply Forall_app. split; [assumption|].
    constructor; [|constructor]. eapply fold_discount_complete; eassumption.
  - destruct (finalize line) as [it|] eqn:F; simpl; [|discriminate].
    intros H. injection H as <-. apply Forall_app. split; [assumption|].
    constructor; [|constructor]. eapply finalize_complete; eassumption.
Qed.

(** X5. The keys of a normalised item.  Every item that
    [_post_process] returns has the keys [price], [tpd] and
    [original_price], whatever keys the input lines had: a consumer may
    subscript them. *)
Theorem normalised_items_are_complete (items out : list Item) :
  _post_process items = Ok out -> Forall complete out.
Proof.
  unfold _post_process.
  assert (G : forall l m, Forall complete m ->
                merge_loop m l = Ok out -> Forall complete out).
  { induction l as [|line l IH]; intros m Hm; simpl.
    - intros H. injection H as <-. assumption.
    - destruct (merge_step m line) as [m'|] eqn:S; simpl; [|discriminate].
      apply IH. eapply merge_step_complete; eassumption. }
  apply G. constructor.
Qed.

Lemma normalised_items_are_complete_witness :
  Forall complete
    [mkItem (Some "WATER") (Some "10.00") None None (Some false) (Some "")].
Proof.
  apply (normalised_items_are_complete
           [mkItem (Some "WATER") (Some "10.00") None None None None]).
  vm_compute. reflexivity.
Defined.

(** X6. A discount line that cannot be applied.  After any lines that
    leave a finalized item, a discount line whose amount is not a number,
    or that follows an item whose price is not a number, changes nothing:
    the list is returned as it was, and the line is dropped. *)
Theorem unusable_discount_is_dropped
  (pre init : list Item) (prev line : Item) :
  merge_loop [] pre = Ok (init ++ [prev])%list ->
  is_discount_line line = true ->
  Num.float_of_str (Str.remove_char "-" (clean_price_of line)) = None \/
  (forall p, price prev = Some p -> Num.float_of_str p = None) ->
  merge_loop [] (pre ++ [line])%list = Ok (init ++ [prev])%list.
Proof.
  intros Hpre Hd Hu.
  rewrite merge_loop_app, Hpre. simpl.
  rewrite (merge_step_discount init prev line Hd).
  unfold fold_discount.
  destruct Hu as [-> | Hu]; [reflexivity|].
  destruct (merge_loop_priced pre [] (Forall_nil _))
    as [[E _] | (out & E & P)]; [congruence|].
  rewrite Hpre in E. injection E as <-.
  apply priced_snoc in P. destruct P as [_ P].
  destruct (price prev) as [p|]; [|congruence].
  simpl. rewrite (Hu p eq_refl).
  destruct (Num.float_of_str (Str.remove_char "-" (clean_price_of line)));
    reflexivity.
Qed.

Lemma unusable_discount_is_dropped_witness :
  merge_loop []
    ([raw_line "WATER" "10.00" "1" ""] ++ [raw_line "TPD/WATER" "-" "1" ""])
  = Ok ([] ++ [mkItem (Some "WATER") (Some "10.00") (Some "1") (Some "")
                 (Some false) (Some "")])%list.
Proof.
  apply unusable_discount_is_dropped.
  - vm_compute. reflexivity.
  - vm_compute. reflexivity.
  - left. vm_compute. reflexivity.
Defined.

End ReceiptParserMore.

(** * Further properties of the deal filter and the matcher *)

Module AnalyzerMore.
Import Analyzer Props MoreProps Samples MoreSamples AnalyzerFacts.

(** ** The order on strings *)

Lemma leb_refl (s : string) : String.leb s s = true.
Proof.
  unfold String.leb.
  assert (E : String.compare s s = Eq).
  { induction s as [|c s IH]; simpl; [reflexivity|].
    unfold Ascii.compare. rewrite N.compare_refl. exact IH. }
  rewrite E. reflexivity.
Qed.

Lemma leb_trans (a b c : string) :
  String.leb a b = true -> String.leb b c = true -> String.leb a c = true.
Proof.
  revert b c. induction a as [|x a IH]; intros [|y b] [|z c];
    unfold String.leb; simpl; try discriminate; try reflexivity.
  unfold Ascii.compare.
  destruct (N.compare_spec (N_of_ascii x) (N_of_ascii y)),
    (N.compare_spec (N_of_ascii y) (N_of_ascii z)),
    (N.compare_spec (N_of_ascii x) (N_of_ascii z));
    try discriminate; try reflexivity; try lia.
  apply IH.
Qed.

Lemma leb_empty_r (c : ascii) (s : string) :
  String.leb (String c s) "" = false.
Proof. reflexivity. Qed.

Lemma leb_empty_l (s : string) : String.leb "" s = true.
Proof. destruct s; reflexivity. Qed.

(** ** Deal filter *)

Lemma filter_deals_as_filter (f : Filters) (drops : list Deal) :
  _filter_deals f drops = filter (keeps f) drops.
Proof.
  unfold _filter_deals, keeps, source_allowed, given_date.
  destruct f as [df dt ss]; simpl.
  destruct ss as [[|s ss]|], df as [[|c1 df]|], dt as [[|c2 dt]|];
    rewrite ?filter_filter;
    first
      [ apply filter_ext; intros d; simpl;
        rewrite ?andb_true_r, ?andb_assoc; reflexivity
      | symmetry; apply filter_true ].
Qed.

Lemma in_filter_deals (f : Filters) (drops : list Deal) (d : Deal) :
  In d (_filter_deals f drops) <-> In d drops /\ keeps f d = true.
Proof. rewrite filter_deals_as_filter. apply filter_In. Qed.

(** X7. Deals without dates.  A deal that has neither a promotion end
    nor a scan date (each missing or empty) is dropped by every lower
    bound.  An upper bound keeps it when its [promo_end] is present and
    empty, and when the key is missing only if the bound is at least
    "9999". *)
Theorem undated_deal_and_the_bounds (f : Filters) (d : Deal)
  (drops : list Deal) :
  Analyzer.get (d_scanned_date d) "" = "" ->
  (d_promo_end d = None \/ d_promo_end d = Some "") ->
  (forall df, given_date (_date_from f) = Some df ->
              ~ In d (_filter_deals f drops)) /\
  (forall dt, given_date (_date_from f) = None ->
              given_date (_date_to f) = Some dt ->
              source_allowed f d = true -> In d drops ->
              (In d (_filter_deals f drops) <->
               d_promo_end d = Some "" \/ String.leb "9999" dt = true)).
Proof.
  intros Hs Hp.
  assert (Fk : from_key d = "").
  { unfold from_key. rewrite Hs. destruct Hp as [-> | ->]; reflexivity. }
  assert (Tk : to_key d = Analyzer.get (d_promo_end d) "9999").
  { unfold to_key. rewrite Hs. reflexivity. }
  split.
  - intros df Hdf Hin. apply in_filter_deals in Hin.
    destruct Hin as [_ K]. unfold keeps in K. rewrite Hdf, Fk in K.
    unfold given_date in Hdf.
    destruct (_date_from f) as [[|c s]|]; try discriminate.
    injection Hdf as <-. rewrite leb_empty_r in K.
    rewrite andb_false_r in K. discriminate K.
  - intros dt Hdf Hdt Hsrc Hin. rewrite in_filter_deals.
    unfold keeps. rewrite Hdf, Hdt, Hsrc, Tk. simpl.
    destruct Hp as [-> | ->]; simpl.
    + split.
      * intros [_ H]. right. exact H.
      * intros [H | H]; [discriminate H | auto].
    + split; [auto|]. intros _. split; [exact Hin | apply leb_empty_l].
Qed.

Lemma undated_deal_and_the_bounds_witness :
  In (undated (Some "")) (_filter_deals until_june [undated (Some "")]).
Proof.
  destruct (undated_deal_and_the_bounds until_june (undated (Some ""))
              [undated (Some "")] eq_refl (or_intror eq_refl)) as [_ H].
  apply (H "2024-06-30"); try reflexivity.
  - left. reflexivity.
  - left. reflexivity.
Defined.

(** X8. Widening the date range.  With the same source list, a deal
    that passes the bounds [dateFrom] and [dateTo] passes every earlier
    lower bound and every later upper bound, and passes when a bound is
    left out. *)
Theorem wider_range_keeps_more (f g : Filters) (drops : list Deal)
  (d : Deal) :
  _sources g = _sources f ->
  (forall dg, given_date (_date_from g) = Some dg ->
     exists df, given_date (_date_from f) = Some df /\
                String.leb dg df = true) ->
  (forall dg, given_date (_date_to g) = Some dg ->
     exists dt, given_date (_date_to f) = Some dt /\
                String.leb dt dg = true) ->
  In d (_filter_deals f drops) -> In d (_filter_deals g drops).
Proof.
  intros Hs Hf Ht. rewrite !in_filter_deals.
  intros [Hin K]. split; [exact Hin|].
  unfold keeps, source_allowed in *. rewrite Hs.
  apply andb_prop in K. destruct K as [K Kt].
  apply andb_prop in K. destruct K as [Ks Kf].
  rewrite Ks. simpl.
  apply andb_true_intro. split.
  - destruct (given_date (_date_from g)) as [dg|]; [|reflexivity].
    destruct (Hf dg eq_refl) as (df & E & L). rewrite E in Kf.
    eapply leb_trans; eassumption.
  - destruct (given_date (_date_to g)) as [dg|]; [|reflexivity].
    destruct (Ht dg eq_refl) as (dt & E & L). rewrite E in Kt.
    eapply leb_trans; eassumption.
Qed.

Lemma wider_range_keeps_more_witness :
  In long_promo (_filter_deals from_march [long_promo]).
Proof.
  apply (wider_range_keeps_more march_to_june from_march).
  - reflexivity.
  - intros dg H. exists dg. split; [exact H | apply leb_refl].
  - intros dg H. discriminate H.
  - vm_compute. left. reflexivity.
Defined.

(** ** The order of the candidates *)

Section Sorting.
Context {A : Type} (k : A -> string).

Lemma insert_by_in (x y : A) (l : list A) :
  In y (insert_by k x l) -> y = x \/ In y l.
Proof.
  intros H. apply (Permutation_in _ (insert_by_perm k x l)) in H.
  destruct H; auto.
Qed.

Lemma insert_by_sorted (x : A) (l : list A) :
  StronglySorted (fun a b => String.leb (k a) (k b) = true) l ->
  StronglySorted (fun a b => String.leb (k a) (k b) = true)
    (insert_by k x l).
Proof.
  induction 1 as [|y l Hl IH Hy]; simpl.
  - constructor; constructor.
  - destruct (String.leb (k x) (k y)) eqn:E.
    + constructor; [constructor; assumption|].
      constructor; [exact E|].
      eapply Forall_impl; [|exact Hy].
      intros z Hz. simpl in *. eapply leb_trans; eassumption.
    + constructor; [exact IH|].
      apply Forall_forall. intros z Hz.
      apply insert_by_in in Hz. destruct Hz as [-> | Hz].
      * destruct (String.leb_total (k x) (k y)); congruence.
      * rewrite Forall_forall in Hy. apply Hy, Hz.
Qed.

Lemma sort_by_sorted (l : list A) :
  StronglySorted (fun a b => String.leb (k a) (k b) = true) (sort_by k l).
Proof.
  induction l as [|x l IH]; simpl.
  - constructor.
  - apply insert_by_sorted, IH.
Qed.

Lemma insert_by_stable (d : string) (x : A) (l : list A) :
  filter (fun y => String.eqb (k y) d) (insert_by k x l) =
  filter (fun y => String.eqb (k y) d) (x :: l).
Proof.
  induction l as [|y l IH]; [reflexivity|].
  cbn [insert_by].
  destruct (String.leb (k x) (k y)) eqn:E; [reflexivity|].
  cbn [filter] in *. rewrite IH.
  destruct (String.eqb (k x) d) eqn:Ex; [|reflexivity].
  destruct (String.eqb (k y) d) eqn:Ey; [|reflexivity].
  apply String.eqb_eq in Ex, Ey. rewrite Ex, Ey, leb_refl in E.
  discriminate E.
Qed.

Lemma sort_by_stable (d : string) (l : list A) :
  filter (fun y => String.eqb (k y) d) (sort_by k l) =
  filter (fun y => String.eqb (k y) d) l.
Proof.
  induction l as [|x l IH]; [reflexivity|].
  cbn [sort_by fold_right]. fold (sort_by k l).
  rewrite insert_by_stable. cbn [filter]. rewrite IH. reflexivity.
Qed.

End Sorting.

(** X9. The order of the result.  The candidates come out in
    ascending order of [receipt_date] (compared as strings), and
    candidates of one date keep the order of the receipt items they
    were made for. *)
Theorem candidates_sorted_by_date_stably (items : list ReceiptItem)
  (drops : list Deal) :
  StronglySorted
    (fun a b => String.leb (receipt_date a) (receipt_date b) = true)
    (find_potential_matches items drops) /\
  forall d : string,
    filter (fun c => String.eqb (receipt_date c) d)
      (find_potential_matches items drops) =
    filter (fun c => String.eqb (receipt_date c) d)
      (flat_map (fun ri => emitted ri drops) items).
Proof.
  unfold find_potential_matches. split.
  - apply (sort_by_sorted receipt_date).
  - intros d. apply sort_by_stable.
Qed.

(** ** The candidate kept for an item *)

Section Running.
Context {A K : Type} (gt : K -> K -> bool) (key : A -> K).

Lemma py_max_stays (l : list A) (cur : A) :
  (forall x, In x l -> gt (key x) (key cur) = false) ->
  py_max gt key cur l = cur.
Proof.
  unfold py_max. revert cur. induction l as [|x l IH]; intros cur H.
  - reflexivity.
  - simpl. rewrite (H x (or_introl eq_refl)).
    apply IH. intros y Hy. apply H. right. exact Hy.
Qed.

Lemma py_max_app (a b : list A) (cur : A) :
  py_max gt key cur (a ++ b) = py_max gt key (py_max gt key cur a) b.
Proof. unfold py_max. apply fold_left_app. Qed.

Lemma py_max_in (l : list A) (cur : A) :
  In (py_max gt key cur l) (cur :: l).
Proof.
  unfold py_max. revert cur. induction l as [|x l IH]; intros cur.
  - left. reflexivity.
  - simpl. destruct (IH (if gt (key x) (key cur) then x else cur))
      as [E | Hin].
    + destruct (gt (key x) (key cur)); rewrite <- E; auto.
    + right. right. exact Hin.
Qed.

End Running.

(** X10. Ties.  Of the entries matched for a receipt item, the one
    kept is the first that beats every entry before it and is beaten by
    no entry after it: among deals with the same savings and the same
    rank, the one listed first wins. *)
Theorem earliest_best_entry_is_kept (ri : ReceiptItem) (drops : list Deal)
  (pre post : list (MatchCandidate * Z)) (m : MatchCandidate * Z) :
  ri_matches ri drops = (pre ++ m :: post)%list ->
  (forall x, In x pre -> key_gt (key m) (key x) = true) ->
  (forall x, In x post -> key_gt (key x) (key m) = false) ->
  best_match ri drops = Some (fst m).
Proof.
  intros E Hpre Hpost. unfold best_match. rewrite E.
  destruct pre as [|first pre]; simpl.
  - rewrite (py_max_stays _ _ _ _ Hpost). reflexivity.
  - rewrite py_max_app.
    assert (G : key_gt (key m) (key (py_max key_gt key first pre)) = true).
    { apply Hpre. apply py_max_in. }
    unfold py_max at 1. simpl. fold (py_max key_gt key).
    rewrite G.
    change (fold_left
              (fun cur x => if key_gt (key x) (key cur) then x else cur)
              post m) with (py_max key_gt key m post).
    rewrite (py_max_stays _ _ _ _ Hpost). reflexivity.
Qed.

Lemma earliest_best_entry_is_kept_witness :
  best_match widget twin_deals = Some (fst twin_first).
Proof.
  apply (earliest_best_entry_is_kept widget twin_deals []
           [twin_second] twin_first).
  - vm_compute. reflexivity.
  - intros x [].
  - intros x [<- | []]. vm_compute. reflexivity.
Defined.

Lemma classify_nothing (d : Deal) : classify "" [] d = None.
Proof. reflexivity. Qed.

(** X11. Items that cannot match.  A receipt item whose price is not
    a number, or that has no item number and no keyword in its name (no
    word of four letters or more outside the stop list), gets no
    candidate, whatever the deals are. *)
Theorem unmatchable_item_has_no_candidate (ri : ReceiptItem)
  (drops : list Deal) :
  Num.float_of_str (ri_price ri) = None \/
  (ri_item_number ri = "" /\ keywords (ri_name ri) = []) ->
  best_match ri drops = None.
Proof.
  intros H. unfold best_match.
  assert (E : ri_matches ri drops = []).
  { unfold ri_matches. induction drops as [|d drops IH]; [reflexivity|].
    simpl. rewrite IH.
    assert (N : match_entry ri (keywords (ri_name ri)) d = None).
    { unfold match_entry. destruct H as [H | [H1 H2]].
      - rewrite H.
        destruct (classify (ri_item_number ri) (keywords (ri_name ri)) d);
          reflexivity.
      - rewrite H1, H2, classify_nothing. reflexivity. }
    rewrite N. reflexivity. }
  rewrite E. reflexivity.
Qed.

Lemma unmatchable_item_has_no_candidate_witness :
  best_match eggs [deal "KS EGG 24" "" "1.00"] = None.
Proof.
  apply unmatchable_item_has_no_candidate.
  right. split; vm_compute; reflexivity.
Defined.

(** X12. Matching after filtering.  Every candidate found among the
    filtered deals pairs a receipt item with a deal of the list that
    passes the filter: the candidate copies the fields of both, its
    source is one of the sources asked for, and its expiry, when it has
    one, is not before the lower bound. *)
Theorem candidates_come_from_filtered_deals (f : Filters)
  (items : list ReceiptItem) (drops : list Deal) (c : MatchCandidate) :
  In c (find_potential_matches items (_filter_deals f drops)) ->
  (exists ri d,
      In ri items /\ In d drops /\ keeps f d = true /\
      receipt_item c = ri_name ri /\
      receipt_price c = ri_price ri /\
      original_price c = ri_original_price ri /\
      receipt_item_number c = ri_item_number ri /\
      receipt_date c = ri_receipt_date ri /\
      tpd_at_purchase c = ri_tpd ri /\
      deal_name c = d_item_name d /\
      deal_price c = d_sale_price d /\
      deal_item_number c = Analyzer.get (d_item_number d) "" /\
      deal_link c = Analyzer.get (d_link d) "" /\
      classify (ri_item_number ri) (keywords (ri_name ri)) d
        = Some (matched_by c)) /\
  (forall s ss, _sources f = Some (s :: ss) ->
                Str.mem (deal_source c) (s :: ss) = true) /\
  (forall df, given_date (_date_from f) = Some df ->
              deal_expiry c <> "" ->
              String.leb df (deal_expiry c) = true).
Proof.
  intros H. apply in_find_potential_matches in H.
  destruct H as (ri & Hri & Hb).
  apply best_match_in, in_candidates_of, in_ri_matches in Hb.
  destruct Hb as (d & Hd & He).
  apply in_filter_deals in Hd. destruct Hd as [Hd K].
  assert (F : c = mkMatchCandidate
                (ri_name ri) (ri_price ri) (ri_original_price ri)
                (ri_item_number ri) (ri_receipt_date ri) (ri_tpd ri)
                (d_item_name d) (d_sale_price d)
                (Analyzer.get (d_item_number d) "")
                (Analyzer.get (d_source d) "") (Analyzer.get (d_link d) "")
                (Analyzer.get (d_promo_end d) "")
                (matched_by c) (savings c) /\
              classify (ri_item_number ri) (keywords (ri_name ri)) d
                = Some (matched_by c)).
  { unfold match_entry in He.
    destruct (classify (ri_item_number ri) (keywords (ri_name ri)) d)
      as [by_|]; [|discriminate].
    destruct (Num.float_of_str (ri_price ri)); [|discriminate].
    destruct (Num.float_of_str (d_sale_price d)); [|discriminate].
    destruct (Num.ge _ _); [discriminate|].
    injection He as <-. simpl. auto. }
  destruct F as [F C].
  unfold keeps in K.
  apply andb_prop in K. destruct K as [K Kt].
  apply andb_prop in K. destruct K as [Ks Kf].
  split; [|split].
  - exists ri, d. rewrite F at 1 2 3 4 5 6 7 8 9 10. simpl.
    repeat split; try assumption.
    unfold keeps. rewrite Ks, Kf, Kt. reflexivity.
  - intros s ss Hs. unfold source_allowed in Ks. rewrite Hs in Ks.
    rewrite F. exact Ks.
  - intros df Hdf Hne. rewrite Hdf in Kf.
    rewrite F in Hne |- *. simpl in *.
    unfold from_key, or_else in Kf.
    destruct (d_promo_end d) as [pe|]; simpl in *; [|congruence].
    destruct pe; [congruence|]. exact Kf.
Qed.

Lemma candidates_come_from_filtered_deals_witness :
  Str.mem (deal_source widget_match) ["cocowest.ca"] = true.
Proof.
  destruct (candidates_come_from_filtered_deals cocowest_only [widget]
              widget_deals widget_match) as (_ & H & _).
  - vm_compute. left. reflexivity.
  - apply (H "cocowest.ca" []). reflexivity.
Defined.

Lemma lower_upper (s : string) : Str.lower (Str.upper s) = Str.lower s.
Proof.
  unfold Str.lower, Str.upper. induction s as [|c s IH]; simpl;
    [reflexivity|].
  rewrite IH. f_equal.
  destruct c as [[] [] [] [] [] [] [] []]; reflexivity.
Qed.

(** X13. Letter case.  For names in ASCII, the classification of a
    pair does not depend on the case of the letters of the two names:
    the receipt name and the deal name in upper case are classified as
    the names themselves. *)
Theorem matching_ignores_letter_case (num n : string) (d : Deal) :
  ascii_only n -> ascii_only (d_item_name d) ->
  classify num (keywords (Str.upper n)) (shouted d)
  = classify num (keywords n) d.
Proof.
  intros _ _. unfold keywords, classify, shouted. simpl.
  rewrite !lower_upper. reflexivity.
Qed.

Lemma matching_ignores_letter_case_witness :
  classify "" (keywords (Str.upper "Aldo Shoe"))
    (shouted (deal "Aldo Court Shoe" "" "14.00"))
  = classify "" (keywords "Aldo Shoe") (deal "Aldo Court Shoe" "" "14.00").
Proof.
  apply matching_ignores_letter_case; reflexivity.
Defined.

End AnalyzerMore.

(** * From the receipts to the candidates *)

Module ToolsFacts.
Import ReceiptParser Analyzer Tools Props MoreProps PipelineProps Samples.
Import ReceiptParserFacts ReceiptParserMore AnalyzerFacts AnalyzerMore.





(** ** Normalised receipts *)







End ToolsFacts.

(** * The links to the receipts *)

Module LinksFacts.
Import ReceiptParser Tools Links PipelineProps Samples.
Import ReceiptParserFacts AnalyzerFacts.

(** ** Splitting and joining *)

Lemma split_on_nonempty (sep : ascii) (s : string) :
  Text.split_on sep s <> [].
Proof.
  destruct s as [|c s]; simpl; [discriminate|].
  destruct (Ascii.eqb c sep); [discriminate|].
  destruct (Text.split_on sep s); discriminate.
Qed.

Lemma split_on_app (sep : ascii) (a b : string) :
  Text.split_on sep (a ++ String sep b) =
  (Text.split_on sep a ++ Text.split_on sep b)%list.
Proof.
  induction a as [|c a IH]; simpl.
  - rewrite Ascii.eqb_refl. reflexivity.
  - destruct (Ascii.eqb c sep); rewrite IH; [reflexivity|].
    pose proof (split_on_nonempty sep a) as N.
    destruct (Text.split_on sep a); [congruence | reflexivity].
Qed.

Lemma split_on_free (sep : ascii) (s : string) :
  free_of sep s -> Text.split_on sep s = [s].
Proof.
  unfold free_of. induction s as [|c s IH]; simpl; [reflexivity|].
  intros H. apply andb_prop in H. destruct H as [Hc Hs].
  apply negb_true_iff in Hc. rewrite Hc, (IH Hs). reflexivity.
Qed.

Lemma split_on_cell (sep : ascii) (a b : string) :
  free_of sep a ->
  Text.split_on sep (a ++ String sep b) = a :: Text.split_on sep b.
Proof.
  intros H. rewrite split_on_app, (split_on_free _ _ H). reflexivity.
Qed.

Lemma join_cons (sep x : string) (l : list string) :
  l <> [] -> Text.join sep (x :: l) = x ++ sep ++ Text.join sep l.
Proof. destruct l; [congruence | reflexivity]. Qed.

Lemma join_split (sep : ascii) (s : string) :
  Text.join (String sep "") (Text.split_on sep s) = s.
Proof.
  induction s as [|c s IH]; [reflexivity|].
  pose proof (split_on_nonempty sep s) as N.
  cbn [Text.split_on].
  destruct (Ascii.eqb c sep) eqn:E.
  - apply Ascii.eqb_eq in E. subst c.
    rewrite (join_cons _ _ _ N), IH. reflexivity.
  - destruct (Text.split_on sep s) as [|w ws]; [congruence|].
    destruct ws as [|w' ws].
    + simpl in *. congruence.
    + rewrite join_cons in * by discriminate.
      simpl. simpl in IH. rewrite IH. reflexivity.
Qed.

Lemma join_app (sep : string) (l1 l2 : list string) :
  l1 <> [] -> l2 <> [] ->
  Text.join sep (l1 ++ l2) = Text.join sep l1 ++ sep ++ Text.join sep l2.
Proof.
  intros H1 H2. induction l1 as [|x l1 IH]; [congruence|].
  destruct l1 as [|y l1].
  - simpl app. rewrite (join_cons _ _ _ H2). reflexivity.
  - change ((x :: y :: l1) ++ l2)%list with (x :: ((y :: l1) ++ l2))%list.
    rewrite (join_cons sep x ((y :: l1) ++ l2)) by (simpl; discriminate).
    rewrite IH by discriminate.
    rewrite (join_cons sep x (y :: l1)) by discriminate.
    rewrite !append_assoc. reflexivity.
Qed.

(** ** The lookup *)

Lemma in_item_keys (k : string) (item : Item) :
  Str.mem k (item_keys item) = true <-> In k (item_keys item).
Proof.
  unfold Str.mem. rewrite existsb_exists. split.
  - intros (x & Hx & E). apply String.eqb_eq in E. subst x. exact Hx.
  - intros H. exists k. split; [exact H | apply String.eqb_refl].
Qed.

Lemma entered_iff (r : Receipt) (k : string) :
  entered (Analyzer.get (r_items r) []) k = true <-> writes r k.
Proof.
  unfold entered, writes. rewrite existsb_exists.
  split; intros (item & Hi & Hk); exists item; split; try assumption;
    apply in_item_keys; assumption.
Qed.

Lemma add_items_get (rid : string) (items : list Item) :
  forall (lookup d : dict),
    add_items rid items lookup = Ok d ->
    forall k, dict_get k d =
              if entered items k then Some rid else dict_get k lookup.
Proof.
  induction items as [|item rest IH]; intros lookup d; simpl.
  - intros H. injection H as <-. reflexivity.
  - unfold getitem. destruct (name item) as [n|] eqn:En; simpl;
      [|discriminate].
    intros H k. rewrite (IH _ _ H k).
    change (entered (item :: rest) k)
      with (Str.mem k (item_keys item) || entered rest k).
    destruct (entered rest k); [rewrite orb_true_r; reflexivity|].
    rewrite orb_false_r. unfold item_keys. rewrite En.
    unfold Str.mem, dict_set.
    destruct (Str.truthy (Analyzer.get (item_number item) ""));
      simpl; rewrite ?orb_false_r;
      destruct (String.eqb k (Str.upper (Str.strip n)));
      rewrite ?orb_true_r; try reflexivity;
      destruct (String.eqb k (Analyzer.get (item_number item) ""));
      reflexivity.
Qed.

Lemma add_items_cases (rid : string) (items : list Item) :
  forall lookup : dict,
    (add_items rid items lookup = Raise KeyError /\
     Exists (fun i => name i = None) items)
    \/
    (exists d, add_items rid items lookup = Ok d /\
               Forall (fun i => name i <> None) items).
Proof.
  induction items as [|item rest IH]; intros lookup; simpl.
  - right. eexists. split; [reflexivity | constructor].
  - unfold getitem. destruct (name item) as [n|] eqn:En; simpl.
    + match goal with
      | |- context [add_items rid rest ?l] =>
          destruct (IH l) as [[-> X] | (d & -> & F)]
      end.
      * left. split; [reflexivity | apply Exists_cons_tl, X].
      * right. eexists. split; [reflexivity|].
        constructor; [congruence | exact F].
    + left. split; [reflexivity | apply Exists_cons_hd, En].
Qed.

Lemma build_from_cases (receipts : list Receipt) :
  forall lookup : dict,
    (build_from receipts lookup = Raise KeyError /\
     Exists unusable receipts)
    \/
    (exists d, build_from receipts lookup = Ok d /\
               Forall (fun r => ~ unusable r) receipts).
Proof.
  induction receipts as [|r rest IH]; intros lookup; simpl.
  - right. eexists. split; [reflexivity | constructor].
  - unfold getitem, unusable.
    destruct (r_receipt_id r) as [rid|] eqn:Er; simpl;
      [|left; split; [reflexivity | apply Exists_cons_hd; auto]].
    destruct (add_items_cases rid (Analyzer.get (r_items r) []) lookup)
      as [[-> X] | (d & -> & F)]; simpl.
    + left. split; [reflexivity | apply Exists_cons_hd; auto].
    + destruct (IH d) as [[-> X] | (d' & -> & F')].
      * left. split; [reflexivity | apply Exists_cons_tl, X].
      * right. eexists. split; [reflexivity|].
        constructor; [|exact F'].
        rewrite Er. intros [H | H]; [discriminate H|].
        apply Exists_exists in H. destruct H as (i & Hi & Hn).
        rewrite Forall_forall in F. exact (F i Hi Hn).
Qed.

Lemma build_from_get (receipts : list Receipt) :
  forall (lookup d : dict),
    build_from receipts lookup = Ok d ->
    forall k rid,
      dict_get k d = Some rid <->
      (exists pre r post,
          receipts = (pre ++ r :: post)%list /\
          r_receipt_id r = Some rid /\ writes r k /\
          Forall (fun r' => ~ writes r' k) post)
      \/
      (Forall (fun r' => ~ writes r' k) receipts /\
       dict_get k lookup = Some rid).
Proof.
  induction receipts as [|r rest IH]; intros lookup d; simpl.
  - intros H k rid. injection H as <-. split.
    + intros H. right. split; [constructor | exact H].
    + intros [(pre & r & post & E & _) | [_ H]]; [|exact H].
      destruct pre; discriminate E.
  - unfold getitem. destruct (r_receipt_id r) as [rid_r|] eqn:Er; simpl;
      [|discriminate].
    destruct (add_items rid_r (Analyzer.get (r_items r) []) lookup)
      as [lookup'|] eqn:Ea; simpl; [|discriminate].
    intros H k rid. rewrite (IH _ _ H k rid).
    rewrite (add_items_get _ _ _ _ Ea k).
    pose proof (entered_iff r k) as W.
    split.
    + intros [(pre & r0 & post & E & Hid & Hw & Hp) | [Hn Hg]].
      * left. exists (r :: pre), r0, post. rewrite E. auto.
      * destruct (entered (Analyzer.get (r_items r) []) k).
        -- left. exists [], r, rest. injection Hg as <-.
           repeat split; try assumption. apply W. reflexivity.
        -- right. split; [|exact Hg]. constructor; [|exact Hn].
           intros Hw. apply W in Hw. discriminate Hw.
    + intros [(pre & r0 & post & E & Hid & Hw & Hp) | [Hn Hg]].
      * destruct pre as [|r1 pre]; simpl in E; injection E as <- ->.
        -- right. split; [exact Hp|].
           apply W in Hw. rewrite Hw. congruence.
        -- left. exists pre, r0, post. auto.
      * right. inversion Hn as [|? ? Hr Hrest]; subst.
        split; [exact Hrest|].
        destruct (entered (Analyzer.get (r_items r) []) k); [|exact Hg].
        destruct Hr. apply W. reflexivity.
Qed.

(** X16. What the lookup holds.  When [_build_receipt_lookup]
    returns, a key is bound to the id of the last receipt, in table
    order, that has an item with that item number or with that name
    (trimmed, in upper case); a key that no item gives is not bound. *)
Theorem lookup_names_the_last_receipt (receipts : list Receipt) (d : dict) :
  _build_receipt_lookup receipts = Ok d ->
  forall k rid,
    dict_get k d = Some rid <->
    exists pre r post,
      receipts = (pre ++ r :: post)%list /\
      r_receipt_id r = Some rid /\ writes r k /\
      Forall (fun r' => ~ writes r' k) post.
Proof.
  unfold _build_receipt_lookup. intros H k rid.
  rewrite (build_from_get _ _ _ H k rid). split.
  - intros [G | [_ G]]; [exact G | discriminate G].
  - auto.
Qed.

Lemma lookup_names_the_last_receipt_witness :
  dict_get "1234567" water_lookup = Some "r1".
Proof.
  apply (lookup_names_the_last_receipt
           [mkReceipt (Some "r1")
              (Some [raw_line " Water " "3.00" "1" "1234567"]) None]
           water_lookup eq_refl).
  exists [], (mkReceipt (Some "r1")
                (Some [raw_line " Water " "3.00" "1" "1234567"]) None), [].
  repeat split; [|constructor].
  eexists. split; [left; reflexivity|]. left. reflexivity.
Defined.

(** X17. When the lookup cannot be built.  [_build_receipt_lookup]
    raises exactly when a receipt has no [receipt_id] or one of its
    items has no [name]; the exception is [KeyError]. *)
Theorem lookup_raises_on_missing_keys (receipts : list Receipt) :
  ((exists e, _build_receipt_lookup receipts = Raise e) <->
   Exists unusable receipts) /\
  (forall e, _build_receipt_lookup receipts = Raise e -> e = KeyError).
Proof.
  unfold _build_receipt_lookup.
  destruct (build_from_cases receipts []) as [[E X] | (d & E & F)];
    rewrite E.
  - split; [|intros e H; congruence].
    split; [auto | eauto].
  - split; [|intros e H; discriminate H].
    split; [intros [e H]; discriminate H|].
    intros X. apply Exists_exists in X. destruct X as (r & Hr & Hu).
    rewrite Forall_forall in F. destruct (F r Hr Hu).
Qed.

(** ** The rows of the report *)

Lemma inject_line_same (lookup : dict) (line : string) :
  (forall k v, dict_get k lookup = Some v -> v = "") \/
  is_table_row line = false ->
  inject_line lookup line = line.
Proof.
  unfold inject_line. intros [H | H]; [|rewrite H; reflexivity].
  destruct (is_table_row line); [|reflexivity].
  assert (E : forall num name,
             match find_rid lookup num name with
             | Some rid =>
                 if Str.truthy rid && Str.truthy name
                 then Text.set_nth 1 (link name rid)
                        (Text.split_on "|" line)
                 else Text.split_on "|" line
             | None => Text.split_on "|" line
             end = Text.split_on "|" line).
  { intros num name.
    destruct (find_rid lookup num name) as [rid|] eqn:F; [|reflexivity].
    assert (R : rid = "").
    { unfold find_rid in F.
      destruct (dict_get num lookup) as [v|] eqn:G.
      - destruct (Str.truthy v) eqn:T.
        + injection F as <-. apply (H _ _ G).
        + apply (H _ _ F).
      - apply (H _ _ F). }
    subst rid. reflexivity. }
  rewrite E.
  destruct (Nat.leb 3 (List.length (Text.split_on "|" line)));
    apply join_split.
Qed.

(** X18. Line by line.  The links are put in line by line: the result
    for two texts joined by a line feed is the two results joined by a
    line feed. *)
Theorem links_are_injected_line_by_line (a b : string) (lookup : dict) :
  _inject_receipt_links (a ++ String Text.newline b) lookup =
  _inject_receipt_links a lookup
    ++ String Text.newline (_inject_receipt_links b lookup).
Proof.
  unfold _inject_receipt_links.
  rewrite split_on_app, map_app, join_app.
  - reflexivity.
  - pose proof (split_on_nonempty Text.newline a).
    destruct (Text.split_on Text.newline a); [congruence | discriminate].
  - pose proof (split_on_nonempty Text.newline b).
    destruct (Text.split_on Text.newline b); [congruence | discriminate].
Qed.

(** X19. A row that is linked.  In a one-line text that is a table
    row [|c1|c2|rest], when the name in the first cell is not empty and
    the lookup has a non-empty receipt id for the number in the second
    cell or else for the name in upper case, the first cell becomes the
    link [ [name](/api/receipt/id/pdf) ]; the second cell and the rest
    of the row are kept as they were. *)
Theorem known_row_gets_link (lookup : dict) (c1 c2 rest rid : string) :
  free_of "|" c1 -> free_of "|" c2 ->
  free_of Text.newline ("|" ++ c1 ++ "|" ++ c2 ++ "|" ++ rest) ->
  is_table_row ("|" ++ c1 ++ "|" ++ c2 ++ "|" ++ rest) = true ->
  Str.strip c1 <> "" ->
  find_rid lookup (Str.strip c2) (Str.strip c1) = Some rid ->
  rid <> "" ->
  _inject_receipt_links ("|" ++ c1 ++ "|" ++ c2 ++ "|" ++ rest) lookup =
  "|" ++ link (Str.strip c1) rid ++ "|" ++ c2 ++ "|" ++ rest.
Proof.
  intros F1 F2 Fn Hrow Hname Hrid Hne.
  assert (S : Text.split_on "|" ("|" ++ c1 ++ "|" ++ c2 ++ "|" ++ rest) =
              "" :: c1 :: c2 :: Text.split_on "|" rest).
  { change ("|" ++ c1 ++ "|" ++ c2 ++ "|" ++ rest)
      with ("" ++ String "|" (c1 ++ String "|" (c2 ++ String "|" rest))).
    rewrite split_on_cell by reflexivity.
    rewrite (split_on_cell _ _ _ F1), (split_on_cell _ _ _ F2).
    reflexivity. }
  set (line := "|" ++ c1 ++ "|" ++ c2 ++ "|" ++ rest) in *.
  unfold _inject_receipt_links.
  rewrite (split_on_free _ _ Fn). cbn [List.map Text.join].
  unfold inject_line. rewrite Hrow, S.
  pose proof (split_on_nonempty "|" rest) as N.
  destruct (Text.split_on "|" rest) as [|w ws] eqn:Es; [congruence|].
  cbn [List.length Nat.leb nth]. rewrite Hrid.
  assert (T1 : Str.truthy rid = true) by (destruct rid; [congruence | reflexivity]).
  assert (T2 : Str.truthy (Str.strip c1) = true)
    by (destruct (Str.strip c1); [congruence | reflexivity]).
  rewrite T1, T2. cbn [andb Text.set_nth].
  rewrite !join_cons by discriminate.
  rewrite <- Es, join_split. reflexivity.
Qed.

Lemma known_row_gets_link_witness :
  _inject_receipt_links ("|" ++ " Water " ++ "|" ++ " 1234567 " ++ "|" ++ " $3.00 |")
    water_lookup =
  "|" ++ link (Str.strip " Water ") "r1" ++ "|" ++ " 1234567 " ++ "|" ++ " $3.00 |".
Proof.
  apply known_row_gets_link; try (vm_compute; reflexivity);
    vm_compute; discriminate.
Defined.

(** X20. What is left as it is.  A text comes back unchanged when
    none of its lines is a table row (header rows and rule rows are not
    table rows), and also when the lookup has no receipt id other than
    the empty string: splitting at the bars and joining again restores
    every row. *)
Theorem text_without_linked_rows_is_unchanged (text : string)
  (lookup : dict) :
  (forall k v, dict_get k lookup = Some v -> v = "") \/
  Forall (fun l => is_table_row l = false)
    (Text.split_on Text.newline text) ->
  _inject_receipt_links text lookup = text.
Proof.
  intros H. unfold _inject_receipt_links.
  assert (E : List.map (inject_line lookup) (Text.split_on Text.newline text)
              = Text.split_on Text.newline text).
  { rewrite <- (map_id (Text.split_on Text.newline text)) at 2.
    apply map_ext_in. intros l Hl. apply inject_line_same.
    destruct H as [H | H]; [left; exact H | right].
    rewrite Forall_forall in H. apply H, Hl. }
  rewrite E. apply join_split.
Qed.

Lemma text_without_linked_rows_is_unchanged_witness :
  _inject_receipt_links "| Item | Item # | Date |" water_lookup
  = "| Item | Item # | Date |".
Proof.
  apply text_without_linked_rows_is_unchanged.
  right. repeat constructor.
Defined.

End LinksFacts.

(** * The two-call extraction *)

Module PremierFacts.
Import ReceiptParser Premier Props MoreProps PipelineProps Samples.
Import ReceiptParserFacts ReceiptParserMore AnalyzerFacts LinksFacts.

(** ** Items and prices *)

Lemma span_all (p : ascii -> bool) (s : string) :
  Str.all p (fst (Str.span p s)) = true.
Proof.
  induction s as [|c s IH]; simpl; [reflexivity|].
  destruct (p c) eqn:E; [|reflexivity].
  destruct (Str.span p s) as [a b]. simpl in *. rewrite E, IH. reflexivity.
Qed.

Lemma all_app (p : ascii -> bool) (a b : string) :
  Str.all p (a ++ b) = Str.all p a && Str.all p b.
Proof.
  induction a as [|c a IH]; simpl; [reflexivity|].
  rewrite IH, andb_assoc. reflexivity.
Qed.

Lemma price_of_line_shape (line p : string) :
  price_of_line line = Some p -> price_shape p.
Proof.
  unfold price_of_line.
  pose proof (span_all digit_or_dot (Str.strip line)) as A.
  destruct (Str.span digit_or_dot (Str.strip line)) as [ds rest].
  simpl in A.
  destruct (Str.is_empty ds) eqn:E; [discriminate|].
  assert (N : ds <> "") by (intros ->; discriminate E).
  intros H. exists ds. split; [exact N|]. split; [exact A|].
  destruct rest as [|c rest]; [injection H as <-; auto|].
  destruct (Ascii.eqb c "-") eqn:Ec.
  - apply Ascii.eqb_eq in Ec. subst c. injection H as <-. auto.
  - assert (Some ds = Some p) as E'.
    { rewrite <- H. destruct c as [[] [] [] [] [] [] [] []];
        try reflexivity; discriminate Ec. }
    injection E' as <-. auto.
Qed.

Lemma parse_prices_shape (prices_raw : string) :
  Forall price_shape (parse_prices prices_raw).
Proof.
  apply Forall_forall. intros p Hp. unfold parse_prices in Hp.
  apply in_filter_map in Hp. destruct Hp as (line & _ & H).
  eapply price_of_line_shape, H.
Qed.

Lemma default_price_shape : price_shape "0".
Proof. exists "0". repeat split; [discriminate | auto]. Qed.

Lemma in_zip_from (prices : list string) (items : list (string * string)) :
  forall (k n : nat) (it : Item),
    In it (skipn n
             (List.map
                (fun '(i, (num, name)) =>
                   mkItem (Some name) (Some (nth i prices "0")) (Some "1")
                     (Some num) None None)
                (combine (seq k (List.length items)) items))) ->
    exists i num name,
      (k + n <= i)%nat /\
      it = mkItem (Some name) (Some (nth i prices "0")) (Some "1")
             (Some num) None None.
Proof.
  induction items as [|[num name] items IH]; intros k n it; simpl.
  - destruct n; intros [].
  - destruct n as [|n]; simpl.
    + intros [<- | H].
      * exists k, num, name. split; [lia | reflexivity].
      * destruct (IH (S k) O it H) as (i & num' & name' & L & E).
        exists i, num', name'. split; [lia | exact E].
    + intros H. destruct (IH (S k) n it H) as (i & num' & name' & L & E).
      exists i, num', name'. split; [lia | exact E].
Qed.

Lemma in_zip_items (items : list (string * string)) (prices : list string)
  (n : nat) (it : Item) :
  In it (skipn n (zip_items items prices)) ->
  exists i num name,
    (n <= i)%nat /\
    it = mkItem (Some name) (Some (nth i prices "0")) (Some "1")
           (Some num) None None.
Proof. apply (in_zip_from prices items O n it). Qed.

(** X21. The lines of the two-call extraction.  There is one line
    per item line of the first answer that is not skipped, however many
    prices the second answer gives.  Every line has the four keys of an
    extracted line and no other, its quantity is "1", and its price is
    made of digits and dots with at most a minus sign at the end: the
    price matched on a price line, or "0" when the prices run out. *)
Theorem premier_lines_are_well_formed (items_raw prices_raw : string) :
  List.length (premier_items items_raw prices_raw)
    = List.length (parse_items items_raw) /\
  Forall
    (fun it =>
       raw it /\ qty it = Some "1" /\
       name it <> None /\ item_number it <> None /\
       exists p, price it = Some p /\ price_shape p)
    (premier_items items_raw prices_raw).
Proof.
  unfold premier_items. split.
  - unfold zip_items.
    rewrite List.length_map, length_combine, length_seq. apply Nat.min_id.
  - apply Forall_forall. intros it Hit.
    destruct (in_zip_items _ _ O it Hit) as (i & num & name & _ & ->).
    simpl. repeat split; try discriminate.
    eexists. split; [reflexivity|].
    destruct (nth_in_or_default i (parse_prices prices_raw) "0") as [H | ->].
    + pose proof (parse_prices_shape prices_raw) as S.
      rewrite Forall_forall in S. apply S, H.
    + apply default_price_shape.
Qed.

(** ** Into the normaliser *)

(** X22. When the two-call extraction raises.  Every extracted line
    has the quantity "1", so normalising the lines can raise only through
    a quantity marker: when it raises, the exception is [OverflowError]
    and some item line is a quantity marker, such as "2 @ 5.00", whose
    count is too large for a float. *)
Theorem premier_raises_only_on_a_huge_marker
  (items_raw prices_raw : string) (e : exn) :
  parse_receipt_items items_raw prices_raw = Raise e ->
  e = OverflowError /\
  exists (m : Item) (q : string) (z : Z),
    In m (premier_items items_raw prices_raw) /\
    marks_qty m q /\
    Num.int_of_str q = Some z /\
    Num.float_of_int z = Raise OverflowError.
Proof.
  unfold parse_receipt_items. intros H.
  destruct (post_process_cases (premier_items items_raw prices_raw))
    as [[E X] | (out & E & _)]; [|congruence].
  split; [congruence|].
  apply Exists_exists in X. destruct X as (l & Hl & R).
  apply finalized_lines_in in Hl.
  pose proof (clean_loop_qty (premier_items items_raw prices_raw) None) as Q.
  rewrite Forall_forall in Q. destruct (Q l Hl) as (l0 & Hl0 & Hq).
  destruct (in_zip_items _ _ O l0 Hl0) as (i & num & name & _ & E0).
  destruct R as (z & p & Hz & _ & Hlt & Hov).
  destruct Hq as [-> | (q & -> & [Hq | (m & Hm & Mq)])].
  - rewrite E0 in Hz. vm_compute in Hz. injection Hz as <-. lia.
  - discriminate Hq.
  - exists m, q, z. simpl in Hz. auto.
Qed.

Lemma premier_raises_only_on_a_huge_marker_witness :
  OverflowError = OverflowError /\
  exists (m : Item) (q : string) (z : Z),
    In m (premier_items
            ("1 | " ++ huge_qty ++ " @ 5.00"
              ++ String Text.newline "1234567 | WATER")
            ("5.00" ++ String Text.newline "10.00")) /\
    marks_qty m q /\
    Num.int_of_str q = Some z /\
    Num.float_of_int z = Raise OverflowError.
Proof.
  apply (premier_raises_only_on_a_huge_marker
           ("1 | " ++ huge_qty ++ " @ 5.00"
              ++ String Text.newline "1234567 | WATER")
           ("5.00" ++ String Text.newline "10.00")).
  vm_compute. reflexivity.
Defined.

Lemma clean_loop_unpriced (tail : list Item) :
  Forall (fun l => price l = Some "0" /\ tpd_named l = false) tail ->
  forall p, clean_loop p tail = [].
Proof.
  induction 1 as [|l tail [Hp Ht] _ IH]; intros p; [reflexivity|].
  simpl. unfold tpd_named in Ht. rewrite Hp, Ht. simpl.
  destruct (qty_marker (Str.strip (get (name l) ""))); [apply IH|].
  destruct (_NOISE_PATTERNS (Str.strip (get (name l) ""))); apply IH.
Qed.

Lemma clean_loop_app_nil (a b : list Item) :
  (forall p, clean_loop p b = []) ->
  forall p, clean_loop p (a ++ b) = clean_loop p a.
Proof.
  intros Hb. induction a as [|x a IH]; intros p; simpl; [apply Hb|].
  repeat break_match; rewrite ?IH; reflexivity.
Qed.

(** X23. Items without a price.  When the second answer has fewer
    prices than the first has items, the items left over get the price
    "0", and the normaliser drops them unless they are TPD lines: with no
    TPD line among them, the receipt is the one made from the priced
    items alone. *)
Theorem unpriced_items_are_dropped (items_raw prices_raw : string) :
  let its := premier_items items_raw prices_raw in
  let n := List.length (parse_prices prices_raw) in
  Forall (fun l => tpd_named l = false) (skipn n its) ->
  Forall (fun l => price l = Some "0") (skipn n its) /\
  parse_receipt_items items_raw prices_raw = _post_process (firstn n its).
Proof.
  intros its n Ht.
  assert (Z : Forall (fun l => price l = Some "0") (skipn n its)).
  { apply Forall_forall. intros l Hl.
    destruct (in_zip_items _ _ n l Hl) as (i & num & name & L & ->).
    simpl. rewrite nth_overflow by exact L. reflexivity. }
  split; [exact Z|].
  unfold parse_receipt_items, _post_process. fold its.
  rewrite <- (firstn_skipn n its) at 1.
  rewrite clean_loop_app_nil; [reflexivity|].
  apply clean_loop_unpriced.
  rewrite Forall_forall in *. auto.
Qed.

Lemma unpriced_items_are_dropped_witness :
  parse_receipt_items
    ("1234567 | WATER" ++ String Text.newline "7654321 | SOAP") "10.00"
  = _post_process
      (firstn (List.length (parse_prices "10.00"))
         (premier_items
            ("1234567 | WATER" ++ String Text.newline "7654321 | SOAP")
            "10.00")).
Proof.
  apply unpriced_items_are_dropped.
  vm_compute. repeat constructor.
Defined.

(** ** The format of an item line *)

Lemma length_lstrip (p : ascii -> bool) (s : string) :
  (String.length (Str.lstrip_by p s) <= String.length s)%nat.
Proof.
  induction s as [|c s IH]; simpl; [lia|].
  destruct (p c); simpl; lia.
Qed.

Lemma length_rstrip (p : ascii -> bool) (s : string) :
  (String.length (Str.rstrip_by p s) <= String.length s)%nat.
Proof.
  induction s as [|c s IH]; simpl; [lia|].
  destruct (Str.is_empty (Str.rstrip_by p s) && p c); simpl; lia.
Qed.

Lemma lstrip_first (p : ascii -> bool) (c : ascii) (s : string) :
  p c = false -> Str.lstrip_by p (String c s) = String c s.
Proof. intros H. simpl. rewrite H. reflexivity. Qed.

Lemma trimmed_first (c : ascii) (s : string) :
  Str.strip (String c s) = String c s -> Str.is_space c = false.
Proof.
  unfold Str.strip. simpl. destruct (Str.is_space c); [|reflexivity].
  intros H.
  pose proof (length_rstrip Str.is_space (Str.lstrip_by Str.is_space s)).
  pose proof (length_lstrip Str.is_space s).
  rewrite H in *. simpl in *. lia.
Qed.

Lemma trimmed_rstrip (s : string) :
  Str.strip s = s -> Str.rstrip_by Str.is_space s = s.
Proof.
  destruct s as [|c s]; [reflexivity|].
  intros H. pose proof (trimmed_first _ _ H) as F.
  unfold Str.strip in H. simpl in H. rewrite F in H. exact H.
Qed.

Lemma trimmed_lstrip (s : string) :
  Str.strip s = s -> Str.lstrip_by Str.is_space s = s.
Proof.
  destruct s as [|c s]; [reflexivity|].
  intros H. apply lstrip_first. apply (trimmed_first _ _ H).
Qed.

Lemma rstrip_app_keep (p : ascii -> bool) (a b : string) :
  Str.rstrip_by p b <> "" ->
  Str.rstrip_by p (a ++ b) = a ++ Str.rstrip_by p b.
Proof.
  intros H. induction a as [|c a IH]; simpl; [reflexivity|].
  rewrite IH.
  destruct (a ++ Str.rstrip_by p b) eqn:E; [|reflexivity].
  destruct a; simpl in E; [congruence | discriminate E].
Qed.

Lemma rstrip_all (p : ascii -> bool) (b : string) :
  Str.all p b = true -> Str.rstrip_by p b = "".
Proof.
  induction b as [|c b IH]; simpl; [reflexivity|].
  intros H. apply andb_prop in H. destruct H as [Hc Hb].
  rewrite (IH Hb), Hc. reflexivity.
Qed.

Lemma rstrip_app_drop (p : ascii -> bool) (a b : string) :
  Str.all p b = true ->
  Str.rstrip_by p (a ++ b) = Str.rstrip_by p a.
Proof.
  intros H. induction a as [|c a IH]; simpl.
  - apply rstrip_all, H.
  - rewrite IH. reflexivity.
Qed.

Lemma rstrip_free (s : string) :
  free_of "|" s -> Str.rstrip_by is_pipe s = s.
Proof.
  unfold free_of, is_pipe. induction s as [|c s IH]; simpl; [reflexivity|].
  intros H. apply andb_prop in H. destruct H as [Hc Hs].
  apply negb_true_iff in Hc. rewrite (IH Hs), Hc, andb_false_r.
  reflexivity.
Qed.

Lemma free_of_app (sep : ascii) (a b : string) :
  free_of sep a -> free_of sep b -> free_of sep (a ++ b).
Proof.
  unfold free_of. rewrite all_app. intros -> ->. reflexivity.
Qed.

(** A trimmed, non-empty name at the end of a line stays where it is
    when the line is trimmed. *)
Lemma rstrip_line (a name : string) :
  name <> "" -> Str.strip name = name ->
  Str.rstrip_by Str.is_space (a ++ name) = a ++ name.
Proof.
  intros N T. rewrite rstrip_app_keep; rewrite (trimmed_rstrip _ T);
    [reflexivity | exact N].
Qed.

(** X24. The format asked of the model.  An item line
    [NUMBER | NAME] gives that number and that name, whatever the number
    is made of, provided both are non-empty, trimmed and without bar, and
    the line does not start with [ITEM] or [---]. *)
Theorem item_line_with_bar (num name : string) :
  num <> "" -> name <> "" ->
  Str.strip num = num -> Str.strip name = name ->
  free_of "|" num -> free_of "|" name ->
  skipped (num ++ " | " ++ name) = false ->
  parse_item_line (num ++ " | " ++ name) = Some (num, name).
Proof.
  intros Nn Nm Tn Tm Fn Fm Hs.
  destruct num as [|c0 n']; [congruence|].
  pose proof (trimmed_first _ _ Tn) as S0.
  assert (P0 : is_pipe c0 = false).
  { unfold free_of in Fn. simpl in Fn. apply andb_prop in Fn.
    destruct Fn as [Fn _]. apply negb_true_iff in Fn. exact Fn. }
  remember (String c0 n' ++ " | " ++ name) as line eqn:El.
  assert (Lc : line = String c0 (n' ++ " | " ++ name))
    by (subst line; reflexivity).
  assert (La : line = (String c0 n' ++ " | ") ++ name)
    by (subst line; rewrite append_assoc; reflexivity).
  assert (Lb : line = (String c0 n' ++ " ") ++ String "|" (" " ++ name))
    by (subst line; rewrite append_assoc; reflexivity).
  assert (E1 : Str.strip line = line).
  { unfold Str.strip. rewrite Lc, (lstrip_first _ _ _ S0), <- Lc, La.
    apply rstrip_line; assumption. }
  assert (E2 : Text.strip_by is_pipe line = line).
  { unfold Text.strip_by. rewrite Lc, (lstrip_first _ _ _ P0), <- Lc, La.
    rewrite rstrip_app_keep; rewrite (rstrip_free _ Fm);
      [reflexivity | exact Nm]. }
  assert (E3 : Text.split_on "|" line =
               [String c0 n' ++ " "; " " ++ name]).
  { rewrite Lb.
    rewrite split_on_cell by (apply free_of_app; [exact Fn | reflexivity]).
    rewrite split_on_free by (apply (free_of_app _ " " name);
                              [reflexivity | exact Fm]).
    reflexivity. }
  unfold parse_item_line. rewrite E1, E2, E1, Hs, E3.
  f_equal. f_equal.
  - unfold Str.strip.
    change (String c0 n' ++ " ") with (String c0 (n' ++ " ")).
    rewrite (lstrip_first _ _ _ S0).
    change (String c0 (n' ++ " ")) with (String c0 n' ++ " ").
    rewrite rstrip_app_drop by reflexivity.
    apply trimmed_rstrip, Tn.
  - exact Tm.
Qed.

Lemma item_line_with_bar_witness :
  parse_item_line ("1234567" ++ " | " ++ "KS WATER 40PK")
  = Some ("1234567", "KS WATER 40PK").
Proof.
  apply item_line_with_bar; try reflexivity; discriminate.
Defined.

Lemma span_app_stop (p : ascii -> bool) (a : string) (c : ascii)
  (b : string) :
  Str.all p a = true -> p c = false ->
  Str.span p (a ++ String c b) = (a, String c b).
Proof.
  intros Ha Hc. induction a as [|x a IH]; simpl.
  - rewrite Hc. reflexivity.
  - simpl in Ha. apply andb_prop in Ha. destruct Ha as [Hx Ha].
    rewrite Hx, (IH Ha). reflexivity.
Qed.

Lemma take_app_le (n : nat) (a b : string) :
  (n <= String.length a)%nat -> Str.take n (a ++ b) = Str.take n a.
Proof.
  revert a. induction n as [|n IH]; intros a H; [reflexivity|].
  destruct a as [|c a]; simpl in *; [lia|].
  rewrite IH by lia. reflexivity.
Qed.

Lemma drop_app_le (n : nat) (a b : string) :
  (n <= String.length a)%nat -> Str.drop n (a ++ b) = Str.drop n a ++ b.
Proof.
  revert a. induction n as [|n IH]; intros a H; [reflexivity|].
  destruct a as [|c a]; simpl in *; [lia|].
  apply IH. lia.
Qed.

Lemma take_all (n : nat) (a : string) :
  (String.length a <= n)%nat -> Str.take n a = a.
Proof.
  revert a. induction n as [|n IH]; intros a H.
  - destruct a; simpl in *; [reflexivity | lia].
  - destruct a as [|c a]; simpl in *; [reflexivity|].
    rewrite IH by lia. reflexivity.
Qed.

Lemma drop_all (n : nat) (a : string) :
  (String.length a <= n)%nat -> Str.drop n a = "".
Proof.
  revert a. induction n as [|n IH]; intros a H.
  - destruct a; simpl in *; [reflexivity | lia].
  - destruct a as [|c a]; simpl in *; [reflexivity|].
    apply IH. lia.
Qed.

Lemma drop_nonempty (n : nat) (a : string) :
  (n < String.length a)%nat ->
  exists c s, Str.drop n a = String c s /\
              (Str.all Str.is_digit a = true -> Str.is_digit c = true).
Proof.
  revert a. induction n as [|n IH]; intros a H.
  - destruct a as [|c a]; simpl in *; [lia|].
    exists c, a. split; [reflexivity|].
    intros D. apply andb_prop in D. apply D.
  - destruct a as [|c a]; simpl in *; [lia|].
    destruct (IH a) as (c' & s & E & D); [lia|].
    exists c', s. split; [exact E|].
    intros D'. apply andb_prop in D'. apply D, D'.
Qed.

Lemma digit_not_space (c : ascii) :
  Str.is_digit c = true -> Str.is_space c = false /\ is_pipe c = false.
Proof.
  destruct c as [[] [] [] [] [] [] [] []]; try discriminate; auto.
Qed.

Lemma skipped_digit (c : ascii) (s : string) :
  Str.is_digit c = true -> skipped (String c s) = false.
Proof.
  destruct c as [[] [] [] [] [] [] [] []]; try discriminate; reflexivity.
Qed.

Lemma digits_free (num : string) :
  Str.all Str.is_digit num = true -> free_of "|" num.
Proof.
  unfold free_of. induction num as [|c num IH]; simpl; [reflexivity|].
  intros H. apply andb_prop in H. destruct H as [Hc Hn].
  rewrite (IH Hn), andb_true_r.
  destruct (digit_not_space c Hc) as [_ P]. unfold is_pipe in P.
  rewrite P. reflexivity.
Qed.

(** X25. An item line without bar.  In a line [DIGITS NAME], the
    digits are the item number when there are four to eight of them; of
    more than eight digits the first eight are the item number, and the
    others stay at the head of the name; fewer than four digits are no
    item number, and the whole line is the name. *)
Theorem item_line_without_bar (num name : string) :
  num <> "" -> Str.all Str.is_digit num = true ->
  name <> "" -> Str.strip name = name -> free_of "|" name ->
  let line := num ++ " " ++ name in
  ((String.length num < 4)%nat ->
   parse_item_line line = Some ("", line)) /\
  ((4 <= String.length num <= 8)%nat ->
   parse_item_line line = Some (num, name)) /\
  ((8 < String.length num)%nat ->
   parse_item_line line =
   Some (Str.take 8 num, Str.drop 8 num ++ " " ++ name)).
Proof.
  intros Nn Dn Nm Tm Fm. cbv zeta.
  remember (num ++ " " ++ name) as line eqn:El.
  destruct num as [|c0 n'] eqn:En; [congruence|]. rewrite <- En in *.
  assert (D0 : Str.is_digit c0 = true).
  { rewrite En in Dn. simpl in Dn. apply andb_prop in Dn. apply Dn. }
  destruct (digit_not_space _ D0) as [S0 P0].
  assert (Lc : line = String c0 (n' ++ " " ++ name))
    by (subst line; rewrite En; reflexivity).
  assert (La : line = (num ++ " ") ++ name)
    by (subst line; rewrite append_assoc; reflexivity).
  assert (E1 : Str.strip line = line).
  { unfold Str.strip. rewrite Lc, (lstrip_first _ _ _ S0), <- Lc, La.
    apply rstrip_line; assumption. }
  assert (E2 : Text.strip_by is_pipe line = line).
  { unfold Text.strip_by. rewrite Lc, (lstrip_first _ _ _ P0), <- Lc, La.
    rewrite rstrip_app_keep; rewrite (rstrip_free _ Fm);
      [reflexivity | exact Nm]. }
  assert (E3 : Text.split_on "|" line = [line]).
  { apply split_on_free. rewrite El.
    apply free_of_app; [apply digits_free, Dn|].
    apply (free_of_app _ " " name); [reflexivity | exact Fm]. }
  assert (E4 : skipped line = false)
    by (rewrite Lc; apply skipped_digit, D0).
  assert (E5 : Str.span Str.is_digit line = (num, " " ++ name))
    by (rewrite El; apply span_app_stop; [exact Dn | reflexivity]).
  unfold parse_item_line. rewrite E1, E2, E1, E4, E3.
  unfold number_then_name. rewrite E5.
  split; [|split]; intros Hl.
  - apply Nat.leb_gt in Hl. rewrite Hl.
    assert (E6 : Str.lstrip_by Str.is_space line = line)
      by (rewrite Lc; apply lstrip_first, S0).
    rewrite E6, E1. reflexivity.
  - destruct Hl as [H4 H8]. rewrite (proj2 (Nat.leb_le _ _) H4).
    rewrite (Nat.min_r _ _ H8).
    rewrite El, take_app_le, drop_app_le by lia.
    rewrite take_all, drop_all by lia.
    change (Str.lstrip_by Str.is_space ("" ++ " " ++ name))
      with (Str.lstrip_by Str.is_space name).
    rewrite (trimmed_lstrip _ Tm), Tm. reflexivity.
  - assert (H4 : (4 <= String.length num)%nat) by lia.
    rewrite (proj2 (Nat.leb_le _ _) H4).
    rewrite Nat.min_l by lia.
    rewrite El, take_app_le, drop_app_le by lia.
    destruct (drop_nonempty 8 num Hl) as (c & s & Ed & Dc).
    rewrite Ed. destruct (digit_not_space _ (Dc Dn)) as [Sc _].
    change (String c s ++ " " ++ name) with (String c (s ++ " " ++ name)).
    rewrite (lstrip_first _ _ _ Sc).
    unfold Str.strip. rewrite (lstrip_first _ _ _ Sc).
    change (String c (s ++ " " ++ name)) with (String c s ++ " " ++ name).
    rewrite <- append_assoc. rewrite rstrip_line by assumption.
    reflexivity.
Qed.

Lemma item_line_without_bar_witness :
  parse_item_line ("1234567" ++ " " ++ "KS WATER 40PK")
  = Some ("1234567", "KS WATER 40PK").
Proof.
  apply (item_line_without_bar "1234567" "KS WATER 40PK");
    try reflexivity; try discriminate.
  simpl. lia.
Defined.

End PremierFacts.

(** * The request and the report *)

Module ReportFacts.
Import Analyzer App Links Props PipelineProps Samples MoreSamples.
Import AnalyzerFacts AnalyzerMore LinksFacts.

(** ** The sources of a request *)

Lemma mem_iff (s : string) (l : list string) :
  Str.mem s l = true <-> In s l.
Proof.
  unfold Str.mem. rewrite existsb_exists. split.
  - intros (x & Hx & E). apply String.eqb_eq in E. subst x. exact Hx.
  - intros H. exists s. split; [exact H | apply String.eqb_refl].
Qed.

(** X26. The [sources] parameter.  A non-empty [sources] parameter is
    cut at its commas and every piece is trimmed; a deal passes exactly
    when its source (the empty string when it has none) is one of the
    trimmed pieces.  So the parameter always restricts the deals, and an
    empty piece selects the deals without source. *)
Theorem sources_parameter_selects_deals (sources : string)
  (drops : list Deal) (d : Deal) :
  sources <> "" ->
  (In d (_filter_deals (request_filters None None (Some sources)) drops)
   <->
   In d drops /\
   exists piece, In piece (Text.split_on "," sources) /\
                 Str.strip piece = Analyzer.get (d_source d) "").
Proof.
  intros N. rewrite in_filter_deals.
  assert (K : keeps (request_filters None None (Some sources)) d =
              Str.mem (Analyzer.get (d_source d) "")
                (List.map Str.strip (Text.split_on "," sources))).
  { unfold keeps, source_allowed, request_filters, src_list.
    destruct sources as [|c s]; [congruence|].
    pose proof (split_on_nonempty "," (String c s)) as Hne.
    cbn [_sources _date_from _date_to given_date Str.truthy Str.is_empty
         negb].
    destruct (Text.split_on "," (String c s)) as [|w ws];
      [congruence|].
    cbn [List.map]. rewrite !andb_true_r. reflexivity. }
  rewrite K, mem_iff, in_map_iff.
  split; intros [H (piece & H1 & H2)]; (split; [exact H|]);
    exists piece; auto.
Qed.

Lemma sources_parameter_selects_deals_witness :
  In (deal "WIDGET DEAL" "1234567" "5.00")
    (_filter_deals (request_filters None None (Some "rfd, cocowest.ca "))
       [deal "WIDGET DEAL" "1234567" "5.00"]).
Proof.
  apply sources_parameter_selects_deals; [discriminate|].
  split; [left; reflexivity|].
  exists " cocowest.ca ". split; [right; left; reflexivity | reflexivity].
Defined.

(** ** Blank lines *)

Lemma is_newline_eq (c : ascii) : is_newline c = true -> c = Text.newline.
Proof. apply Ascii.eqb_eq. Qed.

Lemma prefix_newline (c : ascii) (p s : string) :
  String.prefix (String Text.newline p) (String c s) =
  is_newline c && String.prefix p s.
Proof.
  unfold is_newline. cbn [String.prefix].
  destruct (ascii_dec Text.newline c) as [<- | Hn].
  - rewrite Ascii.eqb_refl. reflexivity.
  - destruct (Ascii.eqb c Text.newline) eqn:E; [|reflexivity].
    apply Ascii.eqb_eq in E. congruence.
Qed.

Lemma prefix_blank_lines (s : string) :
  String.prefix blank_lines s =
  match s with
  | String c1 (String c2 (String c3 _)) =>
      is_newline c1 && is_newline c2 && is_newline c3
  | _ => false
  end.
Proof.
  unfold blank_lines.
  destruct s as [|c1 [|c2 [|c3 s]]]; try reflexivity;
    rewrite ?prefix_newline.
  - simpl. apply andb_false_r.
  - simpl. rewrite !andb_false_r. reflexivity.
  - simpl. destruct s; rewrite andb_true_r, andb_assoc; reflexivity.
Qed.

Lemma replace_eq (c1 c2 c3 : ascii) (s : string) :
  replace_blank_lines (String c1 (String c2 (String c3 s))) =
  if is_newline c1 && is_newline c2 && is_newline c3
  then String Text.newline (String Text.newline (replace_blank_lines s))
  else String c1 (replace_blank_lines (String c2 (String c3 s))).
Proof. reflexivity. Qed.

Lemma cap_runs_cons (r : nat) (c : ascii) (s : string) :
  cap_runs r (String c s) =
  if is_newline c
  then (if Nat.ltb r 2 then String c (cap_runs (S r) s)
        else cap_runs (S r) s)
  else String c (cap_runs O s).
Proof. reflexivity. Qed.

Lemma cap_runs_ge2 (s : string) :
  forall r, (2 <= r)%nat -> cap_runs r s = cap_runs 2 s.
Proof.
  induction s as [|c s IH]; intros r Hr; [reflexivity|].
  rewrite !cap_runs_cons.
  destruct (is_newline c); [|reflexivity].
  assert (E : Nat.ltb r 2 = false) by (apply Nat.ltb_ge; exact Hr).
  rewrite E. change (Nat.ltb 2 2) with false. cbv iota.
  rewrite (IH (S r)) by lia. rewrite (IH 3%nat) by lia. reflexivity.
Qed.

Lemma cap_replace (n : nat) :
  forall s, (String.length s <= n)%nat ->
  forall r, cap_runs r (replace_blank_lines s) = cap_runs r s.
Proof.
  induction n as [|n IH]; intros s Hs r.
  - destruct s; [reflexivity | simpl in Hs; lia].
  - destruct s as [|c1 [|c2 [|c3 s]]]; try reflexivity.
    rewrite replace_eq.
    destruct (is_newline c1 && is_newline c2 && is_newline c3) eqn:E.
    + apply andb_prop in E. destruct E as [E E3].
      apply andb_prop in E. destruct E as [E1 E2].
      apply is_newline_eq in E1, E2, E3. subst c1 c2 c3.
      rewrite !cap_runs_cons.
      change (is_newline Text.newline) with true. cbv iota.
      assert (G : cap_runs (S (S r)) (replace_blank_lines s)
                  = cap_runs (S (S (S r))) s).
      { rewrite IH by (simpl in Hs; lia).
        rewrite (cap_runs_ge2 s (S (S r))) by lia.
        rewrite (cap_runs_ge2 s (S (S (S r)))) by lia. reflexivity. }
      assert (F : Nat.ltb (S (S r)) 2 = false)
        by (apply Nat.ltb_ge; lia).
      rewrite F, G.
      destruct (Nat.ltb r 2), (Nat.ltb (S r) 2); reflexivity.
    + rewrite (cap_runs_cons r c1 (replace_blank_lines _)).
      rewrite (cap_runs_cons r c1 (String c2 (String c3 s))).
      rewrite !(IH (String c2 (String c3 s))) by (simpl in *; lia).
      reflexivity.
Qed.

Lemma no_blank_lines_lead (s : string) :
  Str.contains blank_lines s = false -> (leading_newlines s <= 2)%nat.
Proof.
  destruct s as [|c1 s]; [simpl; lia|].
  rewrite contains_cons, prefix_blank_lines. intros H.
  apply orb_false_elim in H. destruct H as [H _].
  destruct s as [|c2 [|c3 s]]; simpl;
    repeat match goal with
           | |- context [is_newline ?c] => destruct (is_newline c)
           end; simpl in *; try lia; discriminate H.
Qed.

Lemma cap_runs_same (s : string) :
  forall r,
    Str.contains blank_lines s = false ->
    (r + leading_newlines s <= 2)%nat ->
    cap_runs r s = s.
Proof.
  induction s as [|c s IH]; intros r Hc Hr; [reflexivity|].
  rewrite contains_cons in Hc. apply orb_false_elim in Hc.
  destruct Hc as [_ Hc].
  rewrite cap_runs_cons. simpl in Hr.
  destruct (is_newline c).
  - assert (E : Nat.ltb r 2 = true) by (apply Nat.ltb_lt; lia).
    rewrite E, IH; [reflexivity | exact Hc | lia].
  - rewrite IH; [reflexivity | exact Hc|].
    pose proof (no_blank_lines_lead s Hc). lia.
Qed.

Lemma replace_shorter (n : nat) :
  forall s, (String.length s <= n)%nat ->
  (String.length (replace_blank_lines s) <= String.length s)%nat /\
  (Str.contains blank_lines s = true ->
   String.length (replace_blank_lines s) < String.length s)%nat.
Proof.
  induction n as [|n IH]; intros s Hs.
  - destruct s; [|simpl in Hs; lia].
    split; [simpl; lia | intros H; discriminate H].
  - destruct s as [|c1 [|c2 [|c3 s]]].
    + split; [simpl; lia | intros H; discriminate H].
    + split; [simpl; lia|]. rewrite contains_cons, prefix_blank_lines.
      intros H; discriminate H.
    + split; [simpl; lia|]. rewrite !contains_cons, !prefix_blank_lines.
      intros H; discriminate H.
    + rewrite replace_eq, contains_cons, prefix_blank_lines.
      destruct (is_newline c1 && is_newline c2 && is_newline c3).
      * destruct (IH s) as [L _]; [simpl in Hs; lia|].
        simpl. split; [lia | intros _; lia].
      * destruct (IH (String c2 (String c3 s))) as [L G];
          [simpl in *; lia|].
        cbn [String.length] in *. split; [lia|].
        intros H. simpl orb in H. specialize (G H). lia.
Qed.

Lemma squeeze_caps (fuel : nat) :
  forall text, (String.length text < fuel)%nat ->
  squeeze fuel text = Some (cap_runs O text).
Proof.
  induction fuel as [|fuel IH]; intros text H; [lia|].
  simpl. destruct (Str.contains blank_lines text) eqn:C.
  - destruct (replace_shorter _ text (Nat.le_refl _)) as [_ G].
    specialize (G C). rewrite IH by lia.
    rewrite (cap_replace _ text (Nat.le_refl _)). reflexivity.
  - rewrite cap_runs_same; [reflexivity | exact C|].
    pose proof (no_blank_lines_lead text C). lia.
Qed.

Lemma squeeze_done (fuel : nat) :
  forall text t, squeeze fuel text = Some t ->
                 Str.contains blank_lines t = false.
Proof.
  induction fuel as [|fuel IH]; intros text t; simpl; [discriminate|].
  destruct (Str.contains blank_lines text) eqn:C.
  - apply IH.
  - intros H. injection H as <-. exact C.
Qed.

Lemma cap_runs_erases (s : string) :
  forall r,
    Str.remove_char Text.newline (cap_runs r s)
    = Str.remove_char Text.newline s.
Proof.
  induction s as [|c s IH]; intros r; [reflexivity|].
  rewrite cap_runs_cons. unfold is_newline.
  destruct (Ascii.eqb c Text.newline) eqn:Ec.
  - destruct (Nat.ltb r 2); simpl; rewrite Ec; apply IH.
  - simpl. rewrite Ec, IH. reflexivity.
Qed.

(** X27. Blank lines of the report.  The loop that replaces three
    line feeds by two ends after at most as many rounds as the text has
    characters, and what it leaves is the text with every run of line
    feeds cut down to two: nothing else is changed, and no three line
    feeds in a row remain. *)
Theorem blank_lines_are_capped (text : string) (fuel : nat) :
  (String.length text < fuel)%nat ->
  squeeze fuel text = Some (cap_runs O text) /\
  Str.contains blank_lines (cap_runs O text) = false /\
  Str.remove_char Text.newline (cap_runs O text)
    = Str.remove_char Text.newline text.
Proof.
  intros H. pose proof (squeeze_caps fuel text H) as E.
  split; [exact E|]. split; [eapply squeeze_done, E|].
  apply cap_runs_erases.
Qed.

Lemma blank_lines_are_capped_witness :
  squeeze 8
    ("a" ++ String Text.newline
              (String Text.newline (String Text.newline
                 (String Text.newline "b"))))
  = Some (cap_runs O
            ("a" ++ String Text.newline
                      (String Text.newline (String Text.newline
                         (String Text.newline "b"))))).
Proof.
  apply blank_lines_are_capped. simpl. lia.
Defined.

End ReportFacts.
